(** * Tennis calendars: the event reconciliation of [main.py]

    A shallow embedding of the functions of [main.py] that decide, for one
    match and the calendar event of the same name, whether an event is
    created, updated or left alone, together with the parts of Python's
    [str] and [datetime] that these functions rely on.

    - Strings are [string]; slicing, [rfind] and [replace] follow Python.
    - A [datetime] is the record of civil fields Python keeps, with the
      offset of its fixed time zone; arithmetic goes through the proleptic
      Gregorian ordinal as [datetime.py] does.
    - The functions talk to the calendar service and print; they are
      written in a monad that records these effects in order and stops at
      the first exception, keeping what happened before it. *)

From Stdlib Require Import ZArith Lia Bool List String Ascii.
Import ListNotations.
Local Open Scope string_scope.
Local Open Scope Z_scope.

(* ================================================================== *)
(** ** Python strings *)

Module PyStr.

Definition len (s : string) : Z := Z.of_nat (String.length s).

(** [s[:k]] for a non-negative [k]. *)
Fixpoint take (n : nat) (s : string) : string :=
  match n, s with
  | O, _ => EmptyString
  | S _, EmptyString => EmptyString
  | S n', String c s' => String c (take n' s')
  end.

(** [s[:k]]: a negative [k] counts from the end, and the bound is
    clamped to the string. *)
Definition slice_to (s : string) (k : Z) : string :=
  if k <? 0 then take (Z.to_nat (len s + k)) s else take (Z.to_nat k) s.

(** [s.rfind(c)] for a one-character [c]: the highest index of [c] in
    [s], and [-1] when [c] does not occur. *)
Fixpoint rfind_from (c : ascii) (s : string) (i : Z) (last : Z) : Z :=
  match s with
  | EmptyString => last
  | String a s' => rfind_from c s' (i + 1) (if Ascii.eqb a c then i else last)
  end.

Definition rfind (s : string) (c : ascii) : Z := rfind_from c s 0 (-1).

(** [s.replace(c, by)] for a one-character [c]. *)
Fixpoint replace (c : ascii) (by_ : string) (s : string) : string :=
  match s with
  | EmptyString => EmptyString
  | String a s' =>
      if Ascii.eqb a c then by_ ++ replace c by_ s' else String a (replace c by_ s')
  end.

(** [c in s]. *)
Fixpoint occurs (c : ascii) (s : string) : bool :=
  match s with
  | EmptyString => false
  | String a s' => Ascii.eqb a c || occurs c s'
  end.

Definition tab : string := String (ascii_of_nat 9) EmptyString.
Definition nl : string := String (ascii_of_nat 10) EmptyString.

(** The decimal digit [d], for [0 <= d <= 9]. *)
Definition digit_char (d : Z) : ascii := ascii_of_nat (48 + Z.to_nat d).

(** The value of a decimal digit, [None] for any other character. *)
Definition digit_val (c : ascii) : option Z :=
  let n := Z.of_nat (nat_of_ascii c) in
  if (48 <=? n) && (n <=? 57) then Some (n - 48) else None.

(** ["%02d" % n], ["%04d" % n] and ["%06d" % n] on the values the fields
    of a datetime take ([0 <= n < 10^width]). *)
Definition pad2 (n : Z) : string :=
  String (digit_char (n / 10)) (String (digit_char (n mod 10)) EmptyString).
Definition pad4 (n : Z) : string := pad2 (n / 100) ++ pad2 (n mod 100).
Definition pad6 (n : Z) : string := pad2 (n / 10000) ++ pad4 (n mod 10000).

(** ["%d" % n]. *)
Fixpoint digits_fuel (fuel : nat) (n : Z) (acc : string) : string :=
  match fuel with
  | O => acc
  | S f =>
      let acc' := String (digit_char (n mod 10)) acc in
      if n <? 10 then acc' else digits_fuel f (n / 10) acc'
  end.

Definition str_of_Z (n : Z) : string :=
  let fuel := S (Z.to_nat (Z.log2 (Z.abs n))) in
  if n <? 0 then "-" ++ digits_fuel fuel (- n) "" else digits_fuel fuel n "".

End PyStr.

(* ================================================================== *)
(** ** Exceptions and results *)

Inductive exn : Type :=
| ValueError
| OverflowError.

Inductive outcome (A : Type) : Type :=
| Return (a : A)
| Raise (e : exn).

Arguments Return {A} a.
Arguments Raise {A} e.

Definition obind {A B} (x : outcome A) (f : A -> outcome B) : outcome B :=
  match x with
  | Return a => f a
  | Raise e => Raise e
  end.

(** A failed match of [strptime] is a [ValueError]. *)
Definition or_ValueError {A} (x : option A) : outcome A :=
  match x with
  | Some a => Return a
  | None => Raise ValueError
  end.

(* ================================================================== *)
(** ** Python's [datetime] *)

Module PyDatetime.

Definition MINYEAR : Z := 1.
Definition MAXYEAR : Z := 9999.
Definition MAXORDINAL : Z := 3652059.

Definition US_PER_SECOND : Z := 1000000.
Definition US_PER_MINUTE : Z := 60 * US_PER_SECOND.
Definition US_PER_HOUR : Z := 60 * US_PER_MINUTE.
Definition US_PER_DAY : Z := 24 * US_PER_HOUR.

(** *** The proleptic Gregorian calendar, as in [datetime.py] *)

Definition is_leap (year : Z) : bool :=
  (year mod 4 =? 0) && (negb (year mod 100 =? 0) || (year mod 400 =? 0)).

Definition days_before_year (year : Z) : Z :=
  let y := year - 1 in
  y * 365 + y / 4 - y / 100 + y / 400.

Definition DAYS_IN_MONTH (month : Z) : Z :=
  match month with
  | 1 => 31 | 2 => 28 | 3 => 31 | 4 => 30 | 5 => 31 | 6 => 30
  | 7 => 31 | 8 => 31 | 9 => 30 | 10 => 31 | 11 => 30 | 12 => 31
  | _ => -1
  end.

Definition DAYS_BEFORE_MONTH (month : Z) : Z :=
  match month with
  | 1 => 0 | 2 => 31 | 3 => 59 | 4 => 90 | 5 => 120 | 6 => 151
  | 7 => 181 | 8 => 212 | 9 => 243 | 10 => 273 | 11 => 304 | 12 => 334
  | _ => -1
  end.

Definition days_in_month (year month : Z) : Z :=
  if (month =? 2) && is_leap year then 29 else DAYS_IN_MONTH month.

Definition days_before_month (year month : Z) : Z :=
  DAYS_BEFORE_MONTH month + (if (2 <? month) && is_leap year then 1 else 0).

Definition ymd2ord (year month day : Z) : Z :=
  days_before_year year + days_before_month year month + day.

Definition DI400Y : Z := 146097.
Definition DI100Y : Z := 36524.
Definition DI4Y : Z := 1461.

Definition ord2ymd (n : Z) : Z * Z * Z :=
  let n := n - 1 in
  let n400 := n / DI400Y in
  let n := n mod DI400Y in
  let year := n400 * 400 + 1 in
  let n100 := n / DI100Y in
  let n := n mod DI100Y in
  let n4 := n / DI4Y in
  let n := n mod DI4Y in
  let n1 := n / 365 in
  let n := n mod 365 in
  let year := year + n100 * 100 + n4 * 4 + n1 in
  if (n1 =? 4) || (n100 =? 4) then (year - 1, 12, 31)
  else
    let leapyear := (n1 =? 3) && (negb (n4 =? 24) || (n100 =? 3)) in
    let month := Z.shiftr (n + 50) 5 in
    let preceding :=
      DAYS_BEFORE_MONTH month + (if (2 <? month) && leapyear then 1 else 0) in
    if n <? preceding then
      let month := month - 1 in
      let preceding :=
        preceding - (DAYS_IN_MONTH month + (if (month =? 2) && leapyear then 1 else 0)) in
      (year, month, n - preceding + 1)
    else (year, month, n - preceding + 1).

(** *** Aware datetimes

    The civil fields and the offset of the fixed time zone, in
    microseconds east of UTC ([datetime.timezone.utc] is offset [0]).
    Every datetime of this program carries a time zone: [now] is taken
    with [tz=utc], [strptime] reads [%z], and the start of a match is
    compared with both. *)

Record datetime : Type := mkdatetime {
  year : Z;
  month : Z;
  day : Z;
  hour : Z;
  minute : Z;
  second : Z;
  microsecond : Z;
  utcoffset : Z
}.

(** The fields a [datetime] object can hold. *)
Definition valid (d : datetime) : bool :=
  (MINYEAR <=? year d) && (year d <=? MAXYEAR)
  && (1 <=? month d) && (month d <=? 12)
  && (1 <=? day d) && (day d <=? days_in_month (year d) (month d))
  && (0 <=? hour d) && (hour d <=? 23)
  && (0 <=? minute d) && (minute d <=? 59)
  && (0 <=? second d) && (second d <=? 59)
  && (0 <=? microsecond d) && (microsecond d <=? 999999)
  && (- US_PER_DAY <? utcoffset d) && (utcoffset d <? US_PER_DAY).

Definition toordinal (d : datetime) : Z := ymd2ord (year d) (month d) (day d).

(** [timedelta(d.toordinal(), hours=.., minutes=.., seconds=..,
    microseconds=..)] in microseconds. *)
Definition local_micros (d : datetime) : Z :=
  toordinal d * US_PER_DAY + hour d * US_PER_HOUR + minute d * US_PER_MINUTE
  + second d * US_PER_SECOND + microsecond d.

(** The instant, in microseconds of UTC. *)
Definition utc_micros (d : datetime) : Z := local_micros d - utcoffset d.

(** [a < b], [a > b] and [a - b] on aware datetimes compare instants. *)
Definition lt (a b : datetime) : bool := utc_micros a <? utc_micros b.
Definition gt (a b : datetime) : bool := lt b a.
Definition sub (a b : datetime) : Z := utc_micros a - utc_micros b.

(** [timedelta(minutes=m)], in microseconds; the days of a timedelta
    stay within nine digits. *)
Definition timedelta_minutes (m : Z) : outcome Z :=
  let us := m * US_PER_MINUTE in
  if (-999999999 * US_PER_DAY <=? us) && (us <? 1000000000 * US_PER_DAY)
  then Return us else Raise OverflowError.

(** [d + td]. *)
Definition add (d : datetime) (td : Z) : outcome datetime :=
  let delta := local_micros d + td in
  let days := delta / US_PER_DAY in
  let rem := delta mod US_PER_DAY in
  if (0 <? days) && (days <=? MAXORDINAL) then
    let '(y, m, dd) := ord2ymd days in
    Return (mkdatetime y m dd
              (rem / US_PER_HOUR)
              (rem mod US_PER_HOUR / US_PER_MINUTE)
              (rem mod US_PER_MINUTE / US_PER_SECOND)
              (rem mod US_PER_SECOND)
              (utcoffset d))
  else Raise OverflowError.

(** *** [isoformat] *)

Definition format_offset (off : Z) : string :=
  let sign := if off <? 0 then "-" else "+" in
  let off := Z.abs off in
  let hh := off / US_PER_HOUR in
  let mm := off mod US_PER_HOUR / US_PER_MINUTE in
  let ss := off mod US_PER_MINUTE in
  sign ++ PyStr.pad2 hh ++ ":" ++ PyStr.pad2 mm
  ++ (if ss =? 0 then ""
      else ":" ++ PyStr.pad2 (ss / US_PER_SECOND)
           ++ (if ss mod US_PER_SECOND =? 0 then ""
               else "." ++ PyStr.pad6 (ss mod US_PER_SECOND))).

(** The date and the time of day, without the offset. *)
Definition format_local (d : datetime) : string :=
  PyStr.pad4 (year d) ++ "-" ++ PyStr.pad2 (month d) ++ "-" ++ PyStr.pad2 (day d)
  ++ "T" ++ PyStr.pad2 (hour d) ++ ":" ++ PyStr.pad2 (minute d) ++ ":"
  ++ PyStr.pad2 (second d)
  ++ (if microsecond d =? 0 then "" else "." ++ PyStr.pad6 (microsecond d)).

Definition isoformat (d : datetime) : string :=
  format_local d ++ format_offset (utcoffset d).

(** *** [str(timedelta)] *)

Definition str_timedelta (td : Z) : string :=
  let days := td / US_PER_DAY in
  let seconds := td mod US_PER_DAY / US_PER_SECOND in
  let us := td mod US_PER_SECOND in
  let mm := seconds / 60 in
  let ss := seconds mod 60 in
  let hh := mm / 60 in
  let mm := mm mod 60 in
  let s := PyStr.str_of_Z hh ++ ":" ++ PyStr.pad2 mm ++ ":" ++ PyStr.pad2 ss in
  let s :=
    if days =? 0 then s
    else PyStr.str_of_Z days ++ " day" ++ (if Z.abs days =? 1 then "" else "s") ++ ", " ++ s in
  if us =? 0 then s else s ++ "." ++ PyStr.pad6 us.

End PyDatetime.

(* ================================================================== *)
(** ** [datetime.strptime(s, "%Y-%m-%dT%H:%M:%S%z")]

    [_strptime] turns the format into a regular expression, matches it at
    the start of the string, refuses what is left over, and builds the
    datetime, which checks the ranges of the fields.

    Each numeric directive is a short list of alternatives of two digits
    or one. What follows a directive in this format starts with a
    character that is not a digit, so when a two-digit alternative
    matches no shorter one can lead to a match: the parser below commits
    to the first alternative that matches, as the backtracking matcher
    ends up doing. *)

Module Strptime.
Import PyDatetime.

Definition parser (A : Type) : Type := string -> option (A * string).

Definition one_digit : parser Z := fun s =>
  match s with
  | String a r =>
      match PyStr.digit_val a with
      | Some x => Some (x, r)
      | None => None
      end
  | EmptyString => None
  end.

Definition two_digits : parser (Z * Z) := fun s =>
  match one_digit s with
  | Some (x, r) =>
      match one_digit r with
      | Some (y, r') => Some ((x, y), r')
      | None => None
      end
  | None => None
  end.

(** The two-digit alternatives [ok2], then the one-digit one [ok1]. *)
Definition field (ok2 : Z -> Z -> bool) (ok1 : Z -> bool) : parser Z := fun s =>
  let short :=
    match one_digit s with
    | Some (x, r) => if ok1 x then Some (x, r) else None
    | None => None
    end in
  match two_digits s with
  | Some ((x, y), r) => if ok2 x y then Some (10 * x + y, r) else short
  | None => short
  end.

(** [%Y]: [\d\d\d\d]. *)
Definition re_Y : parser Z := fun s =>
  match two_digits s with
  | Some ((a, b), r) =>
      match two_digits r with
      | Some ((c, d), r') => Some (1000 * a + 100 * b + 10 * c + d, r')
      | None => None
      end
  | None => None
  end.

(** [%m]: [1[0-2]|0[1-9]|[1-9]]. *)
Definition re_m : parser Z :=
  field (fun x y => (x =? 1) && (y <=? 2) || (x =? 0) && (1 <=? y))
        (fun x => 1 <=? x).

(** [%d]: [3[01]|[12]\d|0[1-9]|[1-9]| [1-9]]. *)
Definition re_d : parser Z := fun s =>
  match field (fun x y => (x =? 3) && (y <=? 1) || (1 <=? x) && (x <=? 2)
                          || (x =? 0) && (1 <=? y))
              (fun x => 1 <=? x) s with
  | Some r => Some r
  | None =>
      match s with
      | String " " r =>
          match one_digit r with
          | Some (x, r') => if 1 <=? x then Some (x, r') else None
          | None => None
          end
      | _ => None
      end
  end.

(** [%H]: [2[0-3]|[0-1]\d|\d]. *)
Definition re_H : parser Z :=
  field (fun x y => (x =? 2) && (y <=? 3) || (x <=? 1)) (fun _ => true).

(** [%M]: [[0-5]\d|\d]. *)
Definition re_M : parser Z :=
  field (fun x _ => x <=? 5) (fun _ => true).

(** [%S]: [6[0-1]|[0-5]\d|\d]. *)
Definition re_S : parser Z :=
  field (fun x y => (x =? 6) && (y <=? 1) || (x <=? 5)) (fun _ => true).

(** A character of the format stands for itself. *)
Definition lit (c : ascii) (s : string) : option string :=
  match s with
  | String a r => if Ascii.eqb a c then Some r else None
  | EmptyString => None
  end.

(** The expression is compiled with [IGNORECASE]. *)
Definition lit_T (s : string) : option string :=
  match lit "T" s with
  | Some r => Some r
  | None => lit "t" s
  end.

(** [:?] *)
Definition opt_colon (s : string) : bool * string :=
  match lit ":" s with
  | Some r => (true, r)
  | None => (false, s)
  end.

(** [[0-5]\d] *)
Definition sexagesimal : parser Z := fun s =>
  match two_digits s with
  | Some ((x, y), r) => if x <=? 5 then Some (10 * x + y, r) else None
  | None => None
  end.

(** [\d{1,6}], greedy, read as microseconds: the digits are padded with
    zeros on the right to six. *)
Fixpoint fraction_digits (n : nat) (weight : Z) (s : string) : Z * string :=
  match n with
  | O => (0, s)
  | S n' =>
      match one_digit s with
      | Some (x, r) =>
          let '(v, r') := fraction_digits n' (weight / 10) r in
          (x * weight + v, r')
      | None => (0, s)
      end
  end.

(** [(\.\d{1,6})?] *)
Definition opt_fraction (s : string) : Z * string :=
  match lit "." s with
  | Some r =>
      match one_digit r with
      | Some _ => fraction_digits 6 100000 r
      | None => (0, s)
      end
  | None => (0, s)
  end.

(** [%z]: [[+-]\d\d:?[0-5]\d(:?[0-5]\d(\.\d{1,6})?)?|Z], with nothing
    left over. The offset is read from the matched text with the first
    colon deciding whether there is a second: a text with one colon out
    of two is refused. The result is in microseconds. *)
Definition re_z_end (s : string) : option Z :=
  match s with
  | String "Z" EmptyString => Some 0
  | String sg r0 =>
      if Ascii.eqb sg "+" || Ascii.eqb sg "-" then
        match two_digits r0 with
        | Some ((h1, h2), r1) =>
            let '(c1, r2) := opt_colon r1 in
            match sexagesimal r2 with
            | Some (mm, r3) =>
                let hm := (10 * h1 + h2) * US_PER_HOUR + mm * US_PER_MINUTE in
                let signed (v : Z) := if Ascii.eqb sg "-" then - v else v in
                let '(c2, r4) := opt_colon r3 in
                match sexagesimal r4 with
                | Some (ss, r5) =>
                    let '(us, r6) := opt_fraction r5 in
                    match r6 with
                    | EmptyString =>
                        if Bool.eqb c1 c2
                        then Some (signed (hm + ss * US_PER_SECOND + us))
                        else None
                    | _ => None
                    end
                | None =>
                    match r3 with
                    | EmptyString => Some (signed hm)
                    | _ => None
                    end
                end
            | None => None
            end
        | None => None
        end
      else None
  | EmptyString => None
  end.

Definition obind_opt {A B} (x : option A) (f : A -> option B) : option B :=
  match x with
  | Some a => f a
  | None => None
  end.

(** The match of the whole format. *)
Definition match_format (s : string) : option datetime :=
  obind_opt (re_Y s) (fun '(y, s) =>
  obind_opt (lit "-" s) (fun s =>
  obind_opt (re_m s) (fun '(m, s) =>
  obind_opt (lit "-" s) (fun s =>
  obind_opt (re_d s) (fun '(d, s) =>
  obind_opt (lit_T s) (fun s =>
  obind_opt (re_H s) (fun '(hh, s) =>
  obind_opt (lit ":" s) (fun s =>
  obind_opt (re_M s) (fun '(mi, s) =>
  obind_opt (lit ":" s) (fun s =>
  obind_opt (re_S s) (fun '(ss, s) =>
  obind_opt (re_z_end s) (fun off =>
  Some (mkdatetime y m d hh mi ss 0 off))))))))))))).

(** [strptime]: the match, then the range checks of the constructors of
    [timezone] and [datetime]. *)
Definition strptime (s : string) : outcome datetime :=
  match match_format s with
  | Some d => if valid d then Return d else Raise ValueError
  | None => Raise ValueError
  end.

End Strptime.

(* ================================================================== *)
(** ** The data of [main.py] *)

Import PyDatetime.

(** [common.match.Match], as far as [main.py] reads it: [name],
    [time.start], [color], and the answers of the methods
    [is_still_going()], [is_finished()] and [status_from_color(c)] (the
    latter already through [str]). *)
Record Match : Type := mkMatch {
  name : string;
  time_start : datetime;
  color : string;
  is_still_going : bool;
  is_finished : bool;
  status_from_color : string -> string
}.

(** An event of the calendar, a dict with the keys the code reads:
    [event["start"]["dateTime"]] is [start_dateTime], and so on. *)
Record event : Type := mkevent {
  id : string;
  summary : string;
  start_dateTime : string;
  end_dateTime : string;
  colorId : string
}.

(** The body [create_event] inserts. *)
Record new_event : Type := mknew_event {
  new_summary : string;
  new_start_dateTime : string;
  new_end_dateTime : string;
  maxAttendees : string;
  guestsCanInviteOthers : string;
  guestsCanSeeOtherGuests : string;
  anyoneCanAddSelf : string;
  new_colorId : string
}.

(** The calendar service: what [events().list(..)] holds for a calendar
    and what [events().update(..).execute()] answers. The runs modelled
    are those in which the calendar answers every request and an event
    carries every key the code reads: an [execute] that raises, or a dict
    without ["colorId"], is outside the model. *)
Record Service : Type := mkService {
  events_list : string -> list event;
  events_update : string -> string -> event -> event
}.

(** What a run does, in order. *)
Inductive effect : Type :=
| Insert (calendarId : string) (body : new_event)
| Update (calendarId : string) (eventId : string) (body : event)
| Print (text : string).

Definition is_call (e : effect) : bool :=
  match e with
  | Print _ => false
  | _ => true
  end.

(** The inserts and updates among the effects: the requests that write
    to the calendar. The request that lists the events, at the head of
    [update_calendar_events], is the lookup [events_list] and is not
    among the effects. *)
Definition calls (l : list effect) : list effect := filter is_call l.

(** A computation: the effects so far and how it ended. *)
Definition M (A : Type) : Type := list effect * outcome A.

Definition ret {A} (a : A) : M A := ([], Return a).

Definition bind {A B} (x : M A) (f : A -> M B) : M B :=
  match x with
  | (l, Return a) => let '(l', r) := f a in ((l ++ l')%list, r)
  | (l, Raise e) => (l, Raise e)
  end.

Definition lift {A} (x : outcome A) : M A := ([], x).
Definition raise {A} (e : exn) : M A := ([], Raise e).
Definition emit (e : effect) : M unit := ([e], Return tt).

Declare Scope py_scope.
Delimit Scope py_scope with py.
Notation "x <- c ;; k" := (bind c (fun x => k))
  (at level 61, c at next level, right associativity) : py_scope.
Notation "c ;; k" := (bind c (fun _ => k))
  (at level 61, right associativity) : py_scope.
Local Open Scope py_scope.

(** [print(a, b, .., end=e)]: the arguments separated by a space. *)
Definition print_end (args : list string) (e : string) : M unit :=
  emit (Print (String.concat " " args ++ e)).

Definition print (args : list string) : M unit := print_end args PyStr.nl.

(* ================================================================== *)
(** ** The functions of [main.py] *)

Section Reconciliation.

(** [project_settings] is not among the sources: its two constants are
    parameters. *)
Variable MATCH_DEFAULT_DURATION_MINUTES : Z.
Variable MATCH_EXTEND_MINUTES : Z.

Variable service : Service.
Variable calendar_id : string.

Definition create_event (m : Match) (now : datetime) : M unit :=
  td <- lift (timedelta_minutes MATCH_DEFAULT_DURATION_MINUTES) ;;
  match_time_end <- lift (add (time_start m) td) ;;
  match_time_end <-
    (if is_still_going m && lt match_time_end now then
       td <- lift (timedelta_minutes MATCH_EXTEND_MINUTES) ;;
       lift (add now td)
     else ret match_time_end) ;;
  let event := {|
    new_summary := name m;
    new_start_dateTime := isoformat (time_start m);
    new_end_dateTime := isoformat match_time_end;
    maxAttendees := "100";
    guestsCanInviteOthers := "true";
    guestsCanSeeOtherGuests := "true";
    anyoneCanAddSelf := "true";
    new_colorId := color m
  |} in
  emit (Insert calendar_id event) ;;
  print ["Created event."].

Definition different_start_times (old : event) (new : string) : bool :=
  negb (String.eqb (PyStr.slice_to (start_dateTime old) (-1))
                   (PyStr.slice_to new (PyStr.rfind new "+"))).

Definition different_end_times (old : event) (new : string) : bool :=
  negb (String.eqb (PyStr.slice_to (end_dateTime old) (-1))
                   (PyStr.slice_to new (PyStr.rfind new "+"))).

Definition different_colors (old : event) (new : string) : bool :=
  negb (String.eqb (colorId old) new).

Definition from_google_date_to_datetime (google_date : string) : outcome datetime :=
  Strptime.strptime (PyStr.replace "Z" "+0000" google_date).

Definition show_if_different (word old new : string) (time : bool) : outcome string :=
  if negb (String.eqb old new) then
    let full_str :=
      PyStr.tab ++ PyStr.tab ++ "old " ++ word ++ ": " ++ old ++ PyStr.nl
      ++ PyStr.tab ++ PyStr.tab ++ "new " ++ word ++ ": " ++ new ++ PyStr.nl in
    if time then
      obind (from_google_date_to_datetime old) (fun old_dt =>
      obind (from_google_date_to_datetime new) (fun new_dt =>
      Return (full_str ++ PyStr.tab ++ PyStr.tab ++ "diff: "
              ++ str_timedelta (sub new_dt old_dt) ++ PyStr.nl)))
    else Return full_str
  else Return "".

(** Lines 111 to 122 of [update_event]: the end of the event, from the
    end the calendar holds. *)
Definition update_event_end (m : Match) (event_time_end now : datetime) : M datetime :=
  td <- lift (timedelta_minutes MATCH_DEFAULT_DURATION_MINUTES) ;;
  expected_duration <- lift (add (time_start m) td) ;;
  event_time_end <-
    (if lt event_time_end expected_duration then
       print [PyStr.tab ++ "Adjusting end time."] ;;
       ret expected_duration
     else ret event_time_end) ;;
  if is_still_going m && lt event_time_end now then
    print [PyStr.tab ++ "Extending end as it is still going."] ;;
    td <- lift (timedelta_minutes MATCH_EXTEND_MINUTES) ;;
    lift (add now td)
  else ret event_time_end.

(** [update_event] changes the dict it is given; the event it returns is
    that dict as it is afterwards. *)
Definition update_event (m : Match) (existing_event : event) (now : datetime) : M event :=
  let match_time_start := isoformat (time_start m) in
  event_time_end <- lift (from_google_date_to_datetime (end_dateTime existing_event)) ;;
  event_time_end <- update_event_end m event_time_end now ;;
  let event_time_end := isoformat event_time_end in
  if different_start_times existing_event match_time_start
     || different_end_times existing_event event_time_end
     || different_colors existing_event (color m)
  then
    let old_start := start_dateTime existing_event in
    let old_end := end_dateTime existing_event in
    let old_color := colorId existing_event in
    let existing_event := {|
      id := id existing_event;
      summary := summary existing_event;
      start_dateTime := match_time_start;
      end_dateTime := event_time_end;
      colorId := color m
    |} in
    emit (Update calendar_id (id existing_event) existing_event) ;;
    let update_result :=
      events_update service calendar_id (id existing_event) existing_event in
    a <- lift (show_if_different "start" old_start (start_dateTime update_result) true) ;;
    b <- lift (show_if_different "end" old_end (end_dateTime update_result) true) ;;
    c <- lift (show_if_different "status" (status_from_color m old_color)
                 (status_from_color m (color m)) false) ;;
    print_end [PyStr.tab ++ "Updated event:" ++ PyStr.nl; a; b; c] "" ;;
    ret existing_event
  else
    print [PyStr.tab ++ "No change."] ;;
    ret existing_event.

Definition update_finished_event (m : Match) (existing_event : event) (now : datetime)
  : M event :=
  event_time_start <- lift (from_google_date_to_datetime (start_dateTime existing_event)) ;;
  event_time_end <- lift (from_google_date_to_datetime (end_dateTime existing_event)) ;;
  if gt event_time_end now && gt now event_time_start then
    let event_time_end := isoformat now in
    let old_end := end_dateTime existing_event in
    let old_color := colorId existing_event in
    let existing_event := {|
      id := id existing_event;
      summary := summary existing_event;
      start_dateTime := start_dateTime existing_event;
      end_dateTime := event_time_end;
      colorId := color m
    |} in
    emit (Update calendar_id (id existing_event) existing_event) ;;
    let update_result :=
      events_update service calendar_id (id existing_event) existing_event in
    b <- lift (show_if_different "end" old_end (end_dateTime update_result) false) ;;
    c <- lift (show_if_different "status" (status_from_color m old_color)
                 (status_from_color m (color m)) false) ;;
    print_end [PyStr.tab ++ "Updated finished event:" ++ PyStr.nl; b; c] "" ;;
    ret existing_event
  else if negb (String.eqb (colorId existing_event) (color m)) then
    let old_color := colorId existing_event in
    let existing_event := {|
      id := id existing_event;
      summary := summary existing_event;
      start_dateTime := start_dateTime existing_event;
      end_dateTime := end_dateTime existing_event;
      colorId := color m
    |} in
    emit (Update calendar_id (id existing_event) existing_event) ;;
    c <- lift (show_if_different "status" (status_from_color m old_color)
                 (status_from_color m (color m)) false) ;;
    print_end [PyStr.tab ++ "Updated finished event color:" ++ PyStr.nl; c] "" ;;
    ret existing_event
  else
    print [PyStr.tab ++ "Finished. No changes."] ;;
    ret existing_event.

(** The events of the list are shared with the functions above: the
    dict an update changes is the one in the list. *)
Fixpoint put_back (n : string) (e' : event) (events : list event) : list event :=
  match events with
  | [] => []
  | e :: rest =>
      if String.eqb (summary e) n then e' :: rest else e :: put_back n e' rest
  end.

(** The loop of [update_calendar_events]; [clock i] is what
    [datetime.now] answers while the match of index [i] is handled. *)
Fixpoint for_match_in (clock : nat -> datetime) (i : nat)
         (events : list event) (matches : list Match) : M (list event) :=
  match matches with
  | [] => ret events
  | m :: rest =>
      let match_event := filter (fun e => String.eqb (summary e) (name m)) events in
      if (1 <? List.length match_event)%nat then raise ValueError
      else
        print ["Match: "; name m] ;;
        events <-
          match match_event with
          | [] => create_event m (clock i) ;; ret events
          | match_event :: _ =>
              e <- (if is_finished m
                    then update_finished_event m match_event (clock i)
                    else update_event m match_event (clock i)) ;;
              ret (put_back (name m) e events)
          end ;;
        for_match_in clock (S i) events rest
  end.

(** [update_calendar_events]; the events the calendar lists from
    midnight on are [events_list service calendar_id]. *)
Definition update_calendar_events (clock : nat -> datetime) (matches : list Match)
  : M (list event) :=
  let events := events_list service calendar_id in
  print ["Retrieved events for calendar."] ;;
  for_match_in clock 0 events matches.

End Reconciliation.

(* ================================================================== *)
(** ** [datetime.strptime(s, "%Y-%m-%dT%H:%M:%S.%f%z")] *)

Module StrptimeF.
Import Strptime.

(** [%f]: [[0-9]{1,6}], read as microseconds: the digits are padded with
    zeros on the right to six. What follows is a sign or [Z], so fewer
    digits than are there never lead to a match. *)
Definition re_f : parser Z := fun s =>
  match one_digit s with
  | Some _ => Some (fraction_digits 6 100000 s)
  | None => None
  end.

Definition match_format (s : string) : option datetime :=
  obind_opt (re_Y s) (fun '(y, s) =>
  obind_opt (lit "-" s) (fun s =>
  obind_opt (re_m s) (fun '(m, s) =>
  obind_opt (lit "-" s) (fun s =>
  obind_opt (re_d s) (fun '(d, s) =>
  obind_opt (lit_T s) (fun s =>
  obind_opt (re_H s) (fun '(hh, s) =>
  obind_opt (lit ":" s) (fun s =>
  obind_opt (re_M s) (fun '(mi, s) =>
  obind_opt (lit ":" s) (fun s =>
  obind_opt (re_S s) (fun '(ss, s) =>
  obind_opt (lit "." s) (fun s =>
  obind_opt (re_f s) (fun '(us, s) =>
  obind_opt (re_z_end s) (fun off =>
  Some (mkdatetime y m d hh mi ss us off))))))))))))))).

Definition strptime (s : string) : outcome datetime :=
  match match_format s with
  | Some d => if valid d then Return d else Raise ValueError
  | None => Raise ValueError
  end.

End StrptimeF.

(** Lines 93 to 100 of [main.py]: includes microseconds in the date format. *)
Definition from_google_date_to_datetime_ms (google_date : string) : outcome datetime :=
  StrptimeF.strptime (PyStr.replace "Z" "+0000" google_date).


(* ================================================================== *)
(** ** The calendars: [create_calendar], [generate_calendar_urls] and
    [update_calendars] *)

(** An entry of the calendar list: [calendar["id"]] and
    [calendar["summary"]]. *)
Record calendar : Type := mkcalendar {
  cal_id : string;
  cal_summary : string
}.

(** What these functions do, in order: what happens on the events of a
    calendar, the two requests that create a public calendar, the file
    written and the gist patched. *)
Inductive io : Type :=
| OnEvents (e : effect)
| InsertCalendar (summary : string)
| InsertAcl (calendarId : string) (role : string) (scope_type : string)
| WriteFile (file : string) (content : string)
| PatchGist (description : string) (public : string) (file : string) (content : string).

Definition IO (A : Type) : Type := list io * outcome A.

Definition io_ret {A} (a : A) : IO A := ([], Return a).

Definition io_bind {A B} (x : IO A) (f : A -> IO B) : IO B :=
  match x with
  | (l, Return a) => let '(l', r) := f a in ((l ++ l')%list, r)
  | (l, Raise e) => (l, Raise e)
  end.

Definition io_emit (e : io) : IO unit := ([e], Return tt).

Definition io_lift {A} (x : outcome A) : IO A := ([], x).

(** A computation on events, among the others. *)
Definition on_events {A} (x : M A) : IO A := (map OnEvents (fst x), snd x).

Definition io_print (args : list string) : IO unit :=
  io_emit (OnEvents (Print (String.concat " " args ++ PyStr.nl))).

Declare Scope io_scope.
Delimit Scope io_scope with io.
Notation "x <- c ;; k" := (io_bind c (fun x => k))
  (at level 61, c at next level, right associativity) : io_scope.
Notation "c ;; k" := (io_bind c (fun _ => k))
  (at level 61, right associativity) : io_scope.

(** [needle in s]. *)
Fixpoint contains (needle s : string) : bool :=
  String.prefix needle s
  || match s with
     | EmptyString => false
     | String _ s' => contains needle s'
     end.

(** [str(response)] of a [requests.Response] of this status code. *)
Definition str_Response (status_code : Z) : string :=
  "<Response [" ++ PyStr.str_of_Z status_code ++ "]>".

(** The text after the first line of the page, lines 255 to 291 of
    [main.py], each line closed by a newline. *)
Definition page_notes : string :=
  String.concat PyStr.nl [
    "";
    "### Importing a calendar:";
    "1. Copy ICAL link from below.";
    "1. Add calendar by URL";
    "    - Google: Go to [Add by URL](https://calendar.google.com/calendar/b/1/r/settings/addbyurl)";
    "        - Name is read automatically";
    "    - Web Outlook: Go to your [Calendar](https://outlook.live.com/owa/?path=/calendar/view/Day)";
    "        - Near the top of the screen there should be `Add Calendar`";
    "        - After clicking it, there should be `From the Internet`";
    "        - Name will be read automatically, although there is an escape character `\` before each coma";
    "    - Web Outlook BETA: Go to your [Calendar](https://outlook.live.com/calendar/#/view/day/)";
    "        - In the Calendar list on the left there should be `Discover Calendars`";
    "        - At the bottom of the `Discover Calendars` window there should be `From web`";
    "        - Name must be manually added";
    "    - Windows 10 Calendar:";
    "        - Can't add calendar from URL as far as I am aware";
    "    - Office Outlook 2016:";
    "        - Find `Open Calendar` button, should be near to top, it might be folded in a `Manage Calendars` folder";
    "            - Alternatively go to `Folder -> Open Calendar`";
    "        - After clicking it there should be `From Internet`";
    "1. Paste link and click add/import.";
    "<hr/>";
    "";
    "### Notes:";
    "- The ICAL will be refreshed whenever your calendar application decides to query for changes. This can differ. On Google it changes are quickly reflected.";
    "- This is still being tested and something will probably fail.";
    "";
    "<hr/>";
    "";
    "### Calendar Event Colours (in Google)";
    "- Cancelled is Graphite (gray)";
    "- Finished is Grape (purple)";
    "- Not started is Sage (blue-ish green-ish)";
    "- Live/started is Basil (green)";
    "- Interrupted is Lavender";
    "";
    "<hr/>";
    ""].

Section Calendars.

Local Open Scope io_scope.

(** [project_settings] and [apikeys] are not among the sources: the two
    durations, the name of the file, and what [format] makes of each of
    the three address templates for a calendar id are parameters. *)
Variable MATCH_DEFAULT_DURATION_MINUTES : Z.
Variable MATCH_EXTEND_MINUTES : Z.
Variable CALENDAR_URLS_FILENAME : string.
Variable CALENDAR_ICAL_BASE_URL : string -> string.
Variable CALENDAR_EMBED_BASE_URL : string -> string.
Variable CALENDAR_IFRAME_BASE : string -> string.

(** The service: the events of a calendar as before, the id it gives a
    calendar created with a summary, and the [updated] field of what
    [events().list(calendarId=.., maxResults=1)] answers. *)
Variable service : Service.
Variable calendars_insert : string -> string.
Variable latest_updated : string -> string.

Definition create_calendar (tournament_name : string) : IO string :=
  io_print ["Creating calendar: "; tournament_name] ;;
  io_emit (InsertCalendar tournament_name) ;;
  let created_calendar_id := calendars_insert tournament_name in
  io_print ["Adding public READ permission."] ;;
  io_emit (InsertAcl created_calendar_id "reader" "default") ;;
  io_ret created_calendar_id.

(** [list_object.append(..)]: the list with the entry of the calendar at
    its end. *)
Definition append_calendar_to_list (list_object : list string)
           (calendar_summary calendar_id : string) : list string :=
  (list_object
   ++ [("### " ++ calendar_summary ++ PyStr.nl
        ++ "* ICAL: " ++ CALENDAR_ICAL_BASE_URL calendar_id ++ PyStr.nl
        ++ "* Embed: " ++ CALENDAR_EMBED_BASE_URL calendar_id ++ PyStr.nl
        ++ "* IFRAME: " ++ CALENDAR_IFRAME_BASE calendar_id ++ PyStr.nl
        ++ "<hr/>" ++ PyStr.nl)%string])%list.

(** The three lists of [generate_calendar_urls]. *)
Record lists : Type := mklists {
  active : list string;
  inactive : list string;
  archive : list string
}.

(** The loop over the calendars; [clock i] is what [datetime.now]
    answers for the calendar of index [i]. *)
Fixpoint for_calendar_in (clock : nat -> datetime) (i : nat) (acc : lists)
         (calendars_list : list calendar) : outcome lists :=
  match calendars_list with
  | [] => Return acc
  | calendar :: rest =>
      if negb (contains "@gmail" (cal_id calendar)) && negb (contains "#" (cal_id calendar))
      then
        obind (from_google_date_to_datetime_ms (latest_updated (cal_id calendar)))
          (fun t1 =>
             let time_elapsed := sub (clock i) t1 in
             let acc :=
               if 3 * US_PER_DAY <? time_elapsed then
                 mklists (active acc) (inactive acc)
                   (append_calendar_to_list (archive acc) (cal_summary calendar)
                      (cal_id calendar))
               else if 1 * US_PER_DAY <? time_elapsed then
                 mklists (active acc)
                   (append_calendar_to_list (inactive acc) (cal_summary calendar)
                      (cal_id calendar))
                   (archive acc)
               else
                 mklists
                   (append_calendar_to_list (active acc) (cal_summary calendar)
                      (cal_id calendar))
                   (inactive acc) (archive acc) in
             for_calendar_in clock (S i) acc rest)
      else for_calendar_in clock (S i) acc rest
  end.

(** [generate_calendar_urls]; [calendars_list] is what the service lists
    at that time, [utcnow] the time of the page, [status_code] the
    status of the answer to the patch. The function returns the
    response, here its status code. *)
Definition generate_calendar_urls (calendars_list : list calendar) (utcnow : datetime)
           (clock : nat -> datetime) (status_code : Z) : IO Z :=
  let file_data :=
    [("Updated (UTC) time: " ++ format_local utcnow ++ "Z" ++ PyStr.nl ++ page_notes)%string]
  in
  l <- io_lift (for_calendar_in clock 0 (mklists [] [] []) calendars_list) ;;
  let file_data :=
    (file_data
     ++ ["# Active"; String.concat PyStr.nl (active l);
         "# Inactive"; String.concat PyStr.nl (inactive l);
         "# Archive"; String.concat PyStr.nl (archive l)])%list in
  let file_data := String.concat PyStr.nl file_data in
  io_emit (WriteFile CALENDAR_URLS_FILENAME file_data) ;;
  io_print ["Uploading calendar urls to GIST."] ;;
  io_emit (PatchGist "Tennis Calendars" "true" CALENDAR_URLS_FILENAME file_data) ;;
  io_print [str_Response status_code] ;;
  io_ret status_code.

(** [calendars[name]["id"]] in the dictionary [update_calendars] builds
    from the list: a later calendar of the same summary replaces an
    earlier one. [None] stands for a name that is not in it. *)
Fixpoint calendars_get (calendars_list : list calendar) (name : string) : option string :=
  match calendars_list with
  | [] => None
  | c :: rest =>
      match calendars_get rest name with
      | Some i => Some i
      | None => if String.eqb (cal_summary c) name then Some (cal_id c) else None
      end
  end.

(** Lines 366 to 373 of [update_calendars]: the calendar of a
    tournament. *)
Definition calendar_of (calendars_list : list calendar) (tournament_name : string)
  : IO string :=
  io_print ["Processing tournament:"; tournament_name] ;;
  match calendars_get calendars_list tournament_name with
  | None =>
      io_print ["Calendar not found, creating a new one..."] ;;
      create_calendar tournament_name
  | Some calendar_id =>
      io_print ["Calendar already exists."] ;;
      io_ret calendar_id
  end.

(** The loop over the tournaments, with its counter [id] and its
    [break]; [no_limit] is [args.no_limit], [clock k] the clock of the
    tournament of index [k]. *)
Fixpoint for_tournament_in (calendars_list : list calendar) (no_limit : bool)
         (clock : nat -> nat -> datetime) (id : Z) (k : nat)
         (tournaments : list (string * list Match)) : IO unit :=
  match tournaments with
  | [] => io_ret tt
  | (tournament_name, matches) :: rest =>
      calendar_id <- calendar_of calendars_list tournament_name ;;
      on_events (update_calendar_events MATCH_DEFAULT_DURATION_MINUTES MATCH_EXTEND_MINUTES
                   service calendar_id (clock k) matches) ;;
      if negb no_limit then
        if id =? 10 then io_ret tt
        else for_tournament_in calendars_list no_limit clock (id + 1) (S k) rest
      else for_tournament_in calendars_list no_limit clock id (S k) rest
  end.

(** [update_calendars]: [calendars_list] is the list of calendars at the
    start, [tournaments] the items of what the downloader answers, in
    their order, and [calendars_after] the list of calendars when the
    page is written. *)
Definition update_calendars (calendars_list : list calendar)
           (tournaments : list (string * list Match)) (no_limit : bool)
           (clock : nat -> nat -> datetime)
           (calendars_after : list calendar) (utcnow : datetime)
           (page_clock : nat -> datetime) (status_code : Z) : IO Z :=
  io_print ["Calendars downloaded."] ;;
  io_print ["Calendars moved to dictionary."] ;;
  for_tournament_in calendars_list no_limit clock 0 0 tournaments ;;
  io_print ["Generating calendar URLs."] ;;
  generate_calendar_urls calendars_after utcnow page_clock status_code.

End Calendars.

(* ================================================================== *)
(** ** Notions used in the statements *)

(** [d.replace(microsecond=0)]. *)
Definition whole_second (d : datetime) : datetime :=
  mkdatetime (year d) (month d) (day d) (hour d) (minute d) (second d) 0 (utcoffset d).

(** The spelling the comments of [different_start_times] expect of the
    calendar: a UTC time to the second, closed by [Z]. *)
Definition zulu (d : datetime) : string := format_local (whole_second d) ++ "Z".

(** The instant in whole seconds of UTC. *)
Definition utc_seconds (d : datetime) : Z := utc_micros d / US_PER_SECOND.

(** [p] holds of the [n] integers from [z] on. *)
Fixpoint all_from (n : nat) (z : Z) (p : Z -> bool) : bool :=
  match n with
  | O => true
  | S k => p z && all_from k (z + 1) p
  end.

(** The ordinal [n] and the date [ord2ymd] gives for it agree, and the
    date is one of the calendar. *)
Definition ordinal_ok (n : Z) : bool :=
  let '(y, m, d) := ord2ymd n in
  (ymd2ord y m d =? n) && (1 <=? y) && (1 <=? m) && (m <=? 12)
  && (1 <=? d) && (d <=? days_in_month y m).

(** A number of minutes as a duration in microseconds. *)
Definition minutes (m : Z) : Z := m * US_PER_MINUTE.

(** [computeEndTime] as section 4.1 of the specification words it, on
    instants and durations in microseconds: the baseline, then the end
    without an existing event (creation) and with one (update). *)
Definition computeEndTime (DEFAULT_DURATION EXTEND_MINUTES : Z)
           (scheduledStart : Z) (isLive : bool) (existingEnd : option Z) (now : Z) : Z :=
  let baseline := scheduledStart + DEFAULT_DURATION in
  match existingEnd with
  | None =>
      let end_ := baseline in
      if isLive && (baseline <? now) then now + EXTEND_MINUTES else end_
  | Some existingEnd =>
      let end_ := if existingEnd <? baseline then baseline else existingEnd in
      if isLive && (end_ <? now) then now + EXTEND_MINUTES else end_
  end.

(** A calendar that holds no event and answers an update with the body
    it was sent. *)
Definition echo_service : Service :=
  mkService (fun _ => []) (fun _ _ body => body).

(** The event [update_event] sends for the end [r]. *)
Definition updated (m : Match) (ev : event) (r : datetime) : event :=
  mkevent (id ev) (summary ev) (isoformat (time_start m)) (isoformat r) (color m).

(** Whether [update_event] finds a difference, for the end [r]. *)
Definition changed (m : Match) (ev : event) (r : datetime) : bool :=
  different_start_times ev (isoformat (time_start m))
  || different_end_times ev (isoformat r)
  || different_colors ev (color m).

(** The two remarks [update_event] prints on the way to the end. *)
Definition adjusting : effect := Print (PyStr.tab ++ "Adjusting end time." ++ PyStr.nl).
Definition extending : effect :=
  Print (PyStr.tab ++ "Extending end as it is still going." ++ PyStr.nl).

(** The title a request carries. *)
Definition title_of (e : effect) : option string :=
  match e with
  | Insert _ body => Some (new_summary body)
  | Update _ _ body => Some (summary body)
  | Print _ => None
  end.

(** Whether [generate_calendar_urls] lists a calendar: not the primary
    one, nor those of contacts and holidays. *)
Definition listed (c : calendar) : bool :=
  negb (contains "@gmail" (cal_id c)) && negb (contains "#" (cal_id c)).

(** The time since the last update of a calendar, at [now], when its
    [updated] field is read. *)
Definition age (latest_updated : string -> string) (now : datetime) (c : calendar) : option Z :=
  match from_google_date_to_datetime_ms (latest_updated (cal_id c)) with
  | Return t1 => Some (sub now t1)
  | Raise _ => None
  end.

(** The entries of the listed calendars whose age satisfies [p], in the
    order of the list; the calendar of index [i] is looked at at
    [clock i]. *)
Fixpoint entries_where (ical embed iframe : string -> string)
         (latest_updated : string -> string) (p : Z -> bool)
         (clock : nat -> datetime) (i : nat) (calendars_list : list calendar) : list string :=
  match calendars_list with
  | [] => []
  | c :: rest =>
      let tail := entries_where ical embed iframe latest_updated p clock (S i) rest in
      match age latest_updated (clock i) c with
      | Some a =>
          if listed c && p a
          then append_calendar_to_list ical embed iframe [] (cal_summary c) (cal_id c) ++ tail
          else tail
      | None => tail
      end
  end%list.

(** The calendar a request on events is sent to. *)
Definition sent_to (e : effect) : option string :=
  match e with
  | Insert c _ => Some c
  | Update c _ _ => Some c
  | Print _ => None
  end.

(** The requests and the files among what was done. *)
Definition is_request (e : io) : bool :=
  match e with
  | OnEvents e => is_call e
  | _ => true
  end.

(** The calendar [update_calendars] hands to [update_calendar_events]
    for a tournament of this name. *)
Definition calendar_for (calendars_insert : string -> string)
           (calendars_list : list calendar) (tournament_name : string) : string :=
  match calendars_get calendars_list tournament_name with
  | Some calendar_id => calendar_id
  | None => calendars_insert tournament_name
  end.

(** The file written and the gist patched. *)
Definition is_page (e : io) : bool :=
  match e with
  | WriteFile _ _ => true
  | PatchGist _ _ _ _ => true
  | _ => false
  end.

(** The first line [update_calendars] prints for a tournament. *)
Definition processing (tournament_name : string) : io :=
  OnEvents (Print ("Processing tournament: " ++ tournament_name ++ PyStr.nl)).

(** The spelling of [updated] in the answers of the calendar: UTC, with
    three digits of milliseconds, closed by [Z]. *)
Definition millis_zulu (d : datetime) : string :=
  format_local (whole_second d) ++ "."
  ++ String (PyStr.digit_char (microsecond d / 100000)) (PyStr.pad2 (microsecond d / 1000 mod 100))
  ++ "Z".

(** The page [generate_calendar_urls] writes for these three lists. *)
Definition page (utcnow : datetime) (active inactive archive : list string) : string :=
  String.concat PyStr.nl
    [("Updated (UTC) time: " ++ format_local utcnow ++ "Z" ++ PyStr.nl ++ page_notes)%string;
     "# Active"; String.concat PyStr.nl active;
     "# Inactive"; String.concat PyStr.nl inactive;
     "# Archive"; String.concat PyStr.nl archive].

(* ================================================================== *)
(** * Properties *)

(** ** Strings *)

#[global] Arguments PyStr.digit_char : simpl never.
#[global] Arguments PyStr.digit_val : simpl never.

Section StringFacts.

Lemma append_assoc (a b c : string) : (a ++ b) ++ c = a ++ (b ++ c).
Proof. induction a as [|x a IH]; simpl; [reflexivity | now rewrite IH]. Qed.

Lemma append_empty_r (a : string) : a ++ "" = a.
Proof. induction a as [|x a IH]; simpl; [reflexivity | now rewrite IH]. Qed.

Lemma length_append (a b : string) :
  String.length (a ++ b) = (String.length a + String.length b)%nat.
Proof. induction a as [|x a IH]; simpl; [reflexivity | now rewrite IH]. Qed.

Lemma take_length_append (a b : string) : PyStr.take (String.length a) (a ++ b) = a.
Proof. induction a as [|x a IH]; simpl; [now destruct b | now rewrite IH]. Qed.

Lemma occurs_append c (a b : string) :
  PyStr.occurs c (a ++ b) = PyStr.occurs c a || PyStr.occurs c b.
Proof.
  induction a as [|x a IH]; simpl; [reflexivity |].
  now rewrite IH, orb_assoc.
Qed.

Lemma replace_append c by_ (a b : string) :
  PyStr.replace c by_ (a ++ b) = PyStr.replace c by_ a ++ PyStr.replace c by_ b.
Proof.
  induction a as [|x a IH]; simpl; [reflexivity |].
  destruct (Ascii.eqb x c); rewrite IH; [now rewrite append_assoc | reflexivity].
Qed.

Lemma replace_absent c by_ (a : string) :
  PyStr.occurs c a = false -> PyStr.replace c by_ a = a.
Proof.
  induction a as [|x a IH]; simpl; [reflexivity |].
  destruct (Ascii.eqb x c); simpl; [discriminate |].
  intros H. now rewrite IH.
Qed.

Lemma rfind_from_absent c (a : string) i last :
  PyStr.occurs c a = false -> PyStr.rfind_from c a i last = last.
Proof.
  revert i last. induction a as [|x a IH]; simpl; intros i last; [reflexivity |].
  destruct (Ascii.eqb x c); simpl; [discriminate |].
  intros H. now apply IH.
Qed.

Lemma rfind_from_append c (a b : string) i last :
  PyStr.rfind_from c (a ++ b) i last
  = PyStr.rfind_from c b (i + PyStr.len a) (PyStr.rfind_from c a i last).
Proof.
  revert i last. induction a as [|x a IH]; simpl; intros i last.
  - unfold PyStr.len. simpl. now rewrite Z.add_0_r.
  - rewrite IH. f_equal. unfold PyStr.len. simpl String.length. lia.
Qed.

(** Cutting at the last [c] of [a ++ c :: b] gives [a] back when [c]
    occurs in neither [a] nor, again, in [b]. *)
Lemma slice_to_rfind c (a b : string) :
  PyStr.occurs c b = false ->
  PyStr.slice_to (a ++ String c b) (PyStr.rfind (a ++ String c b) c) = a.
Proof.
  intros Hb. unfold PyStr.rfind. rewrite rfind_from_append. simpl.
  rewrite Ascii.eqb_refl, (rfind_from_absent _ _ _ _ Hb).
  unfold PyStr.slice_to. fold (PyStr.len a).
  assert (Hl : 0 <= PyStr.len a) by (unfold PyStr.len; lia).
  destruct (Z.ltb_spec (PyStr.len a) 0) as [H|_]; [lia |].
  unfold PyStr.len. rewrite Nat2Z.id. apply take_length_append.
Qed.

(** [s[:-1]] drops the last character. *)
Lemma slice_to_drop_last (a : string) c :
  PyStr.slice_to (a ++ String c "") (-1) = a.
Proof.
  unfold PyStr.slice_to, PyStr.len. simpl (_ <? _).
  rewrite length_append. simpl String.length.
  replace (Z.to_nat (Z.of_nat (String.length a + 1) + -1)) with (String.length a) by lia.
  apply take_length_append.
Qed.

End StringFacts.

(** ** Digits *)

(** Goals on quotients and remainders by constants. *)
Ltac div_lia := Z.div_mod_to_equations; lia.

Section DigitFacts.

Lemma digit_cases (d : Z) :
  0 <= d <= 9 ->
  d = 0 \/ d = 1 \/ d = 2 \/ d = 3 \/ d = 4 \/ d = 5 \/ d = 6 \/ d = 7 \/ d = 8 \/ d = 9.
Proof. lia. Qed.

Lemma digit_val_char (d : Z) :
  0 <= d <= 9 -> PyStr.digit_val (PyStr.digit_char d) = Some d.
Proof.
  intros H. destruct (digit_cases d H) as [->|[->|[->|[->|[->|[->|[->|[->|[->| ->]]]]]]]]];
    reflexivity.
Qed.

(** A digit is no other character. *)
Lemma digit_char_neq (d : Z) (c : ascii) :
  0 <= d <= 9 -> PyStr.digit_val c = None -> Ascii.eqb (PyStr.digit_char d) c = false.
Proof.
  intros H Hc. destruct (Ascii.eqb_spec (PyStr.digit_char d) c) as [E|_]; [| reflexivity].
  subst c. rewrite (digit_val_char d H) in Hc. discriminate.
Qed.

Lemma occurs_pad2 c (n : Z) :
  0 <= n <= 99 -> PyStr.digit_val c = None -> PyStr.occurs c (PyStr.pad2 n) = false.
Proof.
  intros H Hc. unfold PyStr.pad2. cbn [PyStr.occurs].
  rewrite !digit_char_neq; auto.
  - div_lia.
  - div_lia.
Qed.

Lemma occurs_pad4 c (n : Z) :
  0 <= n <= 9999 -> PyStr.digit_val c = None -> PyStr.occurs c (PyStr.pad4 n) = false.
Proof.
  intros H Hc. unfold PyStr.pad4. rewrite occurs_append, !occurs_pad2; auto.
  - div_lia.
  - div_lia.
Qed.

Lemma occurs_pad6 c (n : Z) :
  0 <= n <= 999999 -> PyStr.digit_val c = None -> PyStr.occurs c (PyStr.pad6 n) = false.
Proof.
  intros H Hc. unfold PyStr.pad6. rewrite occurs_append, occurs_pad2, occurs_pad4; auto.
  - div_lia.
  - div_lia.
Qed.

End DigitFacts.

(** ** Reading back what [isoformat] prints *)

Section ParseFacts.

Import Strptime.

Lemma one_digit_char (d : Z) (r : string) :
  0 <= d <= 9 -> one_digit (String (PyStr.digit_char d) r) = Some (d, r).
Proof. intros H. unfold one_digit. now rewrite digit_val_char. Qed.

Lemma two_digits_pad2 (n : Z) (r : string) :
  0 <= n <= 99 -> two_digits (PyStr.pad2 n ++ r) = Some ((n / 10, n mod 10), r).
Proof.
  intros H. unfold two_digits, PyStr.pad2. cbn [append].
  rewrite one_digit_char by div_lia. rewrite one_digit_char by div_lia.
  reflexivity.
Qed.

Lemma field_pad2 ok2 ok1 (n : Z) (r : string) :
  0 <= n <= 99 -> ok2 (n / 10) (n mod 10) = true ->
  field ok2 ok1 (PyStr.pad2 n ++ r) = Some (n, r).
Proof.
  intros H Hok. unfold field. rewrite two_digits_pad2, Hok by assumption.
  do 2 f_equal. div_lia.
Qed.

Lemma re_Y_pad4 (y : Z) (r : string) :
  0 <= y <= 9999 -> re_Y (PyStr.pad4 y ++ r) = Some (y, r).
Proof.
  intros H. unfold re_Y, PyStr.pad4. rewrite append_assoc.
  rewrite two_digits_pad2 by div_lia. rewrite two_digits_pad2 by div_lia.
  do 2 f_equal. div_lia.
Qed.

Lemma re_m_pad2 (m : Z) (r : string) :
  1 <= m <= 12 -> re_m (PyStr.pad2 m ++ r) = Some (m, r).
Proof.
  intros H. apply field_pad2; [lia |].
  assert (m / 10 = 0 /\ 1 <= m mod 10 \/ m / 10 = 1 /\ m mod 10 <= 2) as [[-> Hm]|[-> Hm]]
    by div_lia.
  - apply orb_true_iff. right. apply Z.leb_le in Hm. now rewrite Hm.
  - apply orb_true_iff. left. apply Z.leb_le in Hm. now rewrite Hm.
Qed.

Lemma re_d_pad2 (d : Z) (r : string) :
  1 <= d <= 31 -> re_d (PyStr.pad2 d ++ r) = Some (d, r).
Proof.
  intros H. unfold re_d. rewrite field_pad2; [reflexivity | lia |].
  assert (m : d / 10 = 0 /\ 1 <= d mod 10 \/ 1 <= d / 10 <= 2 \/ d / 10 = 3 /\ d mod 10 <= 1)
    by div_lia.
  destruct m as [[-> Hm]|[[H1 H2]|[-> Hm]]].
  - apply Z.leb_le in Hm. rewrite Hm. reflexivity.
  - apply Z.leb_le in H1, H2. rewrite H1, H2. simpl. now rewrite orb_true_r.
  - apply Z.leb_le in Hm. rewrite Hm. reflexivity.
Qed.

Lemma re_H_pad2 (h : Z) (r : string) :
  0 <= h <= 23 -> re_H (PyStr.pad2 h ++ r) = Some (h, r).
Proof.
  intros H. apply field_pad2; [lia |].
  assert (m : h / 10 <= 1 \/ h / 10 = 2 /\ h mod 10 <= 3) by div_lia.
  destruct m as [Hm|[-> Hm]]; apply Z.leb_le in Hm; rewrite Hm.
  - apply orb_true_r.
  - reflexivity.
Qed.

Lemma re_M_pad2 (m : Z) (r : string) :
  0 <= m <= 59 -> re_M (PyStr.pad2 m ++ r) = Some (m, r).
Proof.
  intros H. apply field_pad2; [lia |]. apply Z.leb_le. div_lia.
Qed.

Lemma re_S_pad2 (s : Z) (r : string) :
  0 <= s <= 59 -> re_S (PyStr.pad2 s ++ r) = Some (s, r).
Proof.
  intros H. apply field_pad2; [lia |].
  assert (Hm : s / 10 <= 5) by div_lia. apply Z.leb_le in Hm. rewrite Hm.
  apply orb_true_r.
Qed.

Lemma lit_append (c : ascii) (r : string) : lit c (String c "" ++ r) = Some r.
Proof. cbn [append lit]. now rewrite Ascii.eqb_refl. Qed.

Lemma lit_T_append (r : string) : lit_T ("T" ++ r) = Some r.
Proof. reflexivity. Qed.

End ParseFacts.

(** ** Valid datetimes *)

Section ValidFacts.

Lemma valid_fields (d : datetime) :
  valid d = true ->
  (1 <= year d <= 9999) /\ (1 <= month d <= 12)
  /\ (1 <= day d <= days_in_month (year d) (month d))
  /\ (0 <= hour d <= 23) /\ (0 <= minute d <= 59) /\ (0 <= second d <= 59)
  /\ (0 <= microsecond d <= 999999)
  /\ (- US_PER_DAY < utcoffset d < US_PER_DAY).
Proof.
  unfold valid, MINYEAR, MAXYEAR.
  rewrite !andb_true_iff, !Z.leb_le, !Z.ltb_lt. tauto.
Qed.

Lemma days_in_month_le (y m : Z) : days_in_month y m <= 31.
Proof.
  unfold days_in_month.
  destruct ((m =? 2) && is_leap y); [lia |].
  unfold DAYS_IN_MONTH.
  repeat match goal with |- context [match ?x with _ => _ end] => destruct x end; lia.
Qed.

Lemma valid_whole_second (d : datetime) : valid d = true -> valid (whole_second d) = true.
Proof.
  intros H. pose proof (valid_fields d H) as F.
  unfold valid in *. cbn [whole_second year month day hour minute second microsecond utcoffset].
  rewrite !andb_true_iff, !Z.leb_le, !Z.ltb_lt in *. intuition lia.
Qed.

End ValidFacts.

(** ** [strptime] on the strings [isoformat] prints *)

Section RoundTrip.

Import Strptime.

Lemma format_local_split (d : datetime) :
  format_local d
  = format_local (whole_second d)
    ++ (if microsecond d =? 0 then "" else "." ++ PyStr.pad6 (microsecond d)).
Proof.
  unfold format_local, whole_second.
  cbn [year month day hour minute second microsecond utcoffset].
  change (0 =? 0) with true. cbv iota.
  rewrite !append_assoc. reflexivity.
Qed.

(** The date and time of a valid datetime are read back, up to the
    offset. *)
Lemma match_format_local (d : datetime) (rest : string) :
  valid d = true ->
  match_format (format_local (whole_second d) ++ rest)
  = obind_opt (re_z_end rest) (fun off =>
      Some (mkdatetime (year d) (month d) (day d) (hour d) (minute d) (second d) 0 off)).
Proof.
  intros H. destruct (valid_fields d H) as (Hy & Hm & Hd & Hh & Hmi & Hs & _ & _).
  pose proof (days_in_month_le (year d) (month d)) as Hdim.
  unfold format_local, whole_second.
  cbn [year month day hour minute second microsecond utcoffset].
  change (0 =? 0) with true. cbv iota.
  rewrite !append_assoc. unfold match_format.
  rewrite re_Y_pad4 by lia. cbn [obind_opt]. rewrite lit_append.
  cbn [obind_opt]. rewrite re_m_pad2 by lia. cbn [obind_opt]. rewrite lit_append.
  cbn [obind_opt]. rewrite re_d_pad2 by lia. cbn [obind_opt]. rewrite lit_T_append.
  cbn [obind_opt]. rewrite re_H_pad2 by lia. cbn [obind_opt]. rewrite lit_append.
  cbn [obind_opt]. rewrite re_M_pad2 by lia. cbn [obind_opt]. rewrite lit_append.
  cbn [obind_opt]. rewrite re_S_pad2 by lia. cbn [obind_opt].
  reflexivity.
Qed.

End RoundTrip.

Section GoogleDates.

Import Strptime.

(** Only digits and the marks of the format occur in the date and time. *)
Lemma occurs_format_local (c : ascii) (d : datetime) :
  valid d = true -> PyStr.digit_val c = None ->
  c <> "-"%char -> c <> "T"%char -> c <> ":"%char -> c <> "."%char ->
  PyStr.occurs c (format_local d) = false.
Proof.
  intros H Hc N1 N2 N3 N4.
  destruct (valid_fields d H) as (Hy & Hm & Hd & Hh & Hmi & Hs & Hus & _).
  pose proof (days_in_month_le (year d) (month d)) as Hdim.
  apply not_eq_sym, Ascii.eqb_neq in N1, N2, N3, N4.
  unfold format_local.
  rewrite !occurs_append. cbn [PyStr.occurs].
  rewrite N1, N2, N3.
  rewrite occurs_pad4, !occurs_pad2 by (assumption || lia).
  destruct (microsecond d =? 0); [reflexivity |].
  rewrite occurs_append. cbn [PyStr.occurs]. rewrite N4.
  rewrite occurs_pad6 by (assumption || lia). reflexivity.
Qed.

(** A UTC time to the second, spelled with [Z], is read back. *)
Lemma from_google_zulu (d : datetime) :
  valid d = true -> utcoffset d = 0 ->
  from_google_date_to_datetime (zulu d) = Return (whole_second d).
Proof.
  intros H Hoff. pose proof (valid_whole_second d H) as Hw.
  unfold from_google_date_to_datetime, zulu.
  rewrite replace_append, replace_absent
    by (apply occurs_format_local; [assumption | reflexivity | discriminate ..]).
  change (PyStr.replace "Z" "+0000" "Z") with "+0000".
  unfold strptime. rewrite match_format_local by assumption.
  change (re_z_end "+0000") with (Some 0). cbn [obind_opt].
  replace (mkdatetime (year d) (month d) (day d) (hour d) (minute d) (second d) 0 0)
    with (whole_second d) by (unfold whole_second; now rewrite Hoff).
  now rewrite Hw.
Qed.

(** Whatever follows, a point after the seconds is refused. *)
Lemma from_google_fraction (d : datetime) (rest : string) :
  valid d = true ->
  from_google_date_to_datetime (format_local (whole_second d) ++ "." ++ rest)
  = Raise ValueError.
Proof.
  intros H. pose proof (valid_whole_second d H) as Hw.
  unfold from_google_date_to_datetime.
  rewrite replace_append, replace_absent
    by (apply occurs_format_local; [assumption | reflexivity | discriminate ..]).
  change (PyStr.replace "Z" "+0000" ("." ++ rest))
    with ("." ++ PyStr.replace "Z" "+0000" rest).
  unfold strptime. rewrite match_format_local by assumption.
  reflexivity.
Qed.

(** So is every [isoformat] that carries microseconds. *)
Lemma from_google_isoformat_microseconds (d : datetime) :
  valid d = true -> microsecond d <> 0 ->
  from_google_date_to_datetime (isoformat d) = Raise ValueError.
Proof.
  intros H Hus. unfold isoformat. rewrite format_local_split.
  apply Z.eqb_neq in Hus. rewrite Hus.
  rewrite !append_assoc. now apply from_google_fraction.
Qed.

(** What is read has no microseconds and is a valid datetime. *)
Lemma from_google_whole (s : string) (d : datetime) :
  from_google_date_to_datetime s = Return d -> microsecond d = 0 /\ valid d = true.
Proof.
  unfold from_google_date_to_datetime, strptime.
  destruct (match_format _) as [d'|] eqn:E; [| discriminate].
  destruct (valid d') eqn:V; [| discriminate].
  intros [= <-]. split; [| assumption].
  unfold match_format, obind_opt in E.
  repeat match type of E with
         | match ?x with _ => _ end = _ => destruct x as [[? ?]|]; [| discriminate]
         | match ?x with _ => _ end = _ => destruct x; [| discriminate]
         end.
  now injection E as <-.
Qed.

End GoogleDates.

(** ** The calendar: ordinals and dates *)

Section Calendar.

Lemma all_from_spec (p : Z -> bool) (n : nat) (z : Z) :
  all_from n z p = true -> forall i, z <= i < z + Z.of_nat n -> p i = true.
Proof.
  revert z. induction n as [|n IH]; intros z H i Hi; [lia |].
  cbn [all_from] in H. apply andb_true_iff in H as [Hz Hrest].
  destruct (Z.eq_dec i z) as [->|Hne]; [assumption |].
  apply (IH (z + 1) Hrest). lia.
Qed.

(** The days of the first four hundred years, one by one. *)
Lemma first_cycle_ok : all_from (Z.to_nat 146097) 1 ordinal_ok = true.
Proof. vm_compute. reflexivity. Qed.

Lemma is_leap_cycle (y q : Z) : is_leap (y + 400 * q) = is_leap y.
Proof.
  unfold is_leap.
  replace ((y + 400 * q) mod 4) with (y mod 4) by div_lia.
  replace ((y + 400 * q) mod 100) with (y mod 100) by div_lia.
  replace ((y + 400 * q) mod 400) with (y mod 400) by div_lia.
  reflexivity.
Qed.

Lemma days_before_year_cycle (y q : Z) :
  days_before_year (y + 400 * q) = days_before_year y + 146097 * q.
Proof. unfold days_before_year. cbv zeta. div_lia. Qed.

Lemma ymd2ord_cycle (y m d q : Z) :
  ymd2ord (y + 400 * q) m d = ymd2ord y m d + 146097 * q.
Proof.
  unfold ymd2ord, days_before_month.
  rewrite days_before_year_cycle, is_leap_cycle. lia.
Qed.

Lemma days_in_month_cycle (y m q : Z) :
  days_in_month (y + 400 * q) m = days_in_month y m.
Proof. unfold days_in_month. now rewrite is_leap_cycle. Qed.

Lemma ord2ymd_cycle (n q : Z) :
  ord2ymd (n + 146097 * q) = let '(y, m, d) := ord2ymd n in (y + 400 * q, m, d).
Proof.
  unfold ord2ymd, DI400Y. cbv zeta.
  replace (n + 146097 * q - 1) with ((n - 1) + q * 146097) by lia.
  rewrite Z.div_add, Z_mod_plus_full by lia.
  set (r := (n - 1) mod 146097).
  destruct ((r mod DI100Y mod DI4Y / 365 =? 4) || (r / DI100Y =? 4)).
  - f_equal. f_equal. lia.
  - destruct (_ <? _); f_equal; f_equal; lia.
Qed.

Lemma ordinal_ok_cycle (n q : Z) :
  0 <= q -> ordinal_ok n = true -> ordinal_ok (n + 146097 * q) = true.
Proof.
  intros Hq. unfold ordinal_ok. rewrite ord2ymd_cycle.
  destruct (ord2ymd n) as [[y m] d].
  rewrite ymd2ord_cycle, days_in_month_cycle.
  rewrite !andb_true_iff, !Z.leb_le, !Z.eqb_eq. intuition lia.
Qed.

Lemma ordinal_ok_all (n : Z) : 1 <= n -> ordinal_ok n = true.
Proof.
  intros H.
  replace n with (((n - 1) mod 146097 + 1) + 146097 * ((n - 1) / 146097)) by div_lia.
  apply ordinal_ok_cycle; [div_lia |].
  apply (all_from_spec _ _ _ first_cycle_ok).
  assert (0 <= (n - 1) mod 146097 < 146097) by (apply Z.mod_pos_bound; lia).
  rewrite Z2Nat.id; lia.
Qed.

Lemma days_before_month_nonneg (y m : Z) : 1 <= m <= 12 -> 0 <= days_before_month y m.
Proof.
  intros H. unfold days_before_month.
  assert (0 <= DAYS_BEFORE_MONTH m).
  { assert (C : m = 1 \/ m = 2 \/ m = 3 \/ m = 4 \/ m = 5 \/ m = 6 \/ m = 7 \/ m = 8
                \/ m = 9 \/ m = 10 \/ m = 11 \/ m = 12) by lia.
    repeat destruct C as [->|C]; try subst m; cbn; lia. }
  destruct (_ && _); lia.
Qed.

(** [fromordinal] and [toordinal] agree on the ordinals of the calendar,
    and the date is a valid one. *)
Lemma ord2ymd_ok (n : Z) :
  1 <= n <= MAXORDINAL ->
  exists y m d,
    ord2ymd n = (y, m, d) /\ ymd2ord y m d = n
    /\ 1 <= y <= 9999 /\ 1 <= m <= 12 /\ 1 <= d <= days_in_month y m.
Proof.
  unfold MAXORDINAL. intros [H1 H2]. pose proof (ordinal_ok_all n H1) as Hok.
  unfold ordinal_ok in Hok. destruct (ord2ymd n) as [[y m] d].
  rewrite !andb_true_iff, !Z.leb_le, !Z.eqb_eq in Hok.
  destruct Hok as (((((Hn & Hy) & Hm1) & Hm2) & Hd1) & Hd2).
  exists y, m, d. repeat split; try assumption.
  pose proof (days_before_month_nonneg y m (conj Hm1 Hm2)) as Hb.
  unfold ymd2ord, days_before_year in Hn. cbv zeta in Hn.
  div_lia.
Qed.

End Calendar.

(** ** Arithmetic on datetimes *)

Ltac us_consts :=
  change US_PER_DAY with 86400000000 in *;
  change US_PER_HOUR with 3600000000 in *;
  change US_PER_MINUTE with 60000000 in *;
  change US_PER_SECOND with 1000000 in *.

Section DatetimeArith.

Lemma timedelta_minutes_spec (m td : Z) :
  timedelta_minutes m = Return td -> td = m * 60000000.
Proof.
  unfold timedelta_minutes. cbv zeta. destruct (_ && _); [| discriminate].
  now intros [= <-].
Qed.

(** [d + td], when it is a datetime, is the instant [td] later, in the
    same time zone, with the microseconds of the sum. *)
Lemma add_spec (d r : datetime) (td : Z) :
  add d td = Return r ->
  local_micros r = local_micros d + td
  /\ utcoffset r = utcoffset d
  /\ microsecond r = (local_micros d + td) mod 1000000
  /\ (- US_PER_DAY <? utcoffset d) && (utcoffset d <? US_PER_DAY) = valid r.
Proof.
  unfold add. cbv zeta.
  set (delta := local_micros d + td).
  destruct ((0 <? delta / US_PER_DAY) && (delta / US_PER_DAY <=? MAXORDINAL)) eqn:Hrange;
    [| discriminate].
  apply andb_true_iff in Hrange as [Hlo Hhi].
  apply Z.ltb_lt in Hlo. apply Z.leb_le in Hhi.
  destruct (ord2ymd_ok (delta / US_PER_DAY)) as (y & m & dd & E & Hord & Hy & Hm & Hd);
    [lia |].
  rewrite E. intros [= <-].
  unfold local_micros at 1, toordinal, valid, MINYEAR, MAXYEAR.
  cbn [year month day hour minute second microsecond utcoffset].
  rewrite Hord. us_consts.
  repeat split.
  - div_lia.
  - div_lia.
  - assert (Hf : (1 <=? y) && (y <=? 9999) && (1 <=? m) && (m <=? 12) && (1 <=? dd)
                 && (dd <=? days_in_month y m)
                 && (0 <=? delta mod 86400000000 / 3600000000)
                 && (delta mod 86400000000 / 3600000000 <=? 23)
                 && (0 <=? delta mod 86400000000 mod 3600000000 / 60000000)
                 && (delta mod 86400000000 mod 3600000000 / 60000000 <=? 59)
                 && (0 <=? delta mod 86400000000 mod 60000000 / 1000000)
                 && (delta mod 86400000000 mod 60000000 / 1000000 <=? 59)
                 && (0 <=? delta mod 86400000000 mod 1000000)
                 && (delta mod 86400000000 mod 1000000 <=? 999999) = true).
    { rewrite !andb_true_iff, !Z.leb_le. repeat split; try lia; div_lia. }
    rewrite Hf. reflexivity.
Qed.

Lemma add_utc (d r : datetime) (td : Z) :
  add d td = Return r -> utc_micros r = utc_micros d + td.
Proof.
  intros H. destruct (add_spec d r td H) as (Hl & Ho & _).
  unfold utc_micros. lia.
Qed.

Lemma add_valid (d r : datetime) (td : Z) :
  valid d = true -> add d td = Return r -> valid r = true.
Proof.
  intros Hv H. destruct (add_spec d r td H) as (_ & _ & _ & <-).
  destruct (valid_fields d Hv) as (_ & _ & _ & _ & _ & _ & _ & Hoff).
  apply andb_true_iff. split; [apply Z.ltb_lt | apply Z.ltb_lt]; lia.
Qed.

(** The microseconds of a valid datetime survive whole minutes. *)
Lemma add_minutes_microsecond (d r : datetime) (m td : Z) :
  valid d = true -> timedelta_minutes m = Return td -> add d td = Return r ->
  microsecond r = microsecond d.
Proof.
  intros Hv Htd H. apply timedelta_minutes_spec in Htd. subst td.
  destruct (add_spec d r _ H) as (_ & _ & -> & _).
  destruct (valid_fields d Hv) as (_ & _ & _ & _ & _ & _ & Hus & _).
  unfold local_micros. us_consts. div_lia.
Qed.

(** The instant of a datetime without microseconds, in UTC, is a whole
    number of seconds. *)
Lemma utc_micros_whole (d : datetime) :
  microsecond d = 0 -> utcoffset d = 0 -> utc_micros d = utc_seconds d * 1000000.
Proof.
  intros Hus Hoff. unfold utc_seconds, utc_micros, local_micros.
  rewrite Hus, Hoff. us_consts. div_lia.
Qed.

Lemma utc_micros_whole_second (d : datetime) :
  valid d = true -> utc_micros (whole_second d) = utc_micros d - microsecond d.
Proof.
  intros _. unfold utc_micros, local_micros, toordinal, whole_second.
  cbn [year month day hour minute second microsecond utcoffset]. lia.
Qed.

End DatetimeArith.

(** ** The effect monad *)

Section MonadFacts.

Lemma bind_lift_Return {A B} (a : A) (f : A -> M B) : bind (lift (Return a)) f = f a.
Proof. unfold bind, lift. destruct (f a). reflexivity. Qed.

Lemma bind_ret {A B} (a : A) (f : A -> M B) : bind (ret a) f = f a.
Proof. apply bind_lift_Return. Qed.

Lemma bind_lift_Raise {A B} (e : exn) (f : A -> M B) : bind (lift (Raise e)) f = ([], Raise e).
Proof. reflexivity. Qed.

Lemma bind_emit {B} (e : effect) (f : unit -> M B) :
  bind (emit e) f = (e :: fst (f tt), snd (f tt)).
Proof. unfold bind, emit. destruct (f tt). reflexivity. Qed.

Lemma bind_Return {A B} (l : list effect) (a : A) (f : A -> M B) :
  bind (l, Return a) f = ((l ++ fst (f a))%list, snd (f a)).
Proof. unfold bind. destruct (f a). reflexivity. Qed.

Lemma bind_assoc {A B C} (x : M A) (f : A -> M B) (g : B -> M C) :
  bind (bind x f) g = bind x (fun a => bind (f a) g).
Proof.
  destruct x as [l [a|e]]; [| reflexivity].
  unfold bind. destruct (f a) as [l1 [b|e1]]; [| reflexivity].
  destruct (g b) as [l2 r]. now rewrite app_assoc.
Qed.

Lemma calls_app (a b : list effect) : calls (a ++ b) = (calls a ++ calls b)%list.
Proof. apply filter_app. Qed.

End MonadFacts.

(** ** Finished matches *)

Section Finished.

Variable service : Service.
Variable calendar_id : string.

(** [show_if_different] without [time] reads no date: it always returns. *)
Lemma show_if_different_plain (word old new : string) :
  exists text, show_if_different word old new false = Return text.
Proof. unfold show_if_different. destruct (negb _); eexists; reflexivity. Qed.

(** The three cases of [update_finished_event], once both dates of the
    event are read. *)
Lemma update_finished_event_run (m : Match) (ev : event) (now s e : datetime) :
  from_google_date_to_datetime (start_dateTime ev) = Return s ->
  from_google_date_to_datetime (end_dateTime ev) = Return e ->
  exists text,
    update_finished_event service calendar_id m ev now
    = if (utc_micros now <? utc_micros e) && (utc_micros s <? utc_micros now) then
        let ev' := mkevent (id ev) (summary ev) (start_dateTime ev) (isoformat now) (color m) in
        ([Update calendar_id (id ev) ev'; Print text], Return ev')
      else if negb (String.eqb (colorId ev) (color m)) then
        let ev' := mkevent (id ev) (summary ev) (start_dateTime ev) (end_dateTime ev) (color m) in
        ([Update calendar_id (id ev) ev'; Print text], Return ev')
      else ([Print text], Return ev).
Proof.
  intros Hs He. unfold update_finished_event.
  rewrite Hs, bind_lift_Return, He, bind_lift_Return.
  unfold gt, lt.
  destruct ((utc_micros now <? utc_micros e) && (utc_micros s <? utc_micros now)).
  - cbv zeta. cbn [id summary start_dateTime end_dateTime colorId].
    destruct (show_if_different_plain "end" (end_dateTime ev)
                (end_dateTime (events_update service calendar_id (id ev)
                   (mkevent (id ev) (summary ev) (start_dateTime ev) (isoformat now) (color m)))))
      as [b Hb].
    destruct (show_if_different_plain "status" (status_from_color m (colorId ev))
                (status_from_color m (color m))) as [c Hc].
    rewrite bind_emit, Hb, bind_lift_Return, Hc, bind_lift_Return.
    eexists. reflexivity.
  - destruct (negb _).
    + cbv zeta. cbn [id summary start_dateTime end_dateTime colorId].
      destruct (show_if_different_plain "status" (status_from_color m (colorId ev))
                  (status_from_color m (color m))) as [c Hc].
      rewrite bind_emit, Hc, bind_lift_Return.
      eexists. reflexivity.
    + eexists. reflexivity.
Qed.

End Finished.

(** C3. For a finished match whose event is read: when the end of the
    event is after now and now is after its start, exactly one update is
    sent, with end = now and the colour of the match (an event of 14:00
    to 15:30 at 15:10 gets the end 15:10); otherwise, when the colours
    differ, one update that changes the colour only; otherwise none. *)
Theorem update_finished_event_cases
  (service : Service) (cal : string) (m : Match) (ev : event) (now s e : datetime) :
  from_google_date_to_datetime (start_dateTime ev) = Return s ->
  from_google_date_to_datetime (end_dateTime ev) = Return e ->
  let r := update_finished_event service cal m ev now in
  let ended := mkevent (id ev) (summary ev) (start_dateTime ev) (isoformat now) (color m) in
  let recoloured :=
    mkevent (id ev) (summary ev) (start_dateTime ev) (end_dateTime ev) (color m) in
  (utc_micros e > utc_micros now /\ utc_micros now > utc_micros s ->
   calls (fst r) = [Update cal (id ev) ended] /\ snd r = Return ended)
  /\ (~ (utc_micros e > utc_micros now /\ utc_micros now > utc_micros s) ->
      colorId ev <> color m ->
      calls (fst r) = [Update cal (id ev) recoloured] /\ snd r = Return recoloured)
  /\ (~ (utc_micros e > utc_micros now /\ utc_micros now > utc_micros s) ->
      colorId ev = color m ->
      calls (fst r) = [] /\ snd r = Return ev)
  /\ (start_dateTime ev = "2024-05-01T14:00:00Z" ->
      end_dateTime ev = "2024-05-01T15:30:00Z" ->
      now = mkdatetime 2024 5 1 15 10 0 0 0 ->
      calls (fst r)
      = [Update cal (id ev)
           (mkevent (id ev) (summary ev) "2024-05-01T14:00:00Z"
              "2024-05-01T15:10:00+00:00" (color m))]).
Proof.
  intros Hs He r ended recoloured.
  destruct (update_finished_event_run service cal m ev now s e Hs He) as [text Hrun].
  assert (Hcases :
    (utc_micros e > utc_micros now /\ utc_micros now > utc_micros s ->
     calls (fst r) = [Update cal (id ev) ended] /\ snd r = Return ended)
    /\ (~ (utc_micros e > utc_micros now /\ utc_micros now > utc_micros s) ->
        colorId ev <> color m ->
        calls (fst r) = [Update cal (id ev) recoloured] /\ snd r = Return recoloured)
    /\ (~ (utc_micros e > utc_micros now /\ utc_micros now > utc_micros s) ->
        colorId ev = color m ->
        calls (fst r) = [] /\ snd r = Return ev)).
  { subst r. rewrite Hrun.
    destruct (Z.ltb_spec (utc_micros now) (utc_micros e)) as [H1|H1];
      destruct (Z.ltb_spec (utc_micros s) (utc_micros now)) as [H2|H2];
      cbn [andb];
      destruct (String.eqb_spec (colorId ev) (color m)) as [Hc|Hc];
      cbn [negb]; cbv zeta;
      (split; [| split]); intros; try lia; try contradiction;
      split; reflexivity. }
  destruct Hcases as (C1 & C2 & C3).
  repeat split; try (apply C1 || apply C2 || apply C3); try assumption.
  intros Es Ee En. rewrite Es, Ee in *.
  assert (s = mkdatetime 2024 5 1 14 0 0 0 0) by (vm_compute in Hs; congruence).
  assert (e = mkdatetime 2024 5 1 15 30 0 0 0) by (vm_compute in He; congruence).
  subst s e now. destruct C1 as [Hcalls _]; [vm_compute; split; reflexivity |].
  rewrite Hcalls. subst ended. rewrite Es. reflexivity.
Qed.

Lemma update_finished_event_cases_witness :
  calls (fst (update_finished_event echo_service "cal"
                (mkMatch "A vs B" (mkdatetime 2024 5 1 14 0 0 0 0) "3" false true (fun c => c))
                (mkevent "e1" "A vs B" "2024-05-01T14:00:00Z" "2024-05-01T15:30:00Z" "2")
                (mkdatetime 2024 5 1 15 10 0 0 0)))
  = [Update "cal" "e1"
       (mkevent "e1" "A vs B" "2024-05-01T14:00:00Z" "2024-05-01T15:10:00+00:00" "3")].
Proof.
  destruct (update_finished_event_cases echo_service "cal"
              (mkMatch "A vs B" (mkdatetime 2024 5 1 14 0 0 0 0) "3" false true (fun c => c))
              (mkevent "e1" "A vs B" "2024-05-01T14:00:00Z" "2024-05-01T15:30:00Z" "2")
              (mkdatetime 2024 5 1 15 10 0 0 0)
              (mkdatetime 2024 5 1 14 0 0 0 0) (mkdatetime 2024 5 1 15 30 0 0 0)
              eq_refl eq_refl) as (_ & _ & _ & H).
  exact (H eq_refl eq_refl eq_refl).
Defined.

(** ** Matches that are not finished *)

Section Live.

Variables D E : Z.
Variable service : Service.
Variable calendar_id : string.

(** [update_event_end], step by step. *)
Lemma update_event_end_run (m : Match) (e now : datetime) :
  update_event_end D E m e now
  = match timedelta_minutes D with
    | Raise x => ([], Raise x)
    | Return td =>
        match add (time_start m) td with
        | Raise x => ([], Raise x)
        | Return baseline =>
            let e1 := if lt e baseline then baseline else e in
            let l1 := if lt e baseline then [adjusting] else [] in
            if is_still_going m && lt e1 now
            then ((l1 ++ [extending])%list,
                  match timedelta_minutes E with
                  | Return td' => add now td'
                  | Raise x => Raise x
                  end)
            else (l1, Return e1)
        end
    end.
Proof.
  unfold update_event_end.
  destruct (timedelta_minutes D) as [td|x]; [rewrite bind_lift_Return | reflexivity].
  destruct (add (time_start m) td) as [baseline|x]; [rewrite bind_lift_Return | reflexivity].
  cbv zeta. unfold print, print_end.
  destruct (lt e baseline).
  - rewrite bind_assoc, bind_emit, bind_ret.
    destruct (is_still_going m && lt baseline now).
    + rewrite bind_emit.
      destruct (timedelta_minutes E) as [td'|x];
        [rewrite bind_lift_Return | rewrite bind_lift_Raise];
        cbn [fst snd app obind lift]; reflexivity.
    + cbn [fst snd ret]. reflexivity.
  - rewrite bind_ret.
    destruct (is_still_going m && lt e now).
    + rewrite bind_emit.
      destruct (timedelta_minutes E) as [td'|x];
        [rewrite bind_lift_Return | rewrite bind_lift_Raise];
        cbn [fst snd app obind lift]; reflexivity.
    + reflexivity.
Qed.

(** How [update_event_end] comes to its result. *)
Lemma update_event_end_cases (m : Match) (e now r : datetime) (l : list effect) :
  update_event_end D E m e now = (l, Return r) ->
  exists td baseline,
    timedelta_minutes D = Return td /\ add (time_start m) td = Return baseline
    /\ calls l = []
    /\ let e1 := if lt e baseline then baseline else e in
       (is_still_going m && lt e1 now = true
        /\ exists td', timedelta_minutes E = Return td' /\ add now td' = Return r)
       \/ (is_still_going m && lt e1 now = false /\ r = e1).
Proof.
  rewrite update_event_end_run.
  destruct (timedelta_minutes D) as [td|x]; [| discriminate].
  destruct (add (time_start m) td) as [baseline|x] eqn:Hb; [| discriminate].
  cbv zeta. intros H. exists td, baseline.
  split; [reflexivity |]. split; [assumption |].
  destruct (is_still_going m && lt (if lt e baseline then baseline else e) now).
  - injection H as Hl Hr. split.
    + subst l. now destruct (lt e baseline).
    + left. split; [reflexivity |].
      destruct (timedelta_minutes E) as [td'|x]; [| discriminate].
      exists td'. split; [reflexivity | exact Hr].
  - injection H as Hl Hr. split.
    + subst l. now destruct (lt e baseline).
    + right. split; [reflexivity | now symmetry].
Qed.

Lemma lt_utc (a b : datetime) : lt a b = (utc_micros a <? utc_micros b).
Proof. reflexivity. Qed.

(** The instant of the result is the end the specification computes. *)
Lemma update_event_end_instant (m : Match) (e now r : datetime) (l : list effect) :
  update_event_end D E m e now = (l, Return r) ->
  utc_micros r
  = computeEndTime (minutes D) (minutes E) (utc_micros (time_start m))
      (is_still_going m) (Some (utc_micros e)) (utc_micros now).
Proof.
  intros H.
  destruct (update_event_end_cases m e now r l H) as (td & baseline & Htd & Hb & _ & Hc).
  apply timedelta_minutes_spec in Htd. apply add_utc in Hb.
  assert (Hbase : utc_micros baseline = utc_micros (time_start m) + minutes D).
  { unfold minutes. change US_PER_MINUTE with 60000000. lia. }
  clear Htd Hb H. unfold computeEndTime. rewrite <- Hbase. rewrite <- !lt_utc.
  destruct (lt e baseline) eqn:Hlt.
  - destruct Hc as [[Hlive (td' & Htd' & Hr)]|[Hlive ->]].
    + rewrite <- lt_utc, Hlive.
      apply timedelta_minutes_spec in Htd'. apply add_utc in Hr.
      unfold minutes. change US_PER_MINUTE with 60000000. lia.
    + rewrite <- lt_utc, Hlive. reflexivity.
  - destruct Hc as [[Hlive (td' & Htd' & Hr)]|[Hlive ->]].
    + rewrite <- lt_utc, Hlive.
      apply timedelta_minutes_spec in Htd'. apply add_utc in Hr.
      unfold minutes. change US_PER_MINUTE with 60000000. lia.
    + rewrite <- lt_utc, Hlive. reflexivity.
Qed.

(** Reading a date fails with [ValueError] only. *)
Lemma from_google_raises (s : string) (x : exn) :
  from_google_date_to_datetime s = Raise x -> x = ValueError.
Proof.
  unfold from_google_date_to_datetime, Strptime.strptime.
  destruct (Strptime.match_format _) as [d|]; [destruct (valid d) |]; congruence.
Qed.

Lemma show_if_different_raises (word old new : string) (time : bool) (x : exn) :
  show_if_different word old new time = Raise x -> x = ValueError.
Proof.
  unfold show_if_different. destruct (negb _); [| discriminate].
  destruct time; [| discriminate].
  destruct (from_google_date_to_datetime old) as [a|y] eqn:P1; cbn [obind].
  - destruct (from_google_date_to_datetime new) as [b|y] eqn:P2; cbn [obind].
    + discriminate.
    + intros [= <-]. now apply from_google_raises in P2.
  - intros [= <-]. now apply from_google_raises in P1.
Qed.

(** [update_event], once the end of the event is read and the new end
    computed: one update and its report, or no change. The report can
    fail on the dates the calendar answers; the update is sent by then. *)
Lemma update_event_run (m : Match) (ev : event) (now e r : datetime) (l : list effect) :
  from_google_date_to_datetime (end_dateTime ev) = Return e ->
  update_event_end D E m e now = (l, Return r) ->
  exists tail res,
    update_event D E service calendar_id m ev now
    = (if changed m ev r
       then (l ++ Update calendar_id (id ev) (updated m ev r) :: tail, res)
       else (l ++ [Print (PyStr.tab ++ "No change." ++ PyStr.nl)], Return ev))%list
    /\ calls tail = []
    /\ (res = Return (updated m ev r) \/ res = Raise ValueError).
Proof.
  intros He Hr. unfold update_event. rewrite He, bind_lift_Return, Hr, bind_Return.
  cbv zeta. fold (changed m ev r). destruct (changed m ev r).
  - cbn [id]. fold (updated m ev r).
    rewrite bind_emit.
    destruct (show_if_different "start" _ _ true) as [a|x] eqn:Ha.
    2:{ apply show_if_different_raises in Ha. subst x.
        rewrite bind_lift_Raise. cbn [fst snd]. exists [], (Raise ValueError).
        split; [reflexivity | split; [reflexivity | now right]]. }
    rewrite bind_lift_Return.
    destruct (show_if_different "end" _ _ true) as [b|x] eqn:Hb.
    2:{ apply show_if_different_raises in Hb. subst x.
        rewrite bind_lift_Raise. cbn [fst snd]. exists [], (Raise ValueError).
        split; [reflexivity | split; [reflexivity | now right]]. }
    rewrite bind_lift_Return.
    destruct (show_if_different_plain "status" (status_from_color m (colorId ev))
                (status_from_color m (color m))) as [c Hc].
    rewrite Hc, bind_lift_Return. unfold print_end. rewrite bind_emit.
    cbn [fst snd ret]. eexists _, _.
    split; [reflexivity | split; [reflexivity | now left]].
  - exists [], (Return (updated m ev r)).
    unfold print, print_end. rewrite bind_emit. cbn [fst snd ret].
    split; [reflexivity | split; [reflexivity | now left]].
Qed.

End Live.

(** C1. On the update path the end starts from the end of the existing
    event, is raised to start + default duration when it is earlier, and
    then, when the match is still going and that end is before now, is
    raised to now + extension; this end is the one compared with the
    event and sent when something differs. *)
Theorem update_event_end_time
  (D E : Z) (service : Service) (cal : string) (m : Match) (ev : event)
  (now e r : datetime) (l : list effect) :
  from_google_date_to_datetime (end_dateTime ev) = Return e ->
  update_event_end D E m e now = (l, Return r) ->
  utc_micros r
  = computeEndTime (minutes D) (minutes E) (utc_micros (time_start m))
      (is_still_going m) (Some (utc_micros e)) (utc_micros now)
  /\ calls (fst (update_event D E service cal m ev now))
     = if different_start_times ev (isoformat (time_start m))
          || different_end_times ev (isoformat r)
          || different_colors ev (color m)
       then [Update cal (id ev)
               (mkevent (id ev) (summary ev) (isoformat (time_start m)) (isoformat r)
                  (color m))]
       else [].
Proof.
  intros He Hr. split; [now apply (update_event_end_instant D E m e now r l) |].
  destruct (update_event_end_cases D E m e now r l Hr) as (_ & _ & _ & _ & Hl & _).
  destruct (update_event_run D E service cal m ev now e r l He Hr)
    as (tail & res & -> & Htail & _).
  fold (changed m ev r). destruct (changed m ev r); cbn [fst].
  - rewrite calls_app, Hl. cbn [calls filter is_call app]. fold (calls tail).
    now rewrite Htail.
  - rewrite calls_app, Hl. reflexivity.
Qed.

Lemma update_event_end_time_witness :
  utc_micros (mkdatetime 2024 5 1 16 0 0 0 0)
  = computeEndTime (minutes 90) (minutes 20)
      (utc_micros (mkdatetime 2024 5 1 14 0 0 0 0)) true
      (Some (utc_micros (mkdatetime 2024 5 1 15 0 0 0 0)))
      (utc_micros (mkdatetime 2024 5 1 15 40 0 0 0))
  /\ calls (fst (update_event 90 20 echo_service "cal"
                   (mkMatch "A vs B" (mkdatetime 2024 5 1 14 0 0 0 0) "2" true false
                      (fun c => c))
                   (mkevent "e1" "A vs B" "2024-05-01T14:00:00Z" "2024-05-01T15:00:00Z" "2")
                   (mkdatetime 2024 5 1 15 40 0 0 0)))
     = [Update "cal" "e1"
          (mkevent "e1" "A vs B" "2024-05-01T14:00:00+00:00" "2024-05-01T16:00:00+00:00"
             "2")].
Proof.
  exact (update_event_end_time 90 20 echo_service "cal"
           (mkMatch "A vs B" (mkdatetime 2024 5 1 14 0 0 0 0) "2" true false (fun c => c))
           (mkevent "e1" "A vs B" "2024-05-01T14:00:00Z" "2024-05-01T15:00:00Z" "2")
           (mkdatetime 2024 5 1 15 40 0 0 0)
           (mkdatetime 2024 5 1 15 0 0 0 0) (mkdatetime 2024 5 1 16 0 0 0 0)
           [Print (PyStr.tab ++ "Adjusting end time." ++ PyStr.nl);
            Print (PyStr.tab ++ "Extending end as it is still going." ++ PyStr.nl)]
           eq_refl eq_refl).
Defined.

(** ** Comparing the dates of an event with the new ones *)

Section Comparison.

Lemma isoformat_utc (d : datetime) :
  utcoffset d = 0 -> isoformat d = format_local d ++ "+00:00".
Proof. intros H. unfold isoformat. rewrite H. reflexivity. Qed.

(** What [different_start_times] and [different_end_times] compare: the
    stored date without its last character, the new one up to its last
    [+]. *)
Lemma same_text_not_different (body : string) :
  String.eqb (PyStr.slice_to (body ++ "Z") (-1))
             (PyStr.slice_to (body ++ "+00:00") (PyStr.rfind (body ++ "+00:00") "+"))
  = true.
Proof.
  rewrite slice_to_drop_last.
  change (body ++ "+00:00") with (body ++ String "+" "00:00").
  rewrite slice_to_rfind by reflexivity.
  apply String.eqb_refl.
Qed.

End Comparison.


(** C4 as stated fails: two dates of the same instant are judged
    different when the stored one is spelled with [+00:00], and when the
    new one carries microseconds within the same second. *)
Lemma same_instant_judged_different :
  (from_google_date_to_datetime "2024-05-01T10:00:00+00:00"
   = Return (mkdatetime 2024 5 1 10 0 0 0 0)
   /\ different_start_times
        (mkevent "e1" "A vs B" "2024-05-01T10:00:00+00:00" "2024-05-01T11:30:00+00:00" "2")
        (isoformat (mkdatetime 2024 5 1 10 0 0 0 0)) = true
   /\ different_end_times
        (mkevent "e1" "A vs B" "2024-05-01T10:00:00+00:00" "2024-05-01T11:30:00+00:00" "2")
        (isoformat (mkdatetime 2024 5 1 11 30 0 0 0)) = true)
  /\ (from_google_date_to_datetime "2024-05-01T10:00:00Z"
      = Return (mkdatetime 2024 5 1 10 0 0 0 0)
      /\ utc_seconds (mkdatetime 2024 5 1 10 0 0 0 0)
         = utc_seconds (mkdatetime 2024 5 1 10 0 0 250000 0)
      /\ different_start_times
           (mkevent "e1" "A vs B" "2024-05-01T10:00:00Z" "2024-05-01T11:30:00Z" "2")
           (isoformat (mkdatetime 2024 5 1 10 0 0 250000 0)) = true).
Proof. vm_compute. repeat split. Qed.

(** ** The end never moves back, and never before the start *)

Section EndTimePolicy.

Lemma computeEndTime_ge_existing (dd ee s e now : Z) (live : bool) :
  0 <= ee -> e <= computeEndTime dd ee s live (Some e) now.
Proof.
  intros H. unfold computeEndTime.
  destruct (Z.ltb_spec e (s + dd));
    match goal with |- context [?b && (?x <? now)] =>
      destruct b; cbn [andb]; [destruct (Z.ltb_spec x now) |]; lia end.
Qed.

Lemma computeEndTime_ge_start (dd ee s now : Z) (live : bool) (existing : option Z) :
  0 <= dd -> 0 <= ee -> s <= computeEndTime dd ee s live existing now.
Proof.
  intros Hd He. unfold computeEndTime. destruct existing as [e|].
  - destruct (Z.ltb_spec e (s + dd));
      match goal with |- context [?b && (?x <? now)] =>
        destruct b; cbn [andb]; [destruct (Z.ltb_spec x now) |]; lia end.
  - destruct live; cbn [andb]; [destruct (Z.ltb_spec (s + dd) now) |]; lia.
Qed.

Lemma minutes_nonneg (m : Z) : 0 <= m -> 0 <= minutes m.
Proof. unfold minutes. change US_PER_MINUTE with 60000000. lia. Qed.

Lemma update_event_end_ge (D E : Z) (m : Match) (e now r : datetime) (l : list effect) :
  0 <= E -> update_event_end D E m e now = (l, Return r) -> utc_micros e <= utc_micros r.
Proof.
  intros HE H. rewrite (update_event_end_instant D E m e now r l H).
  apply computeEndTime_ge_existing. now apply minutes_nonneg.
Qed.

End EndTimePolicy.

(** C6. With a non-negative extension, the end [update_event] computes
    is never before the end it starts from. So the end computed at a
    later time from the earlier result, for the match still going and
    its start unchanged, is not before that result; and a start moved
    earlier does not take the end back. *)
Theorem update_event_end_monotone
  (D E : Z) (m : Match) (e now r : datetime) (l : list effect) :
  0 <= E ->
  update_event_end D E m e now = (l, Return r) ->
  utc_micros e <= utc_micros r
  /\ (forall now2 r2 l2,
        utc_micros now < utc_micros now2 -> is_still_going m = true ->
        update_event_end D E m r now2 = (l2, Return r2) ->
        utc_micros r <= utc_micros r2)
  /\ (forall m' now2 r2 l2,
        utc_micros (time_start m') < utc_micros (time_start m) ->
        update_event_end D E m' r now2 = (l2, Return r2) ->
        utc_micros r <= utc_micros r2).
Proof.
  intros HE H. split; [| split].
  - now apply (update_event_end_ge D E m e now r l).
  - intros now2 r2 l2 _ _ H2. now apply (update_event_end_ge D E m r now2 r2 l2).
  - intros m' now2 r2 l2 _ H2. now apply (update_event_end_ge D E m' r now2 r2 l2).
Qed.

Lemma update_event_end_monotone_witness :
  (utc_micros (mkdatetime 2024 5 1 15 0 0 0 0) <=? utc_micros (mkdatetime 2024 5 1 16 0 0 0 0))
  = true.
Proof.
  apply Z.leb_le.
  exact (proj1 (update_event_end_monotone 90 20
           (mkMatch "A vs B" (mkdatetime 2024 5 1 14 0 0 0 0) "2" true false (fun c => c))
           (mkdatetime 2024 5 1 15 0 0 0 0) (mkdatetime 2024 5 1 15 40 0 0 0)
           (mkdatetime 2024 5 1 16 0 0 0 0) [adjusting; extending]
           ltac:(lia) eq_refl)).
Defined.

Section Sent.

Variables D E : Z.
Variable service : Service.
Variable calendar_id : string.

Lemma not_in_prints (l : list effect) (x : effect) :
  calls l = [] -> is_call x = true -> ~ In x l.
Proof.
  intros Hl Hx Hin.
  assert (Hf : In x (calls l)) by (apply filter_In; now split).
  rewrite Hl in Hf. exact Hf.
Qed.

(** What [update_event] sends. *)
Lemma update_event_sent (m : Match) (ev : event) (now : datetime) (l : list effect)
      (o : outcome event) (c i : string) (body : event) :
  update_event D E service calendar_id m ev now = (l, o) -> In (Update c i body) l ->
  exists e0 e,
    from_google_date_to_datetime (end_dateTime ev) = Return e0
    /\ body = updated m ev e
    /\ utc_micros e
       = computeEndTime (minutes D) (minutes E) (utc_micros (time_start m))
           (is_still_going m) (Some (utc_micros e0)) (utc_micros now).
Proof.
  destruct (from_google_date_to_datetime (end_dateTime ev)) as [e0|x] eqn:He0.
  2:{ unfold update_event. rewrite He0, bind_lift_Raise. intros [= <- _] []. }
  destruct (update_event_end D E m e0 now) as [l1 [r|x]] eqn:Hend.
  2:{ unfold update_event. rewrite He0, bind_lift_Return, Hend.
      cbn [bind]. intros [= <- _] Hin. exfalso. revert Hin. apply not_in_prints; [| reflexivity].
      rewrite update_event_end_run in Hend.
      destruct (timedelta_minutes D); [| now injection Hend as <- _].
      destruct (add (time_start m) _); [| now injection Hend as <- _].
      cbv zeta in Hend. destruct (is_still_going m && _); injection Hend as <- _;
        now destruct (lt e0 _). }
  destruct (update_event_run D E service calendar_id m ev now e0 r l1 He0 Hend)
    as (tail & res & -> & Htail & _).
  destruct (update_event_end_cases D E m e0 now r l1 Hend) as (_ & _ & _ & _ & Hl1 & _).
  pose proof (update_event_end_instant D E m e0 now r l1 Hend) as Hr.
  destruct (changed m ev r).
  - intros [= <- _] Hin. apply in_app_or in Hin as [Hin|[Hin|Hin]].
    + exfalso. revert Hin. now apply not_in_prints.
    + injection Hin as _ _ <-. now exists e0, r.
    + exfalso. revert Hin. now apply not_in_prints.
  - intros [= <- _] Hin. apply in_app_or in Hin as [Hin|[Hin|[]]].
    + exfalso. revert Hin. now apply not_in_prints.
    + discriminate.
Qed.

(** What [update_finished_event] sends. *)
Lemma update_finished_event_sent (m : Match) (ev : event) (now : datetime)
      (l : list effect) (o : outcome event) (c i : string) (body : event) :
  update_finished_event service calendar_id m ev now = (l, o) -> In (Update c i body) l ->
  exists s e,
    from_google_date_to_datetime (start_dateTime ev) = Return s
    /\ from_google_date_to_datetime (end_dateTime ev) = Return e
    /\ start_dateTime body = start_dateTime ev
    /\ colorId body = color m
    /\ (end_dateTime body = isoformat now /\ utc_micros s < utc_micros now
        \/ end_dateTime body = end_dateTime ev).
Proof.
  destruct (from_google_date_to_datetime (start_dateTime ev)) as [s|x] eqn:Hs.
  2:{ unfold update_finished_event. rewrite Hs, bind_lift_Raise. intros [= <- _] []. }
  destruct (from_google_date_to_datetime (end_dateTime ev)) as [e|x] eqn:He.
  2:{ unfold update_finished_event. rewrite Hs, bind_lift_Return, He, bind_lift_Raise.
      intros [= <- _] []. }
  destruct (update_finished_event_run service calendar_id m ev now s e Hs He) as [text ->].
  exists s, e. split; [reflexivity |]. split; [reflexivity |]. revert H H0.
  destruct (Z.ltb_spec (utc_micros now) (utc_micros e));
    destruct (Z.ltb_spec (utc_micros s) (utc_micros now)); cbn [andb];
    try destruct (negb _); cbv zeta;
    intros [= <- _] Hin; cbn [In] in Hin;
    repeat match type of Hin with
           | _ \/ _ => destruct Hin as [Hin|Hin]
           | False => contradiction
           | Print _ = _ => discriminate
           | Update _ _ _ = _ => injection Hin as _ _ <-
           end;
    cbn [start_dateTime end_dateTime colorId]; repeat split; auto.
Qed.

End Sent.


(** ** Dates with microseconds *)

Section Microseconds.

(** An event whose end cannot be read stops both update paths before
    anything is sent or printed. *)
Lemma unreadable_end_raises (ev : event) :
  from_google_date_to_datetime (end_dateTime ev) = Raise ValueError ->
  forall D E service cal m now,
    update_event D E service cal m ev now = ([], Raise ValueError)
    /\ update_finished_event service cal m ev now = ([], Raise ValueError).
Proof.
  intros He D E service cal m now. split.
  - unfold update_event. now rewrite He, bind_lift_Raise.
  - unfold update_finished_event.
    destruct (from_google_date_to_datetime (start_dateTime ev)) as [s|x] eqn:Hs.
    + now rewrite bind_lift_Return, He, bind_lift_Raise.
    + apply from_google_raises in Hs as ->. now rewrite bind_lift_Raise.
Qed.

(** The remark on extending is printed only when the end is now plus the
    extension. *)
Lemma update_event_end_extended (D E : Z) (m : Match) (e now r : datetime)
      (l : list effect) :
  update_event_end D E m e now = (l, Return r) -> In extending l ->
  exists td', timedelta_minutes E = Return td' /\ add now td' = Return r.
Proof.
  rewrite update_event_end_run.
  destruct (timedelta_minutes D) as [td|x]; [| discriminate].
  destruct (add (time_start m) td) as [baseline|x]; [| discriminate].
  cbv zeta. destruct (is_still_going m && lt _ now).
  - intros H _. injection H as _ Hr.
    destruct (timedelta_minutes E) as [td'|x]; [| discriminate].
    exists td'. split; [reflexivity | exact Hr].
  - intros H Hin. injection H as <- _. exfalso.
    destruct (lt e baseline); cbn [In] in Hin; [destruct Hin as [Hin|[]] | exact Hin].
    vm_compute in Hin. discriminate.
Qed.

End Microseconds.


(** ** The batch *)

Section Batch.

Variables D E : Z.
Variable service : Service.
Variable calendar_id : string.

Lemma bind_ext {A B} (x : M A) (f g : A -> M B) :
  (forall a, f a = g a) -> bind x f = bind x g.
Proof. intros H. destruct x as [l [a|e]]; cbn [bind]; [now rewrite H | reflexivity]. Qed.

Lemma bind_Return_inv {A B} (x : M A) (f : A -> M B) (l : list effect) (b : B) :
  bind x f = (l, Return b) ->
  exists l1 a l2, x = (l1, Return a) /\ f a = (l2, Return b) /\ l = (l1 ++ l2)%list.
Proof.
  destruct x as [l1 [a|e]]; cbn [bind]; [| discriminate].
  destruct (f a) as [l2 r] eqn:Hf. intros [= <- ->]. now exists l1, a, l2.
Qed.

(** The matches are handled one after the other. *)
Lemma for_match_in_app (clock : nat -> datetime) (a b : list Match) :
  forall (i : nat) (events : list event),
    for_match_in D E service calendar_id clock i events (a ++ b)
    = bind (for_match_in D E service calendar_id clock i events a)
        (fun events' =>
           for_match_in D E service calendar_id clock (i + List.length a) events' b).
Proof.
  induction a as [|m a IH]; intros i events.
  - cbn [app for_match_in List.length]. rewrite bind_ret. now rewrite Nat.add_0_r.
  - cbn [app for_match_in List.length].
    destruct (1 <? List.length _)%nat; [reflexivity |].
    rewrite !bind_assoc. apply bind_ext. intros _.
    apply bind_ext. intros events'. rewrite IH. now rewrite Nat.add_succ_r.
Qed.

(** The updates keep the title of the event. *)
Lemma update_event_summary (m : Match) (ev ev' : event) (now : datetime) (l : list effect) :
  update_event D E service calendar_id m ev now = (l, Return ev') -> summary ev' = summary ev.
Proof.
  destruct (from_google_date_to_datetime (end_dateTime ev)) as [e0|x] eqn:He0.
  2:{ unfold update_event. rewrite He0, bind_lift_Raise. discriminate. }
  destruct (update_event_end D E m e0 now) as [l1 [r|x]] eqn:Hend.
  2:{ unfold update_event. rewrite He0, bind_lift_Return, Hend. cbn [bind]. discriminate. }
  destruct (update_event_run D E service calendar_id m ev now e0 r l1 He0 Hend)
    as (tail & res & -> & _ & Hres).
  destruct (changed m ev r).
  - intros [= _ ->]. destruct Hres as [[= ->]|]; [reflexivity | discriminate].
  - now intros [= _ <-].
Qed.

Lemma update_finished_event_summary (m : Match) (ev ev' : event) (now : datetime)
      (l : list effect) :
  update_finished_event service calendar_id m ev now = (l, Return ev') ->
  summary ev' = summary ev.
Proof.
  destruct (from_google_date_to_datetime (start_dateTime ev)) as [s|x] eqn:Hs.
  2:{ unfold update_finished_event. rewrite Hs, bind_lift_Raise. discriminate. }
  destruct (from_google_date_to_datetime (end_dateTime ev)) as [e|x] eqn:He.
  2:{ unfold update_finished_event. rewrite Hs, bind_lift_Return, He, bind_lift_Raise.
      discriminate. }
  destruct (update_finished_event_run service calendar_id m ev now s e Hs He) as [text ->].
  destruct (_ && _); [| destruct (negb _)]; cbv zeta; now intros [= _ <-].
Qed.

Lemma put_back_summaries (n : string) (e' : event) (events : list event) :
  summary e' = n -> map summary (put_back n e' events) = map summary events.
Proof.
  intros H. induction events as [|e rest IH]; [reflexivity |].
  cbn [put_back]. destruct (String.eqb_spec (summary e) n) as [Heq|_]; cbn [map].
  - now rewrite H, Heq.
  - now rewrite IH.
Qed.

(** Handling matches changes no title and adds no event to the list. *)
Lemma for_match_in_summaries (clock : nat -> datetime) (matches : list Match) :
  forall (i : nat) (events events' : list event) (l : list effect),
    for_match_in D E service calendar_id clock i events matches = (l, Return events') ->
    map summary events' = map summary events.
Proof.
  induction matches as [|m rest IH]; intros i events events' l.
  - cbn [for_match_in]. now intros [= _ <-].
  - cbn [for_match_in].
    destruct (1 <? List.length _)%nat; [discriminate |].
    intros H. apply bind_Return_inv in H as (l1 & [] & l2 & _ & H & _).
    apply bind_Return_inv in H as (l3 & events1 & l4 & Hstep & Hrest & _).
    apply IH in Hrest. rewrite Hrest. clear Hrest IH.
    destruct (filter _ events) as [|me others] eqn:Hf.
    + apply bind_Return_inv in Hstep as (? & ? & ? & _ & Hret & _).
      now injection Hret as _ <-.
    + apply bind_Return_inv in Hstep as (l5 & e & l6 & Hupd & Hret & _).
      injection Hret as _ <-.
      assert (Hme : summary me = name m).
      { assert (Hin : In me (filter (fun e => String.eqb (summary e) (name m)) events))
          by (rewrite Hf; now left).
        apply filter_In in Hin as [_ Hin]. now apply String.eqb_eq in Hin. }
      apply put_back_summaries. rewrite <- Hme.
      destruct (is_finished m).
      * now apply update_finished_event_summary in Hupd.
      * now apply update_event_summary in Hupd.
Qed.

Lemma filter_summaries (n : string) (a b : list event) :
  map summary a = map summary b ->
  List.length (filter (fun e => String.eqb (summary e) n) a)
  = List.length (filter (fun e => String.eqb (summary e) n) b).
Proof.
  revert b. induction a as [|x a IH]; intros [|y b]; try discriminate; [reflexivity |].
  cbn [map filter]. intros [= Hxy Hab]. rewrite Hxy.
  destruct (String.eqb (summary y) n); cbn [List.length]; now rewrite (IH b Hab).
Qed.

End Batch.

(** C7, as the code has it. When more than one event of the list has the
    name of a match as its title, [update_calendar_events] raises
    [ValueError] when it comes to that match, before anything is printed
    or sent for it, and the batch ends there: the matches before it have
    been handled, the ones after it are not. *)
Theorem conflict_ends_batch
  (D E : Z) (service : Service) (cal : string) (clock : nat -> datetime)
  (before rest : list Match) (m : Match) (l : list effect) (events' : list event) :
  (1 < List.length (filter (fun e => String.eqb (summary e) (name m))
                      (events_list service cal)))%nat ->
  for_match_in D E service cal clock 0 (events_list service cal) before
  = (l, Return events') ->
  update_calendar_events D E service cal clock (before ++ m :: rest)
  = (Print ("Retrieved events for calendar." ++ PyStr.nl) :: l, Raise ValueError).
Proof.
  intros Hconflict Hbefore. unfold update_calendar_events, print, print_end.
  rewrite bind_emit, for_match_in_app, Hbefore.
  pose proof (for_match_in_summaries D E service cal clock before 0 _ _ _ Hbefore) as Hsum.
  cbn [bind for_match_in].
  rewrite (filter_summaries (name m) _ _ Hsum).
  apply Nat.ltb_lt in Hconflict. rewrite Hconflict.
  cbn [raise fst snd]. now rewrite app_nil_r.
Qed.

Lemma conflict_ends_batch_witness :
  update_calendar_events 90 20
    (mkService (fun _ => [mkevent "e1" "A vs B" "2024-05-01T14:00:00Z" "2024-05-01T15:30:00Z" "2";
                          mkevent "e2" "A vs B" "2024-05-01T14:00:00Z" "2024-05-01T15:30:00Z" "2"])
               (fun _ _ body => body))
    "cal" (fun _ => mkdatetime 2024 5 1 13 0 0 0 0)
    ([] ++ mkMatch "A vs B" (mkdatetime 2024 5 1 14 0 0 0 0) "2" false false (fun c => c)
        :: [mkMatch "C vs D" (mkdatetime 2024 5 1 16 0 0 0 0) "2" false false (fun c => c)])
  = ([Print ("Retrieved events for calendar." ++ PyStr.nl)], Raise ValueError).
Proof.
  apply (conflict_ends_batch 90 20
           (mkService
              (fun _ => [mkevent "e1" "A vs B" "2024-05-01T14:00:00Z" "2024-05-01T15:30:00Z" "2";
                         mkevent "e2" "A vs B" "2024-05-01T14:00:00Z" "2024-05-01T15:30:00Z" "2"])
              (fun _ _ body => body))
           "cal" (fun _ => mkdatetime 2024 5 1 13 0 0 0 0) []
           [mkMatch "C vs D" (mkdatetime 2024 5 1 16 0 0 0 0) "2" false false (fun c => c)]
           (mkMatch "A vs B" (mkdatetime 2024 5 1 14 0 0 0 0) "2" false false (fun c => c))
           []
           [mkevent "e1" "A vs B" "2024-05-01T14:00:00Z" "2024-05-01T15:30:00Z" "2";
            mkevent "e2" "A vs B" "2024-05-01T14:00:00Z" "2024-05-01T15:30:00Z" "2"]);
    [vm_compute; lia | reflexivity].
Defined.

(** C7 as stated fails: with two events of the title of the first
    match, the second match is not handled. *)
Lemma conflict_stops_other_matches :
  let run :=
    update_calendar_events 90 20
      (mkService
         (fun _ => [mkevent "e1" "A vs B" "2024-05-01T14:00:00Z" "2024-05-01T15:30:00Z" "2";
                    mkevent "e2" "A vs B" "2024-05-01T14:00:00Z" "2024-05-01T15:30:00Z" "2"])
         (fun _ _ body => body))
      "cal" (fun _ => mkdatetime 2024 5 1 13 0 0 0 0)
      [mkMatch "A vs B" (mkdatetime 2024 5 1 14 0 0 0 0) "2" false false (fun c => c);
       mkMatch "C vs D" (mkdatetime 2024 5 1 16 0 0 0 0) "2" false false (fun c => c)] in
  snd run = Raise ValueError
  /\ calls (fst run) = []
  /\ ~ In (Print ("Match:  C vs D" ++ PyStr.nl)) (fst run).
Proof.
  vm_compute. repeat split. intros [H|[]]. discriminate.
Qed.

(** ** Reconciling twice *)

Section Twice.

Variables D E : Z.
Variable service : Service.
Variable calendar_id : string.

Lemma whole_second_id (d : datetime) : microsecond d = 0 -> whole_second d = d.
Proof. destruct d. cbn [microsecond]. intros ->. reflexivity. Qed.

Lemma bounded_offset (d : datetime) :
  valid d = true -> (- US_PER_DAY <? utcoffset d) && (utcoffset d <? US_PER_DAY) = true.
Proof.
  intros H. destruct (valid_fields d H) as (_ & _ & _ & _ & _ & _ & _ & Ho).
  apply andb_true_iff. split; apply Z.ltb_lt; lia.
Qed.

(** A date to the second in UTC, as the calendar spells it, and the same
    date as [isoformat] prints it are not different. *)
Lemma zulu_isoformat_same (d : datetime) :
  utcoffset d = 0 -> microsecond d = 0 ->
  String.eqb (PyStr.slice_to (zulu d) (-1))
             (PyStr.slice_to (isoformat d) (PyStr.rfind (isoformat d) "+")) = true.
Proof.
  intros Ho Hus. rewrite (isoformat_utc d Ho). unfold zulu.
  rewrite (whole_second_id d Hus). apply same_text_not_different.
Qed.

(** An end that needs no change: not before the baseline and, for a
    match still going, not before now. *)
Lemma update_event_end_settled (m : Match) (e now baseline : datetime) (td : Z) :
  timedelta_minutes D = Return td -> add (time_start m) td = Return baseline ->
  utc_micros baseline <= utc_micros e ->
  is_still_going m && lt e now = false ->
  update_event_end D E m e now = ([], Return e).
Proof.
  intros Htd Hb Hle Hlive. rewrite update_event_end_run, Htd, Hb. cbv zeta.
  assert (Hlt : lt e baseline = false) by (rewrite lt_utc; apply Z.ltb_ge; lia).
  rewrite Hlt, Hlive. reflexivity.
Qed.

Lemma second_update_event (m : Match) (ev : event) (now e r : datetime) (l : list effect) :
  1 <= E ->
  valid (time_start m) = true -> utcoffset (time_start m) = 0 ->
  microsecond (time_start m) = 0 ->
  valid now = true -> utcoffset now = 0 ->
  from_google_date_to_datetime (end_dateTime ev) = Return e -> utcoffset e = 0 ->
  update_event_end D E m e now = (l, Return r) ->
  let stored := mkevent (id ev) (summary ev) (zulu (time_start m)) (zulu r) (color m) in
  update_event D E service calendar_id m stored now
  = ([Print (PyStr.tab ++ "No change." ++ PyStr.nl)], Return stored).
Proof.
  intros HE Hvs Hos Hus Hvn Hon He Hoe Hend stored.
  destruct (from_google_whole _ _ He) as [Hue Hve].
  destruct (update_event_end_cases D E m e now r l Hend)
    as (td & baseline & Htd & Hb & _ & Hc).
  pose proof (add_valid _ _ _ Hvs Hb) as Hvb.
  pose proof (add_minutes_microsecond _ _ _ _ Hvs Htd Hb) as Hub. rewrite Hus in Hub.
  destruct (add_spec _ _ _ Hb) as (_ & Hob & _). rewrite Hos in Hob.
  pose proof (add_utc _ _ _ Hb) as Ub.
  (* the first result: valid, in UTC, and settled once cut to the second *)
  assert (Hr : valid r = true /\ utcoffset r = 0
               /\ utc_micros baseline <= utc_micros (whole_second r)
               /\ is_still_going m && lt (whole_second r) now = false).
  { cbv zeta in Hc. destruct Hc as [[Hlive (td' & Htd' & Hadd)]|[Hlive ->]].
    - pose proof (add_valid _ _ _ Hvn Hadd) as Hvr.
      destruct (add_spec _ _ _ Hadd) as (_ & Hor & _). rewrite Hon in Hor.
      pose proof (add_utc _ _ _ Hadd) as Ur.
      apply timedelta_minutes_spec in Htd'.
      destruct (valid_fields r Hvr) as (_ & _ & _ & _ & _ & _ & Hur & _).
      pose proof (utc_micros_whole_second r Hvr) as Uw.
      apply andb_true_iff in Hlive as [_ Hlt]. rewrite lt_utc in Hlt.
      apply Z.ltb_lt in Hlt.
      assert (utc_micros baseline <= utc_micros now).
      { destruct (lt e baseline) eqn:Hl; [lia |].
        rewrite lt_utc in Hl. apply Z.ltb_ge in Hl. lia. }
      repeat split; try assumption; [lia |].
      rewrite lt_utc. replace (utc_micros (whole_second r) <? utc_micros now) with false
        by (symmetry; apply Z.ltb_ge; lia).
      apply andb_false_r.
    - assert (Hu1 : microsecond (if lt e baseline then baseline else e) = 0)
        by now destruct (lt e baseline).
      rewrite (whole_second_id _ Hu1).
      repeat split; try assumption.
      + now destruct (lt e baseline).
      + now destruct (lt e baseline).
      + destruct (lt e baseline) eqn:Hlt; [lia |].
        rewrite lt_utc in Hlt. apply Z.ltb_ge in Hlt. lia. }
  destruct Hr as (Hvr & Hor & Hsettled & Hlive).
  assert (Hread : from_google_date_to_datetime (end_dateTime stored) = Return (whole_second r))
    by (cbn [stored end_dateTime]; now apply from_google_zulu).
  pose proof (update_event_end_settled m (whole_second r) now baseline td Htd Hb Hsettled Hlive)
    as Hend2.
  destruct (update_event_run D E service calendar_id m stored now (whole_second r)
              (whole_second r) [] Hread Hend2) as (tail & res & -> & _ & _).
  assert (Hsame : changed m stored (whole_second r) = false).
  { unfold changed, different_start_times, different_end_times, different_colors.
    cbn [stored start_dateTime end_dateTime colorId].
    rewrite (zulu_isoformat_same (time_start m) Hos Hus).
    replace (zulu r) with (zulu (whole_second r)) by reflexivity.
    rewrite (zulu_isoformat_same (whole_second r)) by (assumption || reflexivity).
    now rewrite String.eqb_refl. }
  rewrite Hsame. reflexivity.
Qed.

Lemma second_update_finished_event (m : Match) (ev : event) (now s : datetime) :
  valid now = true -> utcoffset now = 0 ->
  from_google_date_to_datetime (start_dateTime ev) = Return s ->
  let stored := mkevent (id ev) (summary ev) (start_dateTime ev) (zulu now) (color m) in
  update_finished_event service calendar_id m stored now
  = ([Print (PyStr.tab ++ "Finished. No changes." ++ PyStr.nl)], Return stored).
Proof.
  intros Hvn Hon Hs stored.
  assert (Hread : from_google_date_to_datetime (end_dateTime stored)
                  = Return (whole_second now))
    by (cbn [stored end_dateTime]; now apply from_google_zulu).
  destruct (update_finished_event_run service calendar_id m stored now s (whole_second now)
              Hs Hread) as (text & Hrun).
  unfold update_finished_event in *.
  cbn [stored start_dateTime end_dateTime] in *.
  rewrite Hs, bind_lift_Return. rewrite Hread, bind_lift_Return.
  unfold gt at 1. rewrite lt_utc.
  pose proof (utc_micros_whole_second now Hvn) as Uw.
  destruct (valid_fields now Hvn) as (_ & _ & _ & _ & _ & _ & Hun & _).
  replace (utc_micros now <? utc_micros (whole_second now)) with false
    by (symmetry; apply Z.ltb_ge; lia).
  cbn [andb colorId]. rewrite String.eqb_refl. cbn [negb]. reflexivity.
Qed.

End Twice.


(** C5 as stated fails: fed back as [update_event] wrote it, the event
    of the first update is updated again at the same time for the same
    match. *)
Lemma second_reconciliation_updates_again :
  let m := mkMatch "A vs B" (mkdatetime 2024 5 1 14 0 0 0 0) "2" false false (fun c => c) in
  let now := mkdatetime 2024 5 1 13 0 0 0 0 in
  let first :=
    update_event 90 20 echo_service "cal" m
      (mkevent "e1" "A vs B" "2024-05-01T14:00:00Z" "2024-05-01T15:00:00Z" "2") now in
  let written :=
    mkevent "e1" "A vs B" "2024-05-01T14:00:00+00:00" "2024-05-01T15:30:00+00:00" "2" in
  calls (fst first) = [Update "cal" "e1" written]
  /\ snd first = Return written
  /\ calls (fst (update_event 90 20 echo_service "cal" m written now))
     = [Update "cal" "e1" written].
Proof. vm_compute. repeat split. Qed.

(** ** The report of a change *)

(** C9 on the code. [show_if_different] prints nothing for equal values
    and the old and the new value otherwise, with their difference when
    [time] is set and both are read as dates. [update_event] sets [time]
    for the start and the end; [update_finished_event] does not: its
    report of a new end has no line of difference. *)
Theorem finished_report_has_no_difference :
  (forall word v time, show_if_different word v v time = Return "")
  /\ (forall word old new,
        show_if_different word old new false
        = if String.eqb old new then Return ""
          else Return (PyStr.tab ++ PyStr.tab ++ "old " ++ word ++ ": " ++ old ++ PyStr.nl
                       ++ PyStr.tab ++ PyStr.tab ++ "new " ++ word ++ ": " ++ new
                       ++ PyStr.nl))
  /\ fst (update_finished_event echo_service "cal"
            (mkMatch "A vs B" (mkdatetime 2024 5 1 14 0 0 0 0) "3" false true (fun c => c))
            (mkevent "e1" "A vs B" "2024-05-01T14:00:00Z" "2024-05-01T15:30:00Z" "3")
            (mkdatetime 2024 5 1 15 10 0 0 0))
     = [Update "cal" "e1"
          (mkevent "e1" "A vs B" "2024-05-01T14:00:00Z" "2024-05-01T15:10:00+00:00" "3");
        Print (PyStr.tab ++ "Updated finished event:" ++ PyStr.nl ++ " "
               ++ PyStr.tab ++ PyStr.tab ++ "old end: 2024-05-01T15:30:00Z" ++ PyStr.nl
               ++ PyStr.tab ++ PyStr.tab ++ "new end: 2024-05-01T15:10:00+00:00" ++ PyStr.nl
               ++ " ")]
  /\ fst (update_event 90 20 echo_service "cal"
            (mkMatch "A vs B" (mkdatetime 2024 5 1 14 0 0 0 0) "3" true false (fun c => c))
            (mkevent "e1" "A vs B" "2024-05-01T14:00:00Z" "2024-05-01T15:30:00Z" "3")
            (mkdatetime 2024 5 1 15 40 0 0 0))
     = [extending;
        Update "cal" "e1"
          (mkevent "e1" "A vs B" "2024-05-01T14:00:00+00:00" "2024-05-01T16:00:00+00:00" "3");
        Print (PyStr.tab ++ "Updated event:" ++ PyStr.nl ++ " "
               ++ PyStr.tab ++ PyStr.tab ++ "old start: 2024-05-01T14:00:00Z" ++ PyStr.nl
               ++ PyStr.tab ++ PyStr.tab ++ "new start: 2024-05-01T14:00:00+00:00" ++ PyStr.nl
               ++ PyStr.tab ++ PyStr.tab ++ "diff: 0:00:00" ++ PyStr.nl
               ++ " "
               ++ PyStr.tab ++ PyStr.tab ++ "old end: 2024-05-01T15:30:00Z" ++ PyStr.nl
               ++ PyStr.tab ++ PyStr.tab ++ "new end: 2024-05-01T16:00:00+00:00" ++ PyStr.nl
               ++ PyStr.tab ++ PyStr.tab ++ "diff: 0:30:00" ++ PyStr.nl
               ++ " ")].
Proof.
  split; [| split; [| split]].
  - intros word v time. unfold show_if_different. now rewrite String.eqb_refl.
  - intros word old new. unfold show_if_different.
    now destruct (String.eqb old new).
  - vm_compute. reflexivity.
  - vm_compute. reflexivity.
Qed.

(** * Further properties of [main.py] *)

(** ** The end of a match that is still going *)

Section StillGoing.

Lemma computeEndTime_live_ge_now (dd ee s now : Z) (existing : option Z) :
  0 <= ee -> now <= computeEndTime dd ee s true existing now.
Proof.
  intros He. unfold computeEndTime. destruct existing as [e|]; cbn [andb].
  - destruct (Z.ltb_spec e (s + dd));
      match goal with |- context [?x <? now] => destruct (Z.ltb_spec x now) end; lia.
  - destruct (Z.ltb_spec (s + dd) now); lia.
Qed.

End StillGoing.


(** ** What an update may change *)

Section Frame.

Variables D E : Z.
Variable service : Service.
Variable calendar_id : string.

(** The update of a finished match, with the end it replaces. *)
Lemma update_finished_event_sent_end (m : Match) (ev : event) (now : datetime)
      (l : list effect) (o : outcome event) (c i : string) (body : event) :
  update_finished_event service calendar_id m ev now = (l, o) -> In (Update c i body) l ->
  exists s e,
    from_google_date_to_datetime (start_dateTime ev) = Return s
    /\ from_google_date_to_datetime (end_dateTime ev) = Return e
    /\ c = calendar_id /\ i = id ev
    /\ id body = id ev /\ summary body = summary ev
    /\ start_dateTime body = start_dateTime ev
    /\ colorId body = color m
    /\ (end_dateTime body = isoformat now
        /\ utc_micros s < utc_micros now < utc_micros e
        \/ end_dateTime body = end_dateTime ev /\ colorId ev <> color m).
Proof.
  destruct (from_google_date_to_datetime (start_dateTime ev)) as [s|x] eqn:Hs.
  2:{ unfold update_finished_event. rewrite Hs, bind_lift_Raise. intros [= <- _] []. }
  destruct (from_google_date_to_datetime (end_dateTime ev)) as [e|x] eqn:He.
  2:{ unfold update_finished_event. rewrite Hs, bind_lift_Return, He, bind_lift_Raise.
      intros [= <- _] []. }
  destruct (update_finished_event_run service calendar_id m ev now s e Hs He) as [text ->].
  exists s, e. split; [reflexivity |]. split; [reflexivity |]. revert H H0.
  destruct (Z.ltb_spec (utc_micros now) (utc_micros e));
    destruct (Z.ltb_spec (utc_micros s) (utc_micros now)); cbn [andb];
    try destruct (String.eqb_spec (colorId ev) (color m)); cbn [negb]; cbv zeta;
    intros [= <- _] Hin; cbn [In] in Hin;
    repeat match type of Hin with
           | _ \/ _ => destruct Hin as [Hin|Hin]
           | False => contradiction
           | Print _ = _ => discriminate
           | Update _ _ _ = _ => injection Hin as <- <- <-
           end;
    cbn [id summary start_dateTime end_dateTime colorId]; repeat split; auto.
  all: left; repeat split; assumption.
Qed.

(** The update of a match that is not finished is addressed to the
    existing event. *)
Lemma update_event_sent_to (m : Match) (ev : event) (now : datetime) (l : list effect)
      (o : outcome event) (c i : string) (body : event) :
  update_event D E service calendar_id m ev now = (l, o) -> In (Update c i body) l ->
  c = calendar_id /\ i = id ev /\ id body = id ev /\ summary body = summary ev.
Proof.
  destruct (from_google_date_to_datetime (end_dateTime ev)) as [e0|x] eqn:He0.
  2:{ unfold update_event. rewrite He0, bind_lift_Raise. intros [= <- _] []. }
  destruct (update_event_end D E m e0 now) as [l1 [r|x]] eqn:Hend.
  2:{ intros Hrun Hin.
      destruct (update_event_sent D E service calendar_id m ev now l o c i body Hrun Hin)
        as (e1 & e & _ & -> & _).
      exfalso. revert Hin. unfold update_event in Hrun.
      rewrite He0, bind_lift_Return, Hend in Hrun. cbn [bind] in Hrun.
      injection Hrun as <- _. apply not_in_prints; [| reflexivity].
      rewrite update_event_end_run in Hend.
      destruct (timedelta_minutes D); [| now injection Hend as <- _].
      destruct (add (time_start m) _); [| now injection Hend as <- _].
      cbv zeta in Hend. destruct (is_still_going m && _); injection Hend as <- _;
        now destruct (lt e0 _). }
  destruct (update_event_run D E service calendar_id m ev now e0 r l1 He0 Hend)
    as (tail & res & -> & Htail & _).
  destruct (update_event_end_cases D E m e0 now r l1 Hend) as (_ & _ & _ & _ & Hl1 & _).
  destruct (changed m ev r).
  - intros [= <- _] Hin. apply in_app_or in Hin as [Hin|[Hin|Hin]].
    + exfalso. revert Hin. now apply not_in_prints.
    + injection Hin as <- <- <-. repeat split.
    + exfalso. revert Hin. now apply not_in_prints.
  - intros [= <- _] Hin. apply in_app_or in Hin as [Hin|[Hin|[]]].
    + exfalso. revert Hin. now apply not_in_prints.
    + discriminate.
Qed.

End Frame.

(** X2. Once a match is finished its event never ends later and never
    starts at another time: the update [update_finished_event] sends
    keeps the start of the event as it is written, and its end is either
    now, strictly between the start and the end the event had, or the
    end the event had, unchanged. *)
Theorem finished_end_never_later
  (service : Service) (cal : string) (m : Match) (ev : event) (now : datetime)
  (l : list effect) (o : outcome event) (c i : string) (body : event) :
  update_finished_event service cal m ev now = (l, o) -> In (Update c i body) l ->
  start_dateTime body = start_dateTime ev
  /\ exists s e,
       from_google_date_to_datetime (start_dateTime ev) = Return s
       /\ from_google_date_to_datetime (end_dateTime ev) = Return e
       /\ (end_dateTime body = isoformat now
           /\ utc_micros s < utc_micros now < utc_micros e
           \/ end_dateTime body = end_dateTime ev).
Proof.
  intros Hrun Hin.
  destruct (update_finished_event_sent_end service cal m ev now l o c i body Hrun Hin)
    as (s & e & Hs & He & _ & _ & _ & _ & Hst & _ & Hend).
  split; [assumption |]. exists s, e. split; [assumption |]. split; [assumption |].
  destruct Hend as [H|[H _]]; [now left | now right].
Qed.

Lemma finished_end_never_later_witness :
  "2024-05-01T14:00:00Z" = "2024-05-01T14:00:00Z"
  /\ exists s e,
       from_google_date_to_datetime "2024-05-01T14:00:00Z" = Return s
       /\ from_google_date_to_datetime "2024-05-01T15:30:00Z" = Return e
       /\ ("2024-05-01T15:10:00+00:00" = isoformat (mkdatetime 2024 5 1 15 10 0 0 0)
           /\ utc_micros s < utc_micros (mkdatetime 2024 5 1 15 10 0 0 0) < utc_micros e
           \/ "2024-05-01T15:10:00+00:00" = "2024-05-01T15:30:00Z").
Proof.
  exact (finished_end_never_later echo_service "cal"
           (mkMatch "A vs B" (mkdatetime 2024 5 1 14 0 0 0 0) "3" false true (fun c => c))
           (mkevent "e1" "A vs B" "2024-05-01T14:00:00Z" "2024-05-01T15:30:00Z" "2")
           (mkdatetime 2024 5 1 15 10 0 0 0) _ _ "cal" "e1"
           (mkevent "e1" "A vs B" "2024-05-01T14:00:00Z" "2024-05-01T15:10:00+00:00" "3")
           eq_refl (or_introl eq_refl)).
Defined.

(** X3. An update is addressed to the existing event and keeps its id
    and its title: whatever [update_event] or [update_finished_event]
    sends goes to the calendar it was given, under the id of the
    existing event, with a body of that id and that title. *)
Theorem update_keeps_identity
  (D E : Z) (service : Service) (cal : string) (m : Match) (ev : event) (now : datetime)
  (l : list effect) (o : outcome event) (c i : string) (body : event) :
  (update_event D E service cal m ev now = (l, o)
   \/ update_finished_event service cal m ev now = (l, o)) ->
  In (Update c i body) l ->
  c = cal /\ i = id ev /\ id body = id ev /\ summary body = summary ev.
Proof.
  intros [Hrun|Hrun] Hin.
  - now apply (update_event_sent_to D E service cal m ev now l o c i body).
  - destruct (update_finished_event_sent_end service cal m ev now l o c i body Hrun Hin)
      as (_ & _ & _ & _ & Hc & Hi & Hid & Hsum & _).
    now repeat split.
Qed.

Lemma update_keeps_identity_witness :
  "cal" = "cal" /\ "e1" = "e1" /\ "e1" = "e1" /\ "A vs B" = "A vs B".
Proof.
  exact (update_keeps_identity 90 20 echo_service "cal"
           (mkMatch "A vs B" (mkdatetime 2024 5 1 14 0 0 0 0) "3" false true (fun c => c))
           (mkevent "e1" "A vs B" "2024-05-01T14:00:00Z" "2024-05-01T15:30:00Z" "2")
           (mkdatetime 2024 5 1 15 10 0 0 0) _ _ "cal" "e1"
           (mkevent "e1" "A vs B" "2024-05-01T14:00:00Z" "2024-05-01T15:10:00+00:00" "3")
           (or_intror eq_refl) (or_introl eq_refl)).
Defined.

(** ** How many inserts and updates a match costs *)

Section Counting.

Variables D E : Z.
Variable service : Service.
Variable calendar_id : string.

Lemma fst_bind {A B} (x : M A) (f : A -> M B) :
  fst (bind x f)
  = (fst x ++ match snd x with Return a => fst (f a) | Raise _ => [] end)%list.
Proof.
  destruct x as [l [a|e]]; cbn [bind fst snd].
  - now destruct (f a).
  - now rewrite app_nil_r.
Qed.

Lemma fst_bind_ret {A B} (x : M A) (g : A -> B) :
  fst (bind x (fun a => ret (g a))) = fst x.
Proof. rewrite fst_bind. destruct (snd x); cbn [ret fst]; apply app_nil_r. Qed.

Lemma update_event_end_prints (m : Match) (e now : datetime) :
  calls (fst (update_event_end D E m e now)) = [].
Proof.
  rewrite update_event_end_run.
  destruct (timedelta_minutes D); [| reflexivity].
  destruct (add (time_start m) _); [| reflexivity].
  cbv zeta. destruct (is_still_going m && _); now destruct (lt e _).
Qed.

Lemma create_event_calls (m : Match) (now : datetime) :
  (List.length (calls (fst (create_event D E calendar_id m now))) <= 1)%nat.
Proof.
  unfold create_event.
  destruct (timedelta_minutes D) as [td|x];
    [rewrite bind_lift_Return | rewrite bind_lift_Raise; cbn; lia].
  destruct (add (time_start m) td) as [baseline|x];
    [rewrite bind_lift_Return | rewrite bind_lift_Raise; cbn; lia].
  unfold print, print_end.
  destruct (is_still_going m && lt baseline now).
  - destruct (timedelta_minutes E) as [td'|x];
      [rewrite bind_lift_Return | rewrite bind_lift_Raise; cbn; lia].
    destruct (add now td') as [ext|x];
      [rewrite bind_lift_Return | rewrite bind_lift_Raise; cbn; lia].
    rewrite !bind_emit. cbn. lia.
  - rewrite bind_ret, !bind_emit. cbn. lia.
Qed.

Lemma update_event_calls (m : Match) (ev : event) (now : datetime) :
  (List.length (calls (fst (update_event D E service calendar_id m ev now))) <= 1)%nat.
Proof.
  destruct (from_google_date_to_datetime (end_dateTime ev)) as [e0|x] eqn:He0.
  2:{ unfold update_event. rewrite He0, bind_lift_Raise. cbn. lia. }
  destruct (update_event_end D E m e0 now) as [l1 [r|x]] eqn:Hend.
  2:{ unfold update_event. rewrite He0, bind_lift_Return, Hend. cbn [bind fst].
      pose proof (update_event_end_prints m e0 now) as Hp. rewrite Hend in Hp.
      cbn [fst] in Hp. rewrite Hp. cbn. lia. }
  destruct (update_event_run D E service calendar_id m ev now e0 r l1 He0 Hend)
    as (tail & res & -> & Htail & _).
  pose proof (update_event_end_prints m e0 now) as Hp. rewrite Hend in Hp. cbn [fst] in Hp.
  destruct (changed m ev r); cbn [fst]; rewrite calls_app, Hp.
  - cbn [calls filter is_call app]. fold (calls tail). rewrite Htail. cbn. lia.
  - cbn. lia.
Qed.

Lemma update_finished_event_calls (m : Match) (ev : event) (now : datetime) :
  (List.length (calls (fst (update_finished_event service calendar_id m ev now))) <= 1)%nat.
Proof.
  destruct (from_google_date_to_datetime (start_dateTime ev)) as [s|x] eqn:Hs.
  2:{ unfold update_finished_event. rewrite Hs, bind_lift_Raise. cbn. lia. }
  destruct (from_google_date_to_datetime (end_dateTime ev)) as [e|x] eqn:He.
  2:{ unfold update_finished_event. rewrite Hs, bind_lift_Return, He, bind_lift_Raise.
      cbn. lia. }
  destruct (update_finished_event_run service calendar_id m ev now s e Hs He) as [text ->].
  destruct (_ && _); [| destruct (negb _)]; cbn; lia.
Qed.

Lemma for_match_in_calls (clock : nat -> datetime) (matches : list Match) :
  forall (i : nat) (events : list event),
    (List.length (calls (fst (for_match_in D E service calendar_id clock i events matches)))
     <= List.length matches)%nat.
Proof.
  induction matches as [|m rest IH]; intros i events.
  - cbn. lia.
  - cbn [for_match_in List.length].
    destruct (1 <? List.length _)%nat; [cbn; lia |].
    unfold print, print_end. rewrite bind_emit.
    match goal with
    | |- context [bind ?x (fun events0 => for_match_in _ _ _ _ _ (S i) events0 rest)] =>
        set (step := x)
    end.
    change (List.length (calls (fst (bind step (fun events0 =>
              for_match_in D E service calendar_id clock (S i) events0 rest))))
            <= S (List.length rest))%nat.
    rewrite fst_bind, calls_app, length_app.
    assert (Hstep : (List.length (calls (fst step)) <= 1)%nat).
    { subst step. destruct (filter _ events) as [|me others].
      - rewrite (fst_bind_ret (create_event D E calendar_id m (clock i)) (fun _ => events)).
        apply create_event_calls.
      - rewrite (fst_bind_ret _ (fun e => put_back (name m) e events)).
        destruct (is_finished m);
          [apply update_finished_event_calls | apply update_event_calls]. }
    destruct (snd step) as [events1|x].
    + specialize (IH (S i) events1). lia.
    + cbn [calls filter List.length]. lia.
Qed.

End Counting.

(** X4. A match costs at most one insert or update: [create_event],
    [update_event] and [update_finished_event] each send at most one,
    and a run of [update_calendar_events], after the request that lists
    the events of the calendar, sends at most as many inserts and updates
    as there are matches, however it ends. *)
Theorem at_most_one_call_per_match
  (D E : Z) (service : Service) (cal : string) (clock : nat -> datetime) :
  (forall m now, (List.length (calls (fst (create_event D E cal m now))) <= 1)%nat)
  /\ (forall m ev now,
        (List.length (calls (fst (update_event D E service cal m ev now))) <= 1)%nat)
  /\ (forall m ev now,
        (List.length (calls (fst (update_finished_event service cal m ev now))) <= 1)%nat)
  /\ (forall matches,
        (List.length (calls (fst (update_calendar_events D E service cal clock matches)))
         <= List.length matches)%nat).
Proof.
  repeat split.
  - intros. apply create_event_calls.
  - intros. apply update_event_calls.
  - intros. apply update_finished_event_calls.
  - intros matches. unfold update_calendar_events, print, print_end.
    rewrite bind_emit. cbn [fst calls filter is_call].
    apply for_match_in_calls.
Qed.

(** ** When a run raises *)

Section Raising.

Variables D E : Z.
Variable service : Service.
Variable calendar_id : string.

Lemma add_raises (d : datetime) (td : Z) (x : exn) :
  add d td = Raise x -> x = OverflowError.
Proof. unfold add. cbv zeta. destruct (_ && _); [destruct (ord2ymd _) as [[? ?] ?] |]; congruence. Qed.

Lemma timedelta_minutes_raises (m : Z) (x : exn) :
  timedelta_minutes m = Raise x -> x = OverflowError.
Proof. unfold timedelta_minutes. cbv zeta. destruct (_ && _); congruence. Qed.

(** [create_event] fails on a date out of range only, and before it
    inserts. *)
Lemma create_event_raises (m : Match) (now : datetime) (l : list effect) (x : exn) :
  create_event D E calendar_id m now = (l, Raise x) -> l = [] /\ x = OverflowError.
Proof.
  unfold create_event.
  destruct (timedelta_minutes D) as [td|y] eqn:Htd;
    [rewrite bind_lift_Return
    | rewrite bind_lift_Raise; intros [= <- <-]; split;
      [reflexivity | now apply timedelta_minutes_raises in Htd]].
  destruct (add (time_start m) td) as [baseline|y] eqn:Hb;
    [rewrite bind_lift_Return
    | rewrite bind_lift_Raise; intros [= <- <-]; split;
      [reflexivity | now apply add_raises in Hb]].
  unfold print, print_end.
  destruct (is_still_going m && lt baseline now).
  - destruct (timedelta_minutes E) as [td'|y] eqn:Htd';
      [rewrite bind_lift_Return
      | rewrite bind_lift_Raise; intros [= <- <-]; split;
        [reflexivity | now apply timedelta_minutes_raises in Htd']].
    destruct (add now td') as [ext|y] eqn:He;
      [rewrite bind_lift_Return
      | rewrite bind_lift_Raise; intros [= <- <-]; split;
        [reflexivity | now apply add_raises in He]].
    rewrite !bind_emit. cbn [fst snd]. discriminate.
  - rewrite bind_ret, !bind_emit. cbn [fst snd]. discriminate.
Qed.

(** [update_finished_event] fails on a date it cannot read only, and
    before it sends. *)
Lemma update_finished_event_raises (m : Match) (ev : event) (now : datetime)
      (l : list effect) (x : exn) :
  update_finished_event service calendar_id m ev now = (l, Raise x) ->
  l = [] /\ x = ValueError
  /\ (exists y, from_google_date_to_datetime (start_dateTime ev) = Raise y
      \/ from_google_date_to_datetime (end_dateTime ev) = Raise y).
Proof.
  destruct (from_google_date_to_datetime (start_dateTime ev)) as [s|y] eqn:Hs.
  2:{ unfold update_finished_event. rewrite Hs, bind_lift_Raise. intros [= <- <-].
      split; [reflexivity |]. split; [now apply from_google_raises in Hs |].
      exists y. now left. }
  destruct (from_google_date_to_datetime (end_dateTime ev)) as [e|y] eqn:He.
  2:{ unfold update_finished_event. rewrite Hs, bind_lift_Return, He, bind_lift_Raise.
      intros [= <- <-].
      split; [reflexivity |]. split; [now apply from_google_raises in He |].
      exists y. now right. }
  destruct (update_finished_event_run service calendar_id m ev now s e Hs He) as [text ->].
  destruct (_ && _); [| destruct (negb _)]; discriminate.
Qed.

(** [update_event] fails before it sends on a stored end it cannot read
    or on a date out of range; any later failure is a [ValueError] of the
    report, with the update sent. *)
Lemma update_event_raises (m : Match) (ev : event) (now : datetime)
      (l : list effect) (x : exn) :
  update_event D E service calendar_id m ev now = (l, Raise x) ->
  (x = OverflowError /\ calls l = [])
  \/ (x = ValueError
      /\ (l = [] /\ from_google_date_to_datetime (end_dateTime ev) = Raise ValueError
          \/ exists body, calls l = [Update calendar_id (id ev) body])).
Proof.
  destruct (from_google_date_to_datetime (end_dateTime ev)) as [e0|y] eqn:He0.
  2:{ unfold update_event. rewrite He0, bind_lift_Raise. intros [= <- <-].
      apply from_google_raises in He0 as ->. right. split; [reflexivity |]. now left. }
  destruct (update_event_end D E m e0 now) as [l1 [r|y]] eqn:Hend.
  2:{ unfold update_event. rewrite He0, bind_lift_Return, Hend. cbn [bind].
      intros [= <- <-]. left.
      pose proof (update_event_end_prints D E m e0 now) as Hp. rewrite Hend in Hp.
      split; [| exact Hp].
      rewrite update_event_end_run in Hend.
      destruct (timedelta_minutes D) as [td|z] eqn:Htd;
        [| injection Hend as _ <-; now apply timedelta_minutes_raises in Htd].
      destruct (add (time_start m) td) as [baseline|z] eqn:Hb;
        [| injection Hend as _ <-; now apply add_raises in Hb].
      cbv zeta in Hend. destruct (is_still_going m && _); [| discriminate].
      injection Hend as _ Hr.
      destruct (timedelta_minutes E) as [td'|z] eqn:Htd';
        [now apply add_raises in Hr | injection Hr as <-;
                                      now apply timedelta_minutes_raises in Htd']. }
  destruct (update_event_run D E service calendar_id m ev now e0 r l1 He0 Hend)
    as (tail & res & -> & Htail & Hres).
  pose proof (update_event_end_prints D E m e0 now) as Hp. rewrite Hend in Hp. cbn [fst] in Hp.
  destruct (changed m ev r); [| discriminate].
  intros [= <- ->]. destruct Hres as [|[= ->]]; [discriminate |].
  right. split; [reflexivity |]. right. exists (updated m ev r).
  rewrite calls_app, Hp. cbn [calls filter is_call app]. fold (calls tail). now rewrite Htail.
Qed.

(** When the calendar answers an update with an end that cannot be read,
    [update_event] has sent the update and raises instead of printing
    its report. *)
Lemma update_event_unreadable_answer (m : Match) (ev : event) (now e r : datetime)
      (l : list effect) :
  from_google_date_to_datetime (end_dateTime ev) = Return e ->
  update_event_end D E m e now = (l, Return r) ->
  changed m ev r = true ->
  from_google_date_to_datetime
    (end_dateTime (events_update service calendar_id (id ev) (updated m ev r)))
  = Raise ValueError ->
  update_event D E service calendar_id m ev now
  = ((l ++ [Update calendar_id (id ev) (updated m ev r)])%list, Raise ValueError).
Proof.
  intros He Hr Hch Hans. unfold update_event.
  rewrite He, bind_lift_Return, Hr, bind_Return. cbv zeta.
  fold (changed m ev r). rewrite Hch. cbn [id]. fold (updated m ev r).
  rewrite bind_emit.
  destruct (show_if_different "start" _ _ true) as [a|x] eqn:Ha.
  2:{ apply show_if_different_raises in Ha as ->. rewrite bind_lift_Raise. reflexivity. }
  rewrite bind_lift_Return.
  assert (Hb : show_if_different "end" (end_dateTime ev)
                 (end_dateTime (events_update service calendar_id (id ev) (updated m ev r)))
                 true = Raise ValueError).
  { unfold show_if_different.
    destruct (String.eqb_spec (end_dateTime ev)
                (end_dateTime (events_update service calendar_id (id ev) (updated m ev r))))
      as [Heq|_].
    - rewrite <- Heq, He in Hans. discriminate.
    - cbn [negb]. rewrite He, Hans. reflexivity. }
  rewrite Hb, bind_lift_Raise. reflexivity.
Qed.

End Raising.


(** X6. An answer of the calendar that cannot be read costs the report,
    not the update: when [update_event] finds a change and the calendar
    answers with an end [from_google_date_to_datetime] refuses, the
    update has been sent and the run ends in [ValueError] where the
    report would be printed. *)
Theorem update_sent_before_report_fails
  (D E : Z) (service : Service) (cal : string) (m : Match) (ev : event)
  (now e r : datetime) (l : list effect) :
  from_google_date_to_datetime (end_dateTime ev) = Return e ->
  update_event_end D E m e now = (l, Return r) ->
  changed m ev r = true ->
  from_google_date_to_datetime
    (end_dateTime (events_update service cal (id ev) (updated m ev r)))
  = Raise ValueError ->
  update_event D E service cal m ev now
  = ((l ++ [Update cal (id ev) (updated m ev r)])%list, Raise ValueError).
Proof. apply update_event_unreadable_answer. Qed.

Lemma update_sent_before_report_fails_witness :
  update_event 90 20 echo_service "cal"
    (mkMatch "A vs B" (mkdatetime 2024 5 1 14 0 0 0 0) "2" true false (fun c => c))
    (mkevent "e1" "A vs B" "2024-05-01T14:00:00Z" "2024-05-01T15:30:00Z" "2")
    (mkdatetime 2024 5 1 15 40 0 250000 0)
  = (([extending]
      ++ [Update "cal" "e1"
            (updated
               (mkMatch "A vs B" (mkdatetime 2024 5 1 14 0 0 0 0) "2" true false (fun c => c))
               (mkevent "e1" "A vs B" "2024-05-01T14:00:00Z" "2024-05-01T15:30:00Z" "2")
               (mkdatetime 2024 5 1 16 0 0 250000 0))])%list,
     Raise ValueError).
Proof.
  refine (update_sent_before_report_fails 90 20 echo_service "cal"
            (mkMatch "A vs B" (mkdatetime 2024 5 1 14 0 0 0 0) "2" true false (fun c => c))
            (mkevent "e1" "A vs B" "2024-05-01T14:00:00Z" "2024-05-01T15:30:00Z" "2")
            (mkdatetime 2024 5 1 15 40 0 250000 0)
            (mkdatetime 2024 5 1 15 30 0 0 0) (mkdatetime 2024 5 1 16 0 0 250000 0)
            [extending] _ _ _ _); vm_compute; reflexivity.
Defined.

(** ** The comparison of texts at its edges *)

Section TextEdges.

(** [s[:-1]] and the last character make up a string that is not empty. *)
Lemma slice_to_last (s : string) :
  s <> "" -> exists c, s = PyStr.slice_to s (-1) ++ String c "".
Proof.
  induction s as [|a s IH]; [congruence |]. intros _.
  destruct s as [|b s'].
  - exists a. reflexivity.
  - destruct IH as [c Hc]; [discriminate |]. exists c.
    unfold PyStr.slice_to, PyStr.len in *. cbn [Z.ltb Z.compare] in *.
    cbn [String.length] in *.
    replace (Z.to_nat (Z.of_nat (S (S (String.length s'))) + -1))
      with (S (Z.to_nat (Z.of_nat (S (String.length s')) + -1))) by lia.
    cbn [PyStr.take append]. now rewrite <- Hc.
Qed.

(** A new date with microseconds is different from every stored date
    that can be read. *)
Lemma microseconds_differ (ev : event) (e r : datetime) :
  from_google_date_to_datetime (end_dateTime ev) = Return e ->
  valid r = true -> utcoffset r = 0 -> microsecond r <> 0 ->
  different_end_times ev (isoformat r) = true.
Proof.
  intros He Hv Ho Hus. unfold different_end_times.
  rewrite (isoformat_utc r Ho).
  change (format_local r ++ "+00:00") with (format_local r ++ String "+" "00:00").
  rewrite slice_to_rfind by reflexivity.
  destruct (String.eqb_spec (PyStr.slice_to (end_dateTime ev) (-1)) (format_local r))
    as [Heq|_]; [| reflexivity].
  exfalso.
  destruct (string_dec (end_dateTime ev) "") as [Hempty|Hne].
  - rewrite Hempty in He. vm_compute in He. discriminate.
  - destruct (slice_to_last _ Hne) as [c Hc]. rewrite Heq in Hc.
    rewrite Hc, format_local_split in He.
    apply Z.eqb_neq in Hus. rewrite Hus in He.
    rewrite !append_assoc in He.
    rewrite from_google_fraction in He by assumption. discriminate.
Qed.

(** Without a [+] in the new date, [rfind] answers [-1] and both dates
    lose their last character. *)
Lemma rfind_absent (s : string) (c : ascii) : PyStr.occurs c s = false -> PyStr.rfind s c = -1.
Proof. intros H. unfold PyStr.rfind. now apply rfind_from_absent. Qed.

End TextEdges.

(** X7. With a clock that has microseconds and a calendar that answers
    an update with the body it was sent, extending the event of a match
    that is still going always ends in [ValueError] after the update was
    sent: the end written, now + extension, carries the microseconds of
    now, differs from every stored end that can be read, and cannot be
    read back for the report. *)
Theorem extension_with_microseconds_raises
  (D E : Z) (service : Service) (cal : string) (m : Match) (ev : event)
  (now e r : datetime) (l : list effect) :
  (forall c i body, events_update service c i body = body) ->
  valid now = true -> utcoffset now = 0 -> microsecond now <> 0 ->
  from_google_date_to_datetime (end_dateTime ev) = Return e ->
  update_event_end D E m e now = (l, Return r) -> In extending l ->
  update_event D E service cal m ev now
  = ((l ++ [Update cal (id ev) (updated m ev r)])%list, Raise ValueError).
Proof.
  intros Hecho Hv Ho Hus He Hend Hext.
  destruct (update_event_end_extended D E m e now r l Hend Hext) as (td' & Htd' & Hadd).
  pose proof (add_minutes_microsecond now r E td' Hv Htd' Hadd) as Hr.
  pose proof (add_valid now r td' Hv Hadd) as Hvr.
  destruct (add_spec _ _ _ Hadd) as (_ & Hor & _). rewrite Ho in Hor.
  apply (update_event_unreadable_answer D E service cal m ev now e r l He Hend).
  - unfold changed. rewrite (microseconds_differ ev e r He Hvr Hor) by congruence.
    now rewrite orb_true_r.
  - rewrite Hecho. cbn [updated end_dateTime].
    apply from_google_isoformat_microseconds; [assumption | congruence].
Qed.

Lemma extension_with_microseconds_raises_witness :
  update_event 90 20 echo_service "cal"
    (mkMatch "A vs B" (mkdatetime 2024 5 1 14 0 0 0 0) "2" true false (fun c => c))
    (mkevent "e1" "A vs B" "2024-05-01T14:00:00Z" "2024-05-01T15:30:00Z" "2")
    (mkdatetime 2024 5 1 15 40 0 250000 0)
  = (([extending]
      ++ [Update "cal" "e1"
            (updated
               (mkMatch "A vs B" (mkdatetime 2024 5 1 14 0 0 0 0) "2" true false (fun c => c))
               (mkevent "e1" "A vs B" "2024-05-01T14:00:00Z" "2024-05-01T15:30:00Z" "2")
               (mkdatetime 2024 5 1 16 0 0 250000 0))])%list,
     Raise ValueError).
Proof.
  refine (extension_with_microseconds_raises 90 20 echo_service "cal"
            (mkMatch "A vs B" (mkdatetime 2024 5 1 14 0 0 0 0) "2" true false (fun c => c))
            (mkevent "e1" "A vs B" "2024-05-01T14:00:00Z" "2024-05-01T15:30:00Z" "2")
            (mkdatetime 2024 5 1 15 40 0 250000 0)
            (mkdatetime 2024 5 1 15 30 0 0 0) (mkdatetime 2024 5 1 16 0 0 250000 0)
            [extending] (fun _ _ _ => eq_refl) eq_refl eq_refl _ _ _ (or_introl eq_refl));
    [discriminate | vm_compute; reflexivity | vm_compute; reflexivity].
Defined.

(** X8. The comparison of dates cuts the new date at its last [+]; a new
    date without one (a negative offset, or no offset at all) loses its
    last character instead, like the stored date. Two dates that differ
    in their last character only are then judged the same, and a date
    with a negative offset is judged different from the stored date of
    the same instant spelled with [Z]. *)
Theorem dates_without_plus (ev : event) (new : string) :
  PyStr.occurs "+" new = false ->
  different_start_times ev new
  = negb (String.eqb (PyStr.slice_to (start_dateTime ev) (-1)) (PyStr.slice_to new (-1)))
  /\ different_end_times ev new
     = negb (String.eqb (PyStr.slice_to (end_dateTime ev) (-1)) (PyStr.slice_to new (-1)))
  /\ (forall body c1 c2,
        start_dateTime ev = body ++ String c1 "" -> new = body ++ String c2 "" ->
        different_start_times ev new = false)
  /\ (start_dateTime ev = "2024-05-01T15:00:00Z" -> new = "2024-05-01T10:00:00-05:00" ->
      from_google_date_to_datetime (start_dateTime ev)
      = Return (mkdatetime 2024 5 1 15 0 0 0 0)
      /\ utc_micros (mkdatetime 2024 5 1 10 0 0 0 (-5 * US_PER_HOUR))
         = utc_micros (mkdatetime 2024 5 1 15 0 0 0 0)
      /\ new = isoformat (mkdatetime 2024 5 1 10 0 0 0 (-5 * US_PER_HOUR))
      /\ different_start_times ev new = true).
Proof.
  intros H. unfold different_start_times, different_end_times.
  rewrite (rfind_absent new "+" H). repeat split.
  - intros body c1 c2 -> ->. rewrite !slice_to_drop_last. now rewrite String.eqb_refl.
  - rewrite H0. reflexivity.
  - rewrite H1. reflexivity.
  - rewrite H0, H1. reflexivity.
Qed.

Lemma dates_without_plus_witness :
  different_start_times
    (mkevent "e1" "A vs B" "2024-05-01T15:00:00Z" "2024-05-01T16:30:00Z" "2")
    "2024-05-01T10:00:00-05:00" = true.
Proof.
  destruct (dates_without_plus
              (mkevent "e1" "A vs B" "2024-05-01T15:00:00Z" "2024-05-01T16:30:00Z" "2")
              "2024-05-01T10:00:00-05:00" eq_refl) as (_ & _ & _ & H).
  exact (proj2 (proj2 (proj2 (H eq_refl eq_refl)))).
Defined.

(** ** What a batch touches *)

Section BatchFrame.

Variables D E : Z.
Variable service : Service.
Variable calendar_id : string.

Lemma create_event_title (m : Match) (now : datetime) (x : effect) :
  In x (fst (create_event D E calendar_id m now)) -> is_call x = true ->
  title_of x = Some (name m).
Proof.
  unfold create_event.
  destruct (timedelta_minutes D) as [td|y];
    [rewrite bind_lift_Return | rewrite bind_lift_Raise; intros []].
  destruct (add (time_start m) td) as [baseline|y];
    [rewrite bind_lift_Return | rewrite bind_lift_Raise; intros []].
  unfold print, print_end.
  destruct (is_still_going m && lt baseline now).
  - destruct (timedelta_minutes E) as [td'|y];
      [rewrite bind_lift_Return | rewrite bind_lift_Raise; intros []].
    destruct (add now td') as [ext|y];
      [rewrite bind_lift_Return | rewrite bind_lift_Raise; intros []].
    rewrite !bind_emit. cbn [fst snd]. intros [<-|[<-|[]]]; [reflexivity | discriminate].
  - rewrite bind_ret, !bind_emit. cbn [fst snd].
    intros [<-|[<-|[]]]; [reflexivity | discriminate].
Qed.

Lemma update_title (m : Match) (ev : event) (now : datetime) (x : effect) :
  In x (fst (if is_finished m
             then update_finished_event service calendar_id m ev now
             else update_event D E service calendar_id m ev now)) ->
  is_call x = true -> title_of x = Some (summary ev).
Proof.
  intros Hin Hx. destruct x as [c body|c i body|t]; [| | discriminate].
  - exfalso. destruct (is_finished m).
    + destruct (update_finished_event service calendar_id m ev now) as [l o] eqn:Hrun.
      pose proof (update_finished_event_calls service calendar_id m ev now) as Hn.
      rewrite Hrun in Hn. cbn [fst] in *.
      assert (Hc : In (Insert c body) (calls l)) by (apply filter_In; now split).
      destruct (calls l) as [|y [|z rest]] eqn:Hcl; cbn in Hn; [contradiction | | lia].
      destruct Hc as [->|[]].
      assert (Hy : In (Insert c body) l)
        by (apply (proj1 (filter_In is_call _ l)); fold (calls l); rewrite Hcl; now left).
      clear Hcl Hn. revert Hy.
      destruct (from_google_date_to_datetime (start_dateTime ev)) as [s|y] eqn:Hs.
      2:{ unfold update_finished_event in Hrun. rewrite Hs, bind_lift_Raise in Hrun.
          now injection Hrun as <- _. }
      destruct (from_google_date_to_datetime (end_dateTime ev)) as [e|y] eqn:He.
      2:{ unfold update_finished_event in Hrun.
          rewrite Hs, bind_lift_Return, He, bind_lift_Raise in Hrun.
          now injection Hrun as <- _. }
      destruct (update_finished_event_run service calendar_id m ev now s e Hs He)
        as [text Hr]. rewrite Hr in Hrun.
      destruct (_ && _); [| destruct (negb _)]; cbv zeta in Hrun; injection Hrun as <- _;
        cbn [In]; intuition discriminate.
    + destruct (update_event D E service calendar_id m ev now) as [l o] eqn:Hrun.
      cbn [fst] in Hin. revert Hin.
      destruct (from_google_date_to_datetime (end_dateTime ev)) as [e0|y] eqn:He0.
      2:{ unfold update_event in Hrun. rewrite He0, bind_lift_Raise in Hrun.
          now injection Hrun as <- _. }
      destruct (update_event_end D E m e0 now) as [l1 [r|y]] eqn:Hend.
      2:{ unfold update_event in Hrun. rewrite He0, bind_lift_Return, Hend in Hrun.
          cbn [bind] in Hrun. injection Hrun as <- _.
          pose proof (update_event_end_prints D E m e0 now) as Hp. rewrite Hend in Hp.
          now apply not_in_prints. }
      destruct (update_event_run D E service calendar_id m ev now e0 r l1 He0 Hend)
        as (tail & res & Hr & Htail & _).
      pose proof (update_event_end_prints D E m e0 now) as Hp. rewrite Hend in Hp.
      cbn [fst] in Hp. rewrite Hr in Hrun.
      destruct (changed m ev r); injection Hrun as <- _; intros Hin;
        apply in_app_or in Hin as [Hin|Hin];
        try (revert Hin; now apply not_in_prints).
      destruct Hin as [Hin|Hin]; [discriminate |]. revert Hin. now apply not_in_prints.
  - cbn [title_of]. f_equal. destruct (is_finished m).
    + destruct (update_finished_event service calendar_id m ev now) as [l o] eqn:Hrun.
      destruct (update_finished_event_sent_end service calendar_id m ev now l o c i body
                  Hrun Hin) as (_ & _ & _ & _ & _ & _ & _ & Hsum & _).
      exact Hsum.
    + destruct (update_event D E service calendar_id m ev now) as [l o] eqn:Hrun.
      now destruct (update_event_sent_to D E service calendar_id m ev now l o c i body
                      Hrun Hin) as (_ & _ & _ & Hsum).
Qed.

(** Every request of the loop carries the name of one of its matches as
    its title. *)
Lemma for_match_in_titles (clock : nat -> datetime) (matches : list Match) :
  forall (i : nat) (events : list event) (x : effect),
    In x (fst (for_match_in D E service calendar_id clock i events matches)) ->
    is_call x = true ->
    exists m, In m matches /\ title_of x = Some (name m).
Proof.
  induction matches as [|m rest IH]; intros i events x.
  - cbn. contradiction.
  - cbn [for_match_in].
    destruct (1 <? List.length _)%nat; [cbn; contradiction |].
    unfold print, print_end. rewrite bind_emit. cbn [fst].
    intros [<-|Hin] Hx; [discriminate |].
    rewrite fst_bind in Hin. apply in_app_or in Hin as [Hin|Hin].
    + exists m. split; [now left |].
      destruct (filter _ events) as [|me others] eqn:Hf.
      * rewrite (fst_bind_ret (create_event D E calendar_id m (clock i)) (fun _ => events))
          in Hin.
        now apply (create_event_title m (clock i)).
      * rewrite (fst_bind_ret _ (fun e => put_back (name m) e events)) in Hin.
        assert (Hme : summary me = name m).
        { assert (H : In me (filter (fun e => String.eqb (summary e) (name m)) events))
            by (rewrite Hf; now left).
          apply filter_In in H as [_ H]. now apply String.eqb_eq in H. }
        rewrite <- Hme. now apply (update_title m me (clock i)).
    + destruct (snd _) as [events1|y]; [| contradiction].
      destruct (IH (S i) events1 x Hin Hx) as (m' & Hm' & Ht).
      exists m'. split; [now right | assumption].
Qed.

(** Two matches of one name, with no event of that name in the list:
    both are created, the list being the one fetched before the loop. *)
Lemma same_name_twice (clock : nat -> datetime) (i : nat) (events : list event)
      (m1 m2 : Match) (l1 l2 : list effect) :
  name m2 = name m1 ->
  filter (fun e => String.eqb (summary e) (name m1)) events = [] ->
  create_event D E calendar_id m1 (clock i) = (l1, Return tt) ->
  create_event D E calendar_id m2 (clock (S i)) = (l2, Return tt) ->
  for_match_in D E service calendar_id clock i events [m1; m2]
  = ((Print ("Match:  " ++ name m1 ++ PyStr.nl) :: l1)
     ++ Print ("Match:  " ++ name m1 ++ PyStr.nl) :: l2, Return events)%list.
Proof.
  intros Hn Hf H1 H2. cbn [for_match_in]. rewrite Hn, Hf. cbn [List.length Nat.ltb Nat.leb].
  unfold print, print_end. rewrite bind_emit, H1.
  cbn [bind ret fst snd app]. rewrite Hf. cbn [List.length Nat.ltb Nat.leb].
  rewrite bind_emit, H2. cbn [bind ret fst snd app].
  rewrite !app_nil_r. reflexivity.
Qed.

End BatchFrame.

(** X9. A batch concerns the matches it is given and nothing else: every
    request [update_calendar_events] sends, an insertion or an update,
    carries the name of one of the matches as its title; and the list of
    events it ends with has the titles of the list it fetched, in the
    same order, the created events not among them. *)
Theorem batch_touches_matches_only
  (D E : Z) (service : Service) (cal : string) (clock : nat -> datetime)
  (matches : list Match) :
  (forall x,
      In x (fst (update_calendar_events D E service cal clock matches)) ->
      is_call x = true ->
      exists m, In m matches
                /\ (exists c body, x = Insert c body /\ new_summary body = name m)
                   \/ In m matches
                      /\ exists c i body, x = Update c i body /\ summary body = name m)
  /\ (forall l events',
        update_calendar_events D E service cal clock matches = (l, Return events') ->
        map summary events' = map summary (events_list service cal)).
Proof.
  split.
  - intros x Hin Hx. unfold update_calendar_events, print, print_end in Hin.
    rewrite bind_emit in Hin. cbn [fst] in Hin. destruct Hin as [<-|Hin]; [discriminate |].
    destruct (for_match_in_titles D E service cal clock matches 0 _ x Hin Hx)
      as (m & Hm & Ht).
    exists m. destruct x as [c body|c i body|t]; [| | discriminate].
    + left. split; [assumption |]. exists c, body. split; [reflexivity |].
      now injection Ht.
    + right. split; [assumption |]. exists c, i, body. split; [reflexivity |].
      now injection Ht.
  - intros l events'. unfold update_calendar_events, print, print_end.
    rewrite bind_emit. cbn [fst snd].
    destruct (for_match_in D E service cal clock 0 (events_list service cal) matches)
      as [l0 o] eqn:Hrun. cbn [fst snd]. intros [= _ ->].
    now apply (for_match_in_summaries D E service cal clock matches 0 _ _ l0).
Qed.

(** X10. The list of events is fetched once for a batch: when the batch
    holds two matches of one name and the list has no event of that
    name, an event is inserted for each of them. *)
Theorem same_name_inserted_twice
  (D E : Z) (service : Service) (cal : string) (clock : nat -> datetime) (i : nat)
  (events : list event) (m1 m2 : Match) (l1 l2 : list effect) :
  name m2 = name m1 ->
  filter (fun e => String.eqb (summary e) (name m1)) events = [] ->
  create_event D E cal m1 (clock i) = (l1, Return tt) ->
  create_event D E cal m2 (clock (S i)) = (l2, Return tt) ->
  for_match_in D E service cal clock i events [m1; m2]
  = ((Print ("Match:  " ++ name m1 ++ PyStr.nl) :: l1)
     ++ Print ("Match:  " ++ name m1 ++ PyStr.nl) :: l2, Return events)%list
  /\ (exists b1, In (Insert cal b1) l1 /\ new_summary b1 = name m1)
  /\ (exists b2, In (Insert cal b2) l2 /\ new_summary b2 = name m1).
Proof.
  intros Hn Hf H1 H2. split; [now apply same_name_twice |].
  assert (Hins : forall m now l, create_event D E cal m now = (l, Return tt) ->
                 exists b, In (Insert cal b) l /\ new_summary b = name m).
  { intros m now l. unfold create_event.
    destruct (timedelta_minutes D) as [td|y];
      [rewrite bind_lift_Return | rewrite bind_lift_Raise; discriminate].
    destruct (add (time_start m) td) as [baseline|y];
      [rewrite bind_lift_Return | rewrite bind_lift_Raise; discriminate].
    unfold print, print_end.
    destruct (is_still_going m && lt baseline now).
    - destruct (timedelta_minutes E) as [td'|y];
        [rewrite bind_lift_Return | rewrite bind_lift_Raise; discriminate].
      destruct (add now td') as [ext|y];
        [rewrite bind_lift_Return | rewrite bind_lift_Raise; discriminate].
      rewrite !bind_emit. cbn [fst snd]. intros [= <-].
      eexists. split; [now left | reflexivity].
    - rewrite bind_ret, !bind_emit. cbn [fst snd]. intros [= <-].
      eexists. split; [now left | reflexivity]. }
  split.
  - exact (Hins m1 _ l1 H1).
  - destruct (Hins m2 _ l2 H2) as (b & Hb & Hs). exists b. split; [assumption | congruence].
Qed.

Lemma same_name_inserted_twice_witness :
  exists b2,
    In (Insert "cal" b2)
       [Insert "cal"
          (mknew_event "A vs B" "2024-05-01T16:00:00+00:00" "2024-05-01T17:30:00+00:00"
             "100" "true" "true" "true" "2");
        Print ("Created event." ++ PyStr.nl)]
    /\ new_summary b2 = "A vs B".
Proof.
  refine (proj2 (proj2 (same_name_inserted_twice 90 20 echo_service "cal"
            (fun _ => mkdatetime 2024 5 1 13 0 0 0 0) 0 []
            (mkMatch "A vs B" (mkdatetime 2024 5 1 14 0 0 0 0) "2" false false (fun c => c))
            (mkMatch "A vs B" (mkdatetime 2024 5 1 16 0 0 0 0) "2" false false (fun c => c))
            [Insert "cal"
               (mknew_event "A vs B" "2024-05-01T14:00:00+00:00" "2024-05-01T15:30:00+00:00"
                  "100" "true" "true" "true" "2");
             Print ("Created event." ++ PyStr.nl)]
            [Insert "cal"
               (mknew_event "A vs B" "2024-05-01T16:00:00+00:00" "2024-05-01T17:30:00+00:00"
                  "100" "true" "true" "true" "2");
             Print ("Created event." ++ PyStr.nl)]
            eq_refl eq_refl _ _))); vm_compute; reflexivity.
Defined.

(** ** Reading dates back *)

Section Offsets.
Import Strptime.

Lemma sexagesimal_pad2 (n : Z) (r : string) :
  0 <= n <= 59 -> sexagesimal (PyStr.pad2 n ++ r) = Some (n, r).
Proof.
  intros H. unfold sexagesimal. rewrite two_digits_pad2 by lia.
  assert (Hm : n / 10 <= 5) by div_lia. apply Z.leb_le in Hm. rewrite Hm.
  do 2 f_equal. div_lia.
Qed.

Lemma fraction_digits_pad6 (n : Z) :
  0 <= n <= 999999 -> fraction_digits 6 100000 (PyStr.pad6 n) = (n, "").
Proof.
  intros H. unfold PyStr.pad6, PyStr.pad4, PyStr.pad2. cbn [append fraction_digits].
  rewrite !one_digit_char by div_lia.
  cbn [fraction_digits one_digit].
  change (100000 / 10) with 10000. change (10000 / 10) with 1000.
  change (1000 / 10) with 100. change (100 / 10) with 10. change (10 / 10) with 1.
  f_equal. div_lia.
Qed.

Lemma opt_fraction_pad6 (n : Z) :
  0 <= n <= 999999 -> opt_fraction ("." ++ PyStr.pad6 n) = (n, "").
Proof.
  intros H. unfold opt_fraction. rewrite lit_append.
  assert (Hd : exists x, one_digit (PyStr.pad6 n) = Some x).
  { unfold PyStr.pad6, PyStr.pad2. cbn [append]. rewrite one_digit_char by div_lia.
    eexists. reflexivity. }
  destruct Hd as [x ->]. now apply fraction_digits_pad6.
Qed.

Lemma opt_colon_colon (r : string) : opt_colon (String ":" r) = (true, r).
Proof. reflexivity. Qed.

Ltac read_offset :=
  rewrite two_digits_pad2 by lia; rewrite opt_colon_colon; cbv zeta iota beta;
  rewrite sexagesimal_pad2 by lia;
  match goal with
  | |- context [?x =? 0] => destruct (Z.eqb_spec x 0) as [Hz|Hnz]
  end;
  [ cbn [opt_colon lit sexagesimal two_digits one_digit]; f_equal; us_consts; div_lia
  | rewrite opt_colon_colon; cbv zeta iota beta;
    rewrite sexagesimal_pad2 by lia;
    match goal with
    | |- context [?x =? 0] => destruct (Z.eqb_spec x 0) as [Hz'|Hnz']
    end;
    [ cbn [opt_fraction lit Bool.eqb]; f_equal; us_consts; div_lia
    | change (String "." ?p) with ("." ++ p);
      rewrite opt_fraction_pad6 by lia; cbn [Bool.eqb]; f_equal; us_consts; div_lia ] ].

(** The offset [isoformat] prints is the one [%z] reads. *)
Lemma re_z_end_format_offset (off : Z) :
  - US_PER_DAY < off < US_PER_DAY -> re_z_end (format_offset off) = Some off.
Proof.
  intros H. unfold format_offset. us_consts.
  set (a := Z.abs off).
  assert (Ha : 0 <= a < 86400000000) by (subst a; lia).
  assert (Hh : 0 <= a / 3600000000 <= 99) by div_lia.
  assert (Hm : 0 <= a mod 3600000000 / 60000000 <= 59) by div_lia.
  assert (Hs : 0 <= a mod 60000000 / 1000000 <= 59) by div_lia.
  assert (Hf : 0 <= (a mod 60000000) mod 1000000 <= 999999) by div_lia.
  destruct (Z.ltb_spec off 0) as [Hneg|Hpos].
  - cbn [append]. unfold re_z_end.
    change (Ascii.eqb "-" "+" || Ascii.eqb "-" "-") with true.
    change (Ascii.eqb "-" "-") with true. cbv iota.
    assert (Hoff : off = - a) by (subst a; lia). clearbody a.
    read_offset.
  - cbn [append]. unfold re_z_end.
    change (Ascii.eqb "+" "+" || Ascii.eqb "+" "-") with true.
    change (Ascii.eqb "+" "-") with false. cbv iota.
    assert (Hoff : off = a) by (subst a; lia). clearbody a.
    read_offset.
Qed.
End Offsets.


Section MoreDates.
Import Strptime.

Lemma occurs_format_offset (c : ascii) (off : Z) :
  - US_PER_DAY < off < US_PER_DAY -> PyStr.digit_val c = None ->
  c <> "+"%char -> c <> "-"%char -> c <> ":"%char -> c <> "."%char ->
  PyStr.occurs c (format_offset off) = false.
Proof.
  intros H Hc N1 N2 N3 N4. apply not_eq_sym, Ascii.eqb_neq in N1, N2, N3, N4.
  unfold format_offset. us_consts. set (a := Z.abs off).
  assert (Ha : 0 <= a < 86400000000) by (subst a; lia). clearbody a.
  rewrite !occurs_append.
  assert (Hsign : PyStr.occurs c (if off <? 0 then "-" else "+") = false).
  { destruct (off <? 0); cbn [PyStr.occurs]; [now rewrite N2 | now rewrite N1]. }
  rewrite Hsign. cbn [PyStr.occurs orb]. rewrite N3.
  rewrite !occurs_pad2 by (assumption || div_lia). cbn [orb].
  destruct (_ =? 0); [reflexivity |].
  rewrite !occurs_append. cbn [PyStr.occurs]. rewrite N3.
  rewrite occurs_pad2 by (assumption || div_lia). cbn [orb].
  destruct (_ =? 0); [reflexivity |].
  rewrite occurs_append. cbn [PyStr.occurs]. rewrite N4.
  rewrite occurs_pad6 by (assumption || div_lia). reflexivity.
Qed.

Lemma replace_isoformat (d : datetime) :
  valid d = true -> PyStr.replace "Z" "+0000" (isoformat d) = isoformat d.
Proof.
  intros H. destruct (valid_fields d H) as (_ & _ & _ & _ & _ & _ & _ & Ho).
  apply replace_absent. unfold isoformat. rewrite occurs_append.
  rewrite occurs_format_local by (assumption || reflexivity || discriminate).
  rewrite occurs_format_offset by (assumption || reflexivity || discriminate).
  reflexivity.
Qed.

Lemma datetime_eta (d : datetime) :
  mkdatetime (year d) (month d) (day d) (hour d) (minute d) (second d) (microsecond d)
    (utcoffset d) = d.
Proof. now destruct d. Qed.

Lemma from_google_isoformat (d : datetime) :
  valid d = true -> microsecond d = 0 ->
  from_google_date_to_datetime (isoformat d) = Return d.
Proof.
  intros H Hus. destruct (valid_fields d H) as (_ & _ & _ & _ & _ & _ & _ & Ho).
  unfold from_google_date_to_datetime. rewrite (replace_isoformat d H).
  unfold isoformat, strptime. rewrite format_local_split, Hus. cbn [Z.eqb].
  rewrite append_assoc. cbn [append].
  rewrite match_format_local by assumption.
  rewrite re_z_end_format_offset by assumption. cbn [obind_opt].
  rewrite <- Hus, datetime_eta. now rewrite H.
Qed.

(** The match of the format with [%f], on the date and time of a valid
    datetime. *)
Lemma match_format_f_local (d : datetime) (rest : string) :
  valid d = true ->
  StrptimeF.match_format (format_local (whole_second d) ++ rest)
  = obind_opt (lit "." rest) (fun s =>
    obind_opt (StrptimeF.re_f s) (fun '(us, s) =>
    obind_opt (re_z_end s) (fun off =>
      Some (mkdatetime (year d) (month d) (day d) (hour d) (minute d) (second d) us off)))).
Proof.
  intros H. destruct (valid_fields d H) as (Hy & Hm & Hd & Hh & Hmi & Hs & _ & _).
  pose proof (days_in_month_le (year d) (month d)) as Hdim.
  unfold format_local, whole_second.
  cbn [year month day hour minute second microsecond utcoffset].
  change (0 =? 0) with true. cbv iota.
  rewrite !append_assoc. unfold StrptimeF.match_format.
  rewrite re_Y_pad4 by lia. cbn [obind_opt]. rewrite lit_append.
  cbn [obind_opt]. rewrite re_m_pad2 by lia. cbn [obind_opt]. rewrite lit_append.
  cbn [obind_opt]. rewrite re_d_pad2 by lia. cbn [obind_opt]. rewrite lit_T_append.
  cbn [obind_opt]. rewrite re_H_pad2 by lia. cbn [obind_opt]. rewrite lit_append.
  cbn [obind_opt]. rewrite re_M_pad2 by lia. cbn [obind_opt]. rewrite lit_append.
  cbn [obind_opt]. rewrite re_S_pad2 by lia. cbn [obind_opt].
  reflexivity.
Qed.

Lemma fraction_digits_pad6_rest (n : Z) (r : string) :
  0 <= n <= 999999 -> fraction_digits 6 100000 (PyStr.pad6 n ++ r) = (n, r).
Proof.
  intros H. unfold PyStr.pad6, PyStr.pad4, PyStr.pad2. cbn [append fraction_digits].
  rewrite !one_digit_char by div_lia.
  cbn [fraction_digits one_digit].
  change (100000 / 10) with 10000. change (10000 / 10) with 1000.
  change (1000 / 10) with 100. change (100 / 10) with 10. change (10 / 10) with 1.
  f_equal. div_lia.
Qed.

Lemma re_f_pad6 (n : Z) (r : string) :
  0 <= n <= 999999 -> StrptimeF.re_f (PyStr.pad6 n ++ r) = Some (n, r).
Proof.
  intros H. unfold StrptimeF.re_f.
  assert (Hd : exists x, one_digit (PyStr.pad6 n ++ r) = Some x).
  { unfold PyStr.pad6, PyStr.pad2. cbn [append]. rewrite one_digit_char by div_lia.
    eexists. reflexivity. }
  destruct Hd as [x ->]. now rewrite fraction_digits_pad6_rest.
Qed.

Lemma from_google_ms_isoformat (d : datetime) :
  valid d = true -> microsecond d <> 0 ->
  from_google_date_to_datetime_ms (isoformat d) = Return d.
Proof.
  intros H Hus. destruct (valid_fields d H) as (_ & _ & _ & _ & _ & _ & Hu & Ho).
  unfold from_google_date_to_datetime_ms. rewrite (replace_isoformat d H).
  unfold isoformat, StrptimeF.strptime. rewrite format_local_split.
  apply Z.eqb_neq in Hus. rewrite Hus. rewrite !append_assoc.
  rewrite match_format_f_local by assumption.
  rewrite lit_append. cbn [obind_opt]. rewrite re_f_pad6 by assumption.
  cbn [obind_opt]. rewrite re_z_end_format_offset by assumption. cbn [obind_opt].
  rewrite datetime_eta. now rewrite H.
Qed.

(** Without a point after the seconds the format with [%f] does not
    match. *)
Lemma from_google_ms_whole (d : datetime) :
  valid d = true -> microsecond d = 0 ->
  from_google_date_to_datetime_ms (isoformat d) = Raise ValueError.
Proof.
  intros H Hus. destruct (valid_fields d H) as (_ & _ & _ & _ & _ & _ & _ & Ho).
  unfold from_google_date_to_datetime_ms. rewrite (replace_isoformat d H).
  unfold isoformat, StrptimeF.strptime. rewrite format_local_split, Hus. cbn [Z.eqb].
  rewrite append_assoc. cbn [append].
  rewrite match_format_f_local by assumption.
  unfold format_offset. destruct (utcoffset d <? 0); reflexivity.
Qed.

End MoreDates.

(** X11. [from_google_date_to_datetime] reads back what [isoformat]
    prints for every datetime without microseconds, whatever its offset;
    a UTC date closed by [Z] or by [+0000] is read as the same
    datetime. *)
Theorem from_google_reads_isoformat (d : datetime) :
  valid d = true -> microsecond d = 0 ->
  from_google_date_to_datetime (isoformat d) = Return d
  /\ (utcoffset d = 0 ->
      from_google_date_to_datetime (format_local d ++ "Z") = Return d
      /\ from_google_date_to_datetime (format_local d ++ "+0000") = Return d).
Proof.
  intros H Hus. split; [now apply from_google_isoformat |].
  intros Ho. pose proof (from_google_zulu d H Ho) as Hz.
  unfold zulu in Hz. rewrite (whole_second_id d Hus) in Hz. split; [assumption |].
  unfold from_google_date_to_datetime in *.
  rewrite replace_append in *.
  rewrite replace_absent in *
    by (apply occurs_format_local; [assumption | reflexivity | discriminate ..]).
  exact Hz.
Qed.

Lemma from_google_reads_isoformat_witness :
  from_google_date_to_datetime (isoformat (mkdatetime 2024 5 1 10 0 0 0 (-5 * US_PER_HOUR)))
  = Return (mkdatetime 2024 5 1 10 0 0 0 (-5 * US_PER_HOUR)).
Proof.
  exact (proj1 (from_google_reads_isoformat (mkdatetime 2024 5 1 10 0 0 0 (-5 * US_PER_HOUR))
                  eq_refl eq_refl)).
Defined.

(** X12. The two readers of dates divide what [isoformat] prints between
    them: [from_google_date_to_datetime_ms] reads back every datetime
    with microseconds and refuses every one without, and
    [from_google_date_to_datetime] the other way round. *)
Theorem readers_divide_isoformat (d : datetime) :
  valid d = true ->
  (microsecond d <> 0 ->
   from_google_date_to_datetime_ms (isoformat d) = Return d
   /\ from_google_date_to_datetime (isoformat d) = Raise ValueError)
  /\ (microsecond d = 0 ->
      from_google_date_to_datetime_ms (isoformat d) = Raise ValueError
      /\ from_google_date_to_datetime (isoformat d) = Return d).
Proof.
  intros H. split; intros Hus; split.
  - now apply from_google_ms_isoformat.
  - now apply from_google_isoformat_microseconds.
  - now apply from_google_ms_whole.
  - now apply from_google_isoformat.
Qed.

Lemma readers_divide_isoformat_witness :
  from_google_date_to_datetime_ms (isoformat (mkdatetime 2024 5 1 10 0 0 250000 0))
  = Return (mkdatetime 2024 5 1 10 0 0 250000 0)
  /\ from_google_date_to_datetime (isoformat (mkdatetime 2024 5 1 10 0 0 250000 0))
     = Raise ValueError.
Proof.
  apply (readers_divide_isoformat (mkdatetime 2024 5 1 10 0 0 250000 0) eq_refl).
  discriminate.
Defined.

(* ================================================================== *)
(** * Properties of the calendar level *)

Section IOFacts.

Lemma io_bind_ret_l {A B} (a : A) (f : A -> IO B) : io_bind (io_ret a) f = f a.
Proof. unfold io_bind, io_ret. now destruct (f a). Qed.

Lemma io_bind_emit {B} (e : io) (f : unit -> IO B) :
  io_bind (io_emit e) f = (e :: fst (f tt), snd (f tt)).
Proof. unfold io_bind, io_emit. now destruct (f tt). Qed.

Lemma io_bind_Return {A B} (l : list io) (a : A) (f : A -> IO B) :
  io_bind (l, Return a) f = ((l ++ fst (f a))%list, snd (f a)).
Proof. unfold io_bind. now destruct (f a). Qed.

Lemma io_bind_Raise {A B} (l : list io) (x : exn) (f : A -> IO B) :
  io_bind (l, Raise x) f = (l, Raise x).
Proof. reflexivity. Qed.

Lemma io_bind_ext {A B} (x : IO A) (f g : A -> IO B) :
  (forall a, f a = g a) -> io_bind x f = io_bind x g.
Proof. intros H. destruct x as [l [a|e]]; cbn [io_bind]; [now rewrite H | reflexivity]. Qed.

Lemma io_bind_assoc {A B C} (x : IO A) (f : A -> IO B) (g : B -> IO C) :
  io_bind (io_bind x f) g = io_bind x (fun a => io_bind (f a) g).
Proof.
  destruct x as [l [a|e]]; [| reflexivity].
  unfold io_bind. destruct (f a) as [l1 [b|e1]]; [| reflexivity].
  destruct (g b) as [l2 r]. now rewrite app_assoc.
Qed.

End IOFacts.

Section Tournaments.

Variables D E : Z.
Variable service : Service.
Variable calendars_insert : string -> string.
Variable calendars_list : list calendar.
Variable clock : nat -> nat -> datetime.

(** With the limit on, the loop stops after the tournament it handles
    with its counter at ten. *)
Lemma for_tournament_in_limit (tournaments : list (string * list Match)) :
  forall (id : Z) (k : nat),
    0 <= id <= 10 ->
    for_tournament_in D E service calendars_insert calendars_list false clock id k tournaments
    = for_tournament_in D E service calendars_insert calendars_list false clock id k (firstn (Z.to_nat (11 - id)) tournaments).
Proof.
  induction tournaments as [|[n ms] rest IH]; intros id k Hid.
  - now rewrite firstn_nil.
  - replace (Z.to_nat (11 - id)) with (S (Z.to_nat (10 - id))) by lia.
    cbn [firstn for_tournament_in negb].
    apply io_bind_ext. intros cid. apply io_bind_ext. intros _.
    destruct (Z.eqb_spec id 10) as [->|Hne]; [reflexivity |].
    rewrite (IH (id + 1) (S k)) by lia.
    now replace (11 - (id + 1)) with (10 - id) by lia.
Qed.

(** As long as the counter stays below ten, the loop over a list goes
    on with what follows it. *)
Lemma for_tournament_in_app (before rest : list (string * list Match)) :
  forall (id : Z) (k : nat),
    0 <= id -> id + Z.of_nat (List.length before) <= 10 ->
    for_tournament_in D E service calendars_insert calendars_list false clock id k (before ++ rest)
    = io_bind (for_tournament_in D E service calendars_insert calendars_list false clock id k before)
        (fun _ => for_tournament_in D E service calendars_insert calendars_list false clock (id + Z.of_nat (List.length before))
                    (k + List.length before) rest).
Proof.
  induction before as [|[n ms] before IH]; intros id k Hid Hlen.
  - cbn [app List.length for_tournament_in]. rewrite io_bind_ret_l.
    now rewrite Z.add_0_r, Nat.add_0_r.
  - cbn [app for_tournament_in negb].
    rewrite !io_bind_assoc. apply io_bind_ext. intros cid.
    rewrite !io_bind_assoc. apply io_bind_ext. intros _.
    cbn [List.length] in Hlen.
    destruct (Z.eqb_spec id 10) as [->|Hne]; [lia |].
    rewrite (IH (id + 1) (S k)) by lia.
    apply io_bind_ext. intros _. f_equal; cbn [List.length]; lia.
Qed.

End Tournaments.

(** ** Where the requests on events go *)

Section Routing.

Variables D E : Z.
Variable service : Service.
Variable calendar_id : string.

Lemma create_event_to (m : Match) (now : datetime) (x : effect) :
  In x (fst (create_event D E calendar_id m now)) -> is_call x = true ->
  sent_to x = Some calendar_id.
Proof.
  unfold create_event.
  destruct (timedelta_minutes D) as [td|y];
    [rewrite bind_lift_Return | rewrite bind_lift_Raise; intros []].
  destruct (add (time_start m) td) as [baseline|y];
    [rewrite bind_lift_Return | rewrite bind_lift_Raise; intros []].
  unfold print, print_end.
  destruct (is_still_going m && lt baseline now).
  - destruct (timedelta_minutes E) as [td'|y];
      [rewrite bind_lift_Return | rewrite bind_lift_Raise; intros []].
    destruct (add now td') as [ext|y];
      [rewrite bind_lift_Return | rewrite bind_lift_Raise; intros []].
    rewrite !bind_emit. cbn [fst snd]. intros [<-|[<-|[]]]; [reflexivity | discriminate].
  - rewrite bind_ret, !bind_emit. cbn [fst snd].
    intros [<-|[<-|[]]]; [reflexivity | discriminate].
Qed.

(** An update inserts nothing. *)
Lemma update_finished_event_no_insert (m : Match) (ev : event) (now : datetime)
      (c : string) (body : new_event) :
  ~ In (Insert c body) (fst (update_finished_event service calendar_id m ev now)).
Proof.
  destruct (from_google_date_to_datetime (start_dateTime ev)) as [s|y] eqn:Hs.
  2:{ unfold update_finished_event. rewrite Hs, bind_lift_Raise. intros []. }
  destruct (from_google_date_to_datetime (end_dateTime ev)) as [e|y] eqn:He.
  2:{ unfold update_finished_event. rewrite Hs, bind_lift_Return, He, bind_lift_Raise.
      intros []. }
  destruct (update_finished_event_run service calendar_id m ev now s e Hs He) as [text ->].
  destruct (_ && _); [| destruct (negb _)]; cbv zeta; cbn [fst In]; intuition discriminate.
Qed.

Lemma update_event_no_insert (m : Match) (ev : event) (now : datetime)
      (c : string) (body : new_event) :
  ~ In (Insert c body) (fst (update_event D E service calendar_id m ev now)).
Proof.
  destruct (from_google_date_to_datetime (end_dateTime ev)) as [e0|y] eqn:He0.
  2:{ unfold update_event. rewrite He0, bind_lift_Raise. intros []. }
  destruct (update_event_end D E m e0 now) as [l1 [r|y]] eqn:Hend.
  2:{ unfold update_event. rewrite He0, bind_lift_Return, Hend. cbn [bind fst].
      pose proof (update_event_end_prints D E m e0 now) as Hp. rewrite Hend in Hp.
      now apply not_in_prints. }
  destruct (update_event_run D E service calendar_id m ev now e0 r l1 He0 Hend)
    as (tail & res & -> & Htail & _).
  pose proof (update_event_end_prints D E m e0 now) as Hp. rewrite Hend in Hp.
  cbn [fst] in Hp.
  destruct (changed m ev r); cbn [fst]; intros Hin;
    apply in_app_or in Hin as [Hin|Hin];
    try (revert Hin; now apply not_in_prints).
  destruct Hin as [Hin|Hin]; [discriminate |]. revert Hin. now apply not_in_prints.
Qed.

Lemma update_to (m : Match) (ev : event) (now : datetime) (x : effect) :
  In x (fst (if is_finished m
             then update_finished_event service calendar_id m ev now
             else update_event D E service calendar_id m ev now)) ->
  is_call x = true -> sent_to x = Some calendar_id.
Proof.
  intros Hin Hx. destruct x as [c body|c i body|t]; [| | discriminate].
  - exfalso. destruct (is_finished m).
    + now apply update_finished_event_no_insert in Hin.
    + now apply update_event_no_insert in Hin.
  - cbn [sent_to]. f_equal. destruct (is_finished m).
    + destruct (update_finished_event service calendar_id m ev now) as [l o] eqn:Hrun.
      now destruct (update_finished_event_sent_end service calendar_id m ev now l o c i body
                      Hrun Hin) as (_ & _ & _ & _ & Hc & _).
    + destruct (update_event D E service calendar_id m ev now) as [l o] eqn:Hrun.
      now destruct (update_event_sent_to D E service calendar_id m ev now l o c i body
                      Hrun Hin) as (Hc & _).
Qed.

Lemma for_match_in_to (clock : nat -> datetime) (matches : list Match) :
  forall (i : nat) (events : list event) (x : effect),
    In x (fst (for_match_in D E service calendar_id clock i events matches)) ->
    is_call x = true -> sent_to x = Some calendar_id.
Proof.
  induction matches as [|m rest IH]; intros i events x.
  - cbn. contradiction.
  - cbn [for_match_in].
    destruct (1 <? List.length _)%nat; [cbn; contradiction |].
    unfold print, print_end. rewrite bind_emit. cbn [fst].
    intros [<-|Hin] Hx; [discriminate |].
    rewrite fst_bind in Hin. apply in_app_or in Hin as [Hin|Hin].
    + destruct (filter _ events) as [|me others].
      * rewrite (fst_bind_ret (create_event D E calendar_id m (clock i)) (fun _ => events))
          in Hin.
        now apply (create_event_to m (clock i)).
      * rewrite (fst_bind_ret _ (fun e => put_back (name m) e events)) in Hin.
        now apply (update_to m me (clock i)).
    + destruct (snd _) as [events1|y]; [| contradiction].
      exact (IH (S i) events1 x Hin Hx).
Qed.

Lemma update_calendar_events_to (clock : nat -> datetime) (matches : list Match)
      (x : effect) :
  In x (fst (update_calendar_events D E service calendar_id clock matches)) ->
  is_call x = true -> sent_to x = Some calendar_id.
Proof.
  unfold update_calendar_events, print, print_end. rewrite bind_emit. cbn [fst].
  intros [<-|Hin] Hx; [discriminate |]. exact (for_match_in_to clock matches 0%nat _ x Hin Hx).
Qed.

End Routing.


(** ** The calendar of a tournament *)

Section CalendarOf.

Variable calendars_insert : string -> string.

Lemma calendars_get_none (calendars_list : list calendar) (name : string) :
  (forall c, In c calendars_list -> cal_summary c <> name) ->
  calendars_get calendars_list name = None.
Proof.
  induction calendars_list as [|c rest IH]; intros H; [reflexivity |].
  cbn [calendars_get]. rewrite IH by (intros c' Hc'; apply H; now right).
  destruct (String.eqb_spec (cal_summary c) name) as [Heq|_]; [| reflexivity].
  exfalso. apply (H c); [now left | assumption].
Qed.

(** Of the calendars of one title the last of the list is the one in
    the dictionary. *)
Lemma calendars_get_last (before after : list calendar) (c : calendar) (name : string) :
  cal_summary c = name ->
  (forall c', In c' after -> cal_summary c' <> name) ->
  calendars_get (before ++ c :: after) name = Some (cal_id c).
Proof.
  intros Hc Hafter. induction before as [|b before IH].
  - cbn [app calendars_get]. rewrite (calendars_get_none after name Hafter).
    apply String.eqb_eq in Hc. now rewrite Hc.
  - cbn [app calendars_get]. now rewrite IH.
Qed.

Lemma calendar_of_found (calendars_list : list calendar) (name i : string) :
  calendars_get calendars_list name = Some i ->
  calendar_of calendars_insert calendars_list name
  = ([processing name; OnEvents (Print ("Calendar already exists." ++ PyStr.nl))], Return i).
Proof. intros H. unfold calendar_of. rewrite H. reflexivity. Qed.

Lemma calendar_of_missing (calendars_list : list calendar) (name : string) :
  calendars_get calendars_list name = None ->
  calendar_of calendars_insert calendars_list name
  = ([processing name;
      OnEvents (Print ("Calendar not found, creating a new one..." ++ PyStr.nl));
      OnEvents (Print ("Creating calendar:  " ++ name ++ PyStr.nl));
      InsertCalendar name;
      OnEvents (Print ("Adding public READ permission." ++ PyStr.nl));
      InsertAcl (calendars_insert name) "reader" "default"],
     Return (calendars_insert name)).
Proof. intros H. unfold calendar_of. rewrite H. reflexivity. Qed.

Lemma calendar_of_returns (calendars_list : list calendar) (name : string) :
  snd (calendar_of calendars_insert calendars_list name)
  = Return (calendar_for calendars_insert calendars_list name).
Proof.
  unfold calendar_for. destruct (calendars_get calendars_list name) as [i|] eqn:H.
  - now rewrite (calendar_of_found _ _ i H).
  - now rewrite (calendar_of_missing _ _ H).
Qed.

Lemma calendar_of_no_page (calendars_list : list calendar) (name : string) (e : io) :
  In e (fst (calendar_of calendars_insert calendars_list name)) -> is_page e = false.
Proof.
  destruct (calendars_get calendars_list name) as [i|] eqn:H.
  - rewrite (calendar_of_found _ _ i H). cbn [fst In]. intuition (subst; reflexivity).
  - rewrite (calendar_of_missing _ _ H). cbn [fst In]. intuition (subst; reflexivity).
Qed.

End CalendarOf.

Lemma filter_is_request_on_events (l : list effect) :
  filter is_request (map OnEvents l) = map OnEvents (calls l).
Proof.
  induction l as [|x l IH]; [reflexivity |].
  cbn [map filter is_request calls]. fold (calls l).
  destruct (is_call x); cbn [map]; now rewrite IH.
Qed.

Section TournamentFacts.

Variables D E : Z.
Variable service : Service.
Variable calendars_insert : string -> string.
Variable calendars_list : list calendar.

(** One turn of the loop: the calendar, the batch on it, and what
    follows when the batch returns. *)
Lemma for_tournament_in_cons (no_limit : bool) (clock : nat -> nat -> datetime)
      (id : Z) (k : nat) (name : string) (matches : list Match)
      (rest : list (string * list Match)) :
  let batch :=
    update_calendar_events D E service
      (calendar_for calendars_insert calendars_list name) (clock k) matches in
  let next :=
    if negb no_limit then
      if id =? 10 then io_ret tt
      else for_tournament_in D E service calendars_insert calendars_list no_limit clock
             (id + 1) (S k) rest
    else for_tournament_in D E service calendars_insert calendars_list no_limit clock
           id (S k) rest in
  for_tournament_in D E service calendars_insert calendars_list no_limit clock id k
    ((name, matches) :: rest)
  = ((fst (calendar_of calendars_insert calendars_list name)
      ++ map OnEvents (fst batch)
      ++ match snd batch with Return _ => fst next | Raise _ => [] end)%list,
     match snd batch with Return _ => snd next | Raise x => Raise x end).
Proof.
  intros batch next. cbn [for_tournament_in]. fold next.
  pose proof (calendar_of_returns calendars_insert calendars_list name) as Hret.
  destruct (calendar_of calendars_insert calendars_list name) as [l0 o]. cbn [snd] in Hret.
  subst o. rewrite io_bind_Return. fold batch. cbn [fst].
  unfold on_events. destruct batch as [l1 [events|x]]; cbn [fst snd].
  - rewrite io_bind_Return. reflexivity.
  - rewrite io_bind_Raise. cbn [fst snd]. now rewrite app_nil_r.
Qed.

Lemma for_tournament_in_no_page (no_limit : bool) (clock : nat -> nat -> datetime)
      (tournaments : list (string * list Match)) :
  forall (id : Z) (k : nat) (e : io),
    In e (fst (for_tournament_in D E service calendars_insert calendars_list no_limit
                 clock id k tournaments)) ->
    is_page e = false.
Proof.
  induction tournaments as [|[name ms] rest IH]; intros id k e.
  - cbn. contradiction.
  - rewrite for_tournament_in_cons. cbv zeta. cbn [fst]. intros Hin.
    apply in_app_or in Hin as [Hin|Hin]; [now apply calendar_of_no_page in Hin |].
    apply in_app_or in Hin as [Hin|Hin].
    + apply in_map_iff in Hin as (x & <- & _). reflexivity.
    + destruct (snd _); [| contradiction].
      destruct (negb no_limit); [destruct (id =? 10) |];
        [contradiction | now apply IH in Hin | now apply IH in Hin].
Qed.

(** Once a tournament has raised, what follows it in the list is not
    looked at. *)
Lemma for_tournament_in_raises_app (no_limit : bool) (clock : nat -> nat -> datetime)
      (before rest : list (string * list Match)) (x : exn) :
  forall (id : Z) (k : nat),
    snd (for_tournament_in D E service calendars_insert calendars_list no_limit clock id k
           before) = Raise x ->
    for_tournament_in D E service calendars_insert calendars_list no_limit clock id k
      (before ++ rest)
    = for_tournament_in D E service calendars_insert calendars_list no_limit clock id k
        before.
Proof.
  induction before as [|[name ms] before IH]; intros id k.
  - cbn. discriminate.
  - cbn [app]. rewrite !for_tournament_in_cons. cbv zeta. cbn [snd].
    destruct (snd (update_calendar_events _ _ _ _ _ _)); [| reflexivity].
    destruct (negb no_limit); [destruct (id =? 10) |]; intros H;
      [reflexivity | now rewrite IH | now rewrite IH].
Qed.

(** With [--no-limit] the loop goes through the whole list. *)
Lemma for_tournament_in_app_no_limit (clock : nat -> nat -> datetime)
      (before rest : list (string * list Match)) :
  forall (id : Z) (k : nat),
    for_tournament_in D E service calendars_insert calendars_list true clock id k
      (before ++ rest)
    = io_bind (for_tournament_in D E service calendars_insert calendars_list true clock id k
                 before)
        (fun _ => for_tournament_in D E service calendars_insert calendars_list true clock id
                    (k + List.length before) rest).
Proof.
  induction before as [|[n ms] before IH]; intros id k.
  - cbn [app List.length for_tournament_in]. rewrite io_bind_ret_l.
    now rewrite Nat.add_0_r.
  - cbn [app for_tournament_in negb].
    rewrite !io_bind_assoc. apply io_bind_ext. intros cid.
    rewrite !io_bind_assoc. apply io_bind_ext. intros _.
    rewrite (IH id (S k)). apply io_bind_ext. intros _.
    f_equal. cbn [List.length]. lia.
Qed.

Lemma for_tournament_in_first (no_limit : bool) (clock : nat -> nat -> datetime)
      (id : Z) (k : nat) (name : string) (matches : list Match)
      (rest : list (string * list Match)) :
  In (processing name)
     (fst (for_tournament_in D E service calendars_insert calendars_list no_limit clock id k
             ((name, matches) :: rest))).
Proof.
  rewrite for_tournament_in_cons. cbv zeta. cbn [fst]. apply in_or_app. left.
  destruct (calendars_get calendars_list name) as [i|] eqn:H.
  - rewrite (calendar_of_found _ _ _ i H). now left.
  - rewrite (calendar_of_missing _ _ _ H). now left.
Qed.

(** The requests of a turn: those of [calendar_of], then those of the
    batch. *)
Lemma for_tournament_in_one_requests (no_limit : bool) (clock : nat -> nat -> datetime)
      (id : Z) (k : nat) (name : string) (matches : list Match) :
  filter is_request
    (fst (for_tournament_in D E service calendars_insert calendars_list no_limit clock id k
            [(name, matches)]))
  = (filter is_request (fst (calendar_of calendars_insert calendars_list name))
     ++ map OnEvents
          (calls (fst (update_calendar_events D E service
                         (calendar_for calendars_insert calendars_list name)
                         (clock k) matches))))%list.
Proof.
  rewrite for_tournament_in_cons. cbv zeta. cbn [fst].
  rewrite !filter_app, filter_is_request_on_events.
  f_equal. rewrite <- app_nil_r. f_equal.
  destruct (snd _); [| reflexivity].
  destruct (negb no_limit); [destruct (id =? 10) |]; reflexivity.
Qed.

End TournamentFacts.

(** ** The page *)

Lemma from_google_ms_raises (s : string) (x : exn) :
  from_google_date_to_datetime_ms s = Raise x -> x = ValueError.
Proof.
  unfold from_google_date_to_datetime_ms, StrptimeF.strptime.
  destruct (StrptimeF.match_format _) as [d|]; [destruct (valid d) |]; congruence.
Qed.

Section PageFacts.

Variable CALENDAR_URLS_FILENAME : string.
Variables ical embed iframe : string -> string.
Variable latest_updated : string -> string.

(** The three lists of the loop are what it found in them, followed by
    the entries of the calendars it lists, each in the list of its
    age. *)
Lemma for_calendar_in_lists (clock : nat -> datetime) (calendars_list : list calendar) :
  forall (i : nat) (acc l : lists),
    for_calendar_in ical embed iframe latest_updated clock i acc calendars_list = Return l ->
    active l
    = (active acc
       ++ entries_where ical embed iframe latest_updated
            (fun a => a <=? 1 * US_PER_DAY) clock i calendars_list)%list
    /\ inactive l
       = (inactive acc
          ++ entries_where ical embed iframe latest_updated
               (fun a => (1 * US_PER_DAY <? a) && (a <=? 3 * US_PER_DAY))
               clock i calendars_list)%list
    /\ archive l
       = (archive acc
          ++ entries_where ical embed iframe latest_updated
               (fun a => 3 * US_PER_DAY <? a) clock i calendars_list)%list.
Proof.
  induction calendars_list as [|c rest IH]; intros i acc l.
  - cbn [for_calendar_in entries_where]. intros [= <-]. now rewrite !app_nil_r.
  - cbn [for_calendar_in entries_where]. unfold age, listed.
    destruct (negb _ && negb _).
    + destruct (from_google_date_to_datetime_ms _) as [t1|x]; cbn [obind]; [| discriminate].
      cbv zeta. rewrite !(Z.leb_antisym _ (sub (clock i) t1)).
      set (a := sub (clock i) t1).
      assert (H31 : (3 * US_PER_DAY <? a) = true -> (1 * US_PER_DAY <? a) = true).
      { rewrite !Z.ltb_lt. us_consts. lia. }
      destruct (3 * US_PER_DAY <? a) eqn:H3.
      * rewrite (H31 eq_refl). cbn [andb negb].
        intros H. apply IH in H as (Ha & Hi & Har). rewrite Ha, Hi, Har.
        cbn [active inactive archive]. unfold append_calendar_to_list.
        rewrite <- !app_assoc. cbn [app]. repeat split; reflexivity.
      * clear H31. destruct (1 * US_PER_DAY <? a) eqn:H1; cbn [andb negb];
          intros H; apply IH in H as (Ha & Hi & Har); rewrite Ha, Hi, Har;
          cbn [active inactive archive]; unfold append_calendar_to_list;
          rewrite <- ?app_assoc; cbn [app]; repeat split; reflexivity.
    + intros H. apply IH in H.
      destruct (from_google_date_to_datetime_ms _); exact H.
Qed.

(** The loop returns when the stamps of the calendars it lists are
    read. *)
Lemma for_calendar_in_returns (clock : nat -> datetime) (calendars_list : list calendar) :
  (forall c, In c calendars_list -> listed c = true ->
             exists t, from_google_date_to_datetime_ms (latest_updated (cal_id c)) = Return t) ->
  forall (i : nat) (acc : lists),
  exists l,
    for_calendar_in ical embed iframe latest_updated clock i acc calendars_list = Return l.
Proof.
  induction calendars_list as [|c rest IH]; intros H i acc.
  - now exists acc.
  - cbn [for_calendar_in].
    assert (Hrest : forall c', In c' rest -> listed c' = true ->
              exists t, from_google_date_to_datetime_ms (latest_updated (cal_id c')) = Return t)
      by (intros c' Hc'; apply H; now right).
    destruct (negb _ && negb _) eqn:Hl; [| now apply IH].
    destruct (H c (or_introl eq_refl) Hl) as [t ->]. cbn [obind]. now apply IH.
Qed.

(** Each calendar the loop lists has its entry in exactly one of the
    three lists. *)
Lemma entries_where_partition (clock : nat -> datetime) (calendars_list : list calendar) :
  (forall c, In c calendars_list -> listed c = true ->
             exists t, from_google_date_to_datetime_ms (latest_updated (cal_id c)) = Return t) ->
  forall (i : nat),
    (List.length (entries_where ical embed iframe latest_updated
                    (fun a => (a <=? 1 * US_PER_DAY)%Z) clock i calendars_list)
     + List.length (entries_where ical embed iframe latest_updated
                      (fun a => ((1 * US_PER_DAY <? a) && (a <=? 3 * US_PER_DAY))%Z)
                      clock i calendars_list)
     + List.length (entries_where ical embed iframe latest_updated
                      (fun a => (3 * US_PER_DAY <? a)%Z) clock i calendars_list)
     = List.length (filter listed calendars_list))%nat.
Proof.
  induction calendars_list as [|c rest IH]; intros H i; [reflexivity |].
  assert (Hrest : forall c', In c' rest -> listed c' = true ->
            exists t, from_google_date_to_datetime_ms (latest_updated (cal_id c')) = Return t)
    by (intros c' Hc'; apply H; now right).
  specialize (IH Hrest (S i)).
  cbn [entries_where filter]. unfold age.
  destruct (listed c) eqn:Hl.
  - destruct (H c (or_introl eq_refl) Hl) as [t ->]. cbn [andb].
    set (a := sub (clock i) t).
    unfold append_calendar_to_list. cbn [app List.length].
    destruct (Z.leb_spec a (1 * US_PER_DAY)); destruct (Z.ltb_spec (1 * US_PER_DAY) a);
      destruct (Z.leb_spec a (3 * US_PER_DAY)); destruct (Z.ltb_spec (3 * US_PER_DAY) a);
      cbn [andb app List.length]; revert IH; us_consts; lia.
  - cbn [andb]. destruct (from_google_date_to_datetime_ms _); exact IH.
Qed.

(** It raises when one of them is not. *)
Lemma for_calendar_in_raises (clock : nat -> datetime) (calendars_list : list calendar)
      (c : calendar) (x : exn) :
  In c calendars_list -> listed c = true ->
  from_google_date_to_datetime_ms (latest_updated (cal_id c)) = Raise x ->
  forall (i : nat) (acc : lists),
    for_calendar_in ical embed iframe latest_updated clock i acc calendars_list
    = Raise ValueError.
Proof.
  intros Hin Hl Hx. induction calendars_list as [|c0 rest IH]; intros i acc; [contradiction |].
  cbn [for_calendar_in]. fold (listed c0).
  destruct Hin as [->|Hin].
  - rewrite Hl, Hx. cbn [obind]. now rewrite (from_google_ms_raises _ _ Hx).
  - destruct (listed c0); [| now apply IH].
    destruct (from_google_date_to_datetime_ms (latest_updated (cal_id c0))) as [t|y] eqn:H0;
      cbn [obind]; [now apply IH |].
    now rewrite (from_google_ms_raises _ _ H0).
Qed.

End PageFacts.

Section Millis.
Import Strptime.

Lemma replace_millis_zulu (d : datetime) :
  valid d = true ->
  PyStr.replace "Z" "+0000" (millis_zulu d)
  = format_local (whole_second d) ++ "."
    ++ String (PyStr.digit_char (microsecond d / 100000))
         (PyStr.pad2 (microsecond d / 1000 mod 100))
    ++ "+0000".
Proof.
  intros H. destruct (valid_fields d H) as (_ & _ & _ & _ & _ & _ & Hu & _).
  unfold millis_zulu.
  rewrite replace_append, replace_absent
    by (apply occurs_format_local;
        [now apply valid_whole_second | reflexivity | discriminate ..]).
  f_equal. change ("." ++ ?s) with (String "." s).
  cbn [PyStr.replace Ascii.eqb Bool.eqb]. f_equal.
  unfold PyStr.pad2. cbn [append PyStr.replace].
  rewrite !(digit_char_neq _ "Z") by (div_lia || reflexivity). reflexivity.
Qed.

End Millis.

Section MillisRead.
Import Strptime.

(** The stamps of the calendar, with their three digits of
    milliseconds, are read by the format with [%f]. *)
Lemma from_google_ms_millis (d : datetime) :
  valid d = true -> utcoffset d = 0 -> microsecond d mod 1000 = 0 ->
  from_google_date_to_datetime_ms (millis_zulu d) = Return d.
Proof.
  intros H Hoff Hms. destruct (valid_fields d H) as (_ & _ & _ & _ & _ & _ & Hu & _).
  unfold from_google_date_to_datetime_ms. rewrite (replace_millis_zulu d H).
  unfold StrptimeF.strptime. rewrite match_format_f_local by assumption.
  rewrite lit_append. cbn [obind_opt].
  unfold StrptimeF.re_f, PyStr.pad2. cbn [append].
  rewrite one_digit_char by div_lia.
  cbn [fraction_digits]. rewrite !one_digit_char by div_lia.
  change (one_digit "+0000") with (@None (Z * string)).
  cbn [obind_opt]. change (re_z_end "+0000") with (Some 0). cbn [obind_opt].
  replace (microsecond d / 100000 * 100000
           + (microsecond d / 1000 mod 100 / 10 * (100000 / 10)
              + (microsecond d / 1000 mod 100 mod 10 * (100000 / 10 / 10) + 0)))
    with (microsecond d).
  2:{ change (100000 / 10 / 10) with 1000. change (100000 / 10) with 10000. div_lia. }
  rewrite <- Hoff, datetime_eta. now rewrite H.
Qed.

End MillisRead.

Section ZuluMs.
Import Strptime.

(** A stamp without fraction is refused by the format with [%f]. *)
Lemma from_google_ms_zulu (d : datetime) :
  valid d = true -> from_google_date_to_datetime_ms (zulu d) = Raise ValueError.
Proof.
  intros H. unfold from_google_date_to_datetime_ms, zulu.
  rewrite replace_append, replace_absent
    by (apply occurs_format_local;
        [now apply valid_whole_second | reflexivity | discriminate ..]).
  change (PyStr.replace "Z" "+0000" "Z") with "+0000".
  unfold StrptimeF.strptime. rewrite match_format_f_local by assumption.
  reflexivity.
Qed.

End ZuluMs.

(** X13. Without [--no-limit] the loop of [update_calendars] handles
    eleven tournaments, not ten: its counter is compared with ten before
    it is increased, so the tournament met with the counter at ten is
    still processed. What follows the eleventh tournament changes
    nothing, and the eleventh is processed whenever the first ten
    return. With [--no-limit] a tournament is processed whenever those
    before it return, however many they are. *)
Theorem limit_handles_eleven
  (D E : Z) (service : Service) (calendars_insert : string -> string)
  (calendars_list : list calendar) (clock : nat -> nat -> datetime)
  (before : list (string * list Match)) (name : string) (matches : list Match)
  (rest : list (string * list Match)) :
  List.length before = 10%nat ->
  for_tournament_in D E service calendars_insert calendars_list false clock 0 0
    (before ++ (name, matches) :: rest)
  = for_tournament_in D E service calendars_insert calendars_list false clock 0 0
      (before ++ [(name, matches)])
  /\ (snd (for_tournament_in D E service calendars_insert calendars_list false clock 0 0
             before) = Return tt ->
      In (processing name)
         (fst (for_tournament_in D E service calendars_insert calendars_list false clock 0 0
                 (before ++ (name, matches) :: rest))))
  /\ (forall earlier later,
        snd (for_tournament_in D E service calendars_insert calendars_list true clock 0 0
               earlier) = Return tt ->
        In (processing name)
           (fst (for_tournament_in D E service calendars_insert calendars_list true clock 0 0
                   (earlier ++ (name, matches) :: later)))).
Proof.
  intros Hlen. split; [| split].
  - rewrite (for_tournament_in_limit D E service calendars_insert calendars_list clock
               (before ++ (name, matches) :: rest) 0 0) by lia.
    rewrite (for_tournament_in_limit D E service calendars_insert calendars_list clock
               (before ++ [(name, matches)]) 0 0) by lia.
    f_equal. change (Z.to_nat (11 - 0)) with (10 + 1)%nat. rewrite <- Hlen.
    rewrite !firstn_app_2. reflexivity.
  - intros Hret.
    rewrite (for_tournament_in_app D E service calendars_insert calendars_list clock
               before ((name, matches) :: rest) 0 0) by lia.
    destruct (for_tournament_in D E service calendars_insert calendars_list false clock 0 0
                before) as [l o]. cbn [snd] in Hret. subst o.
    rewrite io_bind_Return. cbn [fst]. apply in_or_app. right.
    apply for_tournament_in_first.
  - intros earlier later Hret.
    rewrite (for_tournament_in_app_no_limit D E service calendars_insert calendars_list clock
               earlier ((name, matches) :: later) 0 0).
    destruct (for_tournament_in D E service calendars_insert calendars_list true clock 0 0
                earlier) as [l o]. cbn [snd] in Hret. subst o.
    rewrite io_bind_Return. cbn [fst]. apply in_or_app. right.
    apply for_tournament_in_first.
Qed.

Lemma limit_handles_eleven_witness :
  In (processing "T10")
     (fst (for_tournament_in 90 10 echo_service (fun n => n) [] false
             (fun _ _ => mkdatetime 2024 5 1 13 0 0 0 0) 0 0
             ([("T0", []); ("T1", []); ("T2", []); ("T3", []); ("T4", []); ("T5", []);
               ("T6", []); ("T7", []); ("T8", []); ("T9", [])]
              ++ ("T10", []) :: [("T11", [])]))).
Proof.
  refine (proj1 (proj2 (limit_handles_eleven 90 10 echo_service (fun n => n) []
                   (fun _ _ => mkdatetime 2024 5 1 13 0 0 0 0)
                   [("T0", []); ("T1", []); ("T2", []); ("T3", []); ("T4", []); ("T5", []);
                    ("T6", []); ("T7", []); ("T8", []); ("T9", [])]
                   "T10" [] [("T11", [])] eq_refl)) _).
  vm_compute. reflexivity.
Defined.

(** X14. A tournament whose name is the title of a listed calendar uses
    that calendar, the last of the list when several have the title:
    nothing is created, and the requests made for the tournament are
    those of its batch, all of them sent to that calendar. *)
Theorem existing_calendar_reused
  (D E : Z) (service : Service) (calendars_insert : string -> string)
  (before after : list calendar) (c : calendar)
  (no_limit : bool) (clock : nat -> nat -> datetime) (id : Z) (k : nat)
  (name : string) (matches : list Match) :
  cal_summary c = name ->
  (forall c', In c' after -> cal_summary c' <> name) ->
  calendar_of calendars_insert (before ++ c :: after) name
  = ([processing name; OnEvents (Print ("Calendar already exists." ++ PyStr.nl))],
     Return (cal_id c))
  /\ filter is_request
       (fst (for_tournament_in D E service calendars_insert (before ++ c :: after)
               no_limit clock id k [(name, matches)]))
     = map OnEvents
         (calls (fst (update_calendar_events D E service (cal_id c) (clock k) matches)))
  /\ forall x,
       In x (fst (update_calendar_events D E service (cal_id c) (clock k) matches)) ->
       is_call x = true -> sent_to x = Some (cal_id c).
Proof.
  intros Hc Hafter.
  pose proof (calendars_get_last before after c name Hc Hafter) as Hget.
  split; [now apply calendar_of_found |]. split.
  - rewrite for_tournament_in_one_requests.
    unfold calendar_for. rewrite Hget.
    rewrite (calendar_of_found calendars_insert _ _ _ Hget). reflexivity.
  - intros x. apply update_calendar_events_to.
Qed.

Lemma existing_calendar_reused_witness :
  calendar_of (fun n => n)
    ([mkcalendar "c1" "Open"] ++ mkcalendar "c2" "Open" :: [mkcalendar "c3" "Other"]) "Open"
  = ([processing "Open"; OnEvents (Print ("Calendar already exists." ++ PyStr.nl))],
     Return "c2").
Proof.
  refine (proj1 (existing_calendar_reused 90 10 echo_service (fun n => n)
                   [mkcalendar "c1" "Open"] [mkcalendar "c3" "Other"]
                   (mkcalendar "c2" "Open") false
                   (fun _ _ => mkdatetime 2024 5 1 13 0 0 0 0) 0 0 "Open" [] eq_refl _)).
  intros c' [<-|[]]. discriminate.
Defined.

(** X15. A tournament with no calendar of its name gets one: the
    calendar is inserted under the name of the tournament and made
    readable by everyone before any event is written, and the requests
    on events that follow all go to the calendar created. *)
Theorem missing_calendar_created
  (D E : Z) (service : Service) (calendars_insert : string -> string)
  (calendars_list : list calendar)
  (no_limit : bool) (clock : nat -> nat -> datetime) (id : Z) (k : nat)
  (name : string) (matches : list Match) :
  (forall c, In c calendars_list -> cal_summary c <> name) ->
  filter is_request
    (fst (for_tournament_in D E service calendars_insert calendars_list
            no_limit clock id k [(name, matches)]))
  = (InsertCalendar name
     :: InsertAcl (calendars_insert name) "reader" "default"
     :: map OnEvents
          (calls (fst (update_calendar_events D E service (calendars_insert name)
                         (clock k) matches))))
  /\ forall x,
       In x (fst (update_calendar_events D E service (calendars_insert name)
                    (clock k) matches)) ->
       is_call x = true -> sent_to x = Some (calendars_insert name).
Proof.
  intros Hnone. pose proof (calendars_get_none calendars_list name Hnone) as Hget. split.
  - rewrite for_tournament_in_one_requests.
    unfold calendar_for. rewrite Hget.
    rewrite (calendar_of_missing calendars_insert _ _ Hget). reflexivity.
  - intros x. apply update_calendar_events_to.
Qed.

Lemma missing_calendar_created_witness :
  filter is_request
    (fst (for_tournament_in 90 10 echo_service (fun n => n) [mkcalendar "c3" "Other"]
            false (fun _ _ => mkdatetime 2024 5 1 13 0 0 0 0) 0 0
            [("Open",
              [mkMatch "A vs B" (mkdatetime 2024 5 1 14 0 0 0 0) "2" false false
                 (fun c => c)])]))
  = (InsertCalendar "Open"
     :: InsertAcl "Open" "reader" "default"
     :: map OnEvents
          (calls (fst (update_calendar_events 90 10 echo_service "Open"
                         (fun _ => mkdatetime 2024 5 1 13 0 0 0 0)
                         [mkMatch "A vs B" (mkdatetime 2024 5 1 14 0 0 0 0) "2" false false
                            (fun c => c)])))).
Proof.
  refine (proj1 (missing_calendar_created 90 10 echo_service (fun n => n)
                   [mkcalendar "c3" "Other"] false
                   (fun _ _ => mkdatetime 2024 5 1 13 0 0 0 0) 0 0 "Open"
                   [mkMatch "A vs B" (mkdatetime 2024 5 1 14 0 0 0 0) "2" false false
                      (fun c => c)] _)).
  intros c [<-|[]]. discriminate.
Defined.

(** X16. An exception in one tournament ends the whole round of
    [update_calendars]: the tournaments after it are not looked at, the
    page is neither written nor uploaded, and the exception leaves
    [update_calendars]. *)
Theorem failed_tournament_stops_round
  (D E : Z) (CALENDAR_URLS_FILENAME : string) (ical embed iframe : string -> string)
  (service : Service) (calendars_insert latest_updated : string -> string)
  (calendars_list : list calendar) (no_limit : bool) (clock : nat -> nat -> datetime)
  (before rest : list (string * list Match)) (x : exn)
  (calendars_after : list calendar) (utcnow : datetime) (page_clock : nat -> datetime)
  (status_code : Z) :
  snd (for_tournament_in D E service calendars_insert calendars_list no_limit clock 0 0
         before) = Raise x ->
  update_calendars D E CALENDAR_URLS_FILENAME ical embed iframe service calendars_insert
    latest_updated calendars_list (before ++ rest) no_limit clock calendars_after utcnow
    page_clock status_code
  = (OnEvents (Print ("Calendars downloaded." ++ PyStr.nl))
     :: OnEvents (Print ("Calendars moved to dictionary." ++ PyStr.nl))
     :: fst (for_tournament_in D E service calendars_insert calendars_list no_limit clock
               0 0 before),
     Raise x)
  /\ forall e,
       In e (fst (update_calendars D E CALENDAR_URLS_FILENAME ical embed iframe service
                    calendars_insert latest_updated calendars_list (before ++ rest)
                    no_limit clock calendars_after utcnow page_clock status_code)) ->
       is_page e = false.
Proof.
  intros Hx.
  assert (Hrun :
    update_calendars D E CALENDAR_URLS_FILENAME ical embed iframe service calendars_insert
      latest_updated calendars_list (before ++ rest) no_limit clock calendars_after utcnow
      page_clock status_code
    = (OnEvents (Print ("Calendars downloaded." ++ PyStr.nl))
       :: OnEvents (Print ("Calendars moved to dictionary." ++ PyStr.nl))
       :: fst (for_tournament_in D E service calendars_insert calendars_list no_limit clock
                 0 0 before),
       Raise x)).
  { unfold update_calendars, io_print. rewrite !io_bind_emit.
    rewrite (for_tournament_in_raises_app D E service calendars_insert calendars_list
               no_limit clock before rest x 0 0 Hx).
    destruct (for_tournament_in D E service calendars_insert calendars_list no_limit clock
                0 0 before) as [l o]. cbn [snd] in Hx. subst o.
    rewrite io_bind_Raise. reflexivity. }
  split; [exact Hrun |].
  rewrite Hrun. cbn [fst]. intros e [<-|[<-|Hin]]; [reflexivity | reflexivity |].
  now apply for_tournament_in_no_page in Hin.
Qed.

Lemma failed_tournament_stops_round_witness :
  update_calendars 90 10 "calendars.md" (fun i => i) (fun i => i) (fun i => i)
    (mkService
           (fun _ => [mkevent "e1" "A vs B" "2024-05-01T14:00:00Z" "2024-05-01T15:30:00Z" "2";
                      mkevent "e2" "A vs B" "2024-05-01T14:00:00Z" "2024-05-01T15:30:00Z" "2"])
           (fun _ _ body => body))
    (fun n => n) (fun _ => "2024-05-01T10:00:00.000Z") []
    ([("Open", [(mkMatch "A vs B" (mkdatetime 2024 5 1 14 0 0 0 0) "2" false false (fun c => c))])] ++ [("Next", [])])
    true (fun _ _ => mkdatetime 2024 5 1 13 0 0 0 0) [] (mkdatetime 2024 5 1 13 0 0 0 0)
    (fun _ => mkdatetime 2024 5 1 13 0 0 0 0) 200
  = (OnEvents (Print ("Calendars downloaded." ++ PyStr.nl))
     :: OnEvents (Print ("Calendars moved to dictionary." ++ PyStr.nl))
     :: fst (for_tournament_in 90 10
          (mkService
           (fun _ => [mkevent "e1" "A vs B" "2024-05-01T14:00:00Z" "2024-05-01T15:30:00Z" "2";
                      mkevent "e2" "A vs B" "2024-05-01T14:00:00Z" "2024-05-01T15:30:00Z" "2"])
           (fun _ _ body => body))
          (fun n => n) [] true (fun _ _ => mkdatetime 2024 5 1 13 0 0 0 0) 0 0
          [("Open", [(mkMatch "A vs B" (mkdatetime 2024 5 1 14 0 0 0 0) "2" false false (fun c => c))])]),
     Raise ValueError).
Proof.
  refine (proj1 (failed_tournament_stops_round 90 10 "calendars.md"
                   (fun i => i) (fun i => i) (fun i => i)
                   (mkService
           (fun _ => [mkevent "e1" "A vs B" "2024-05-01T14:00:00Z" "2024-05-01T15:30:00Z" "2";
                      mkevent "e2" "A vs B" "2024-05-01T14:00:00Z" "2024-05-01T15:30:00Z" "2"])
           (fun _ _ body => body))
                   (fun n => n) (fun _ => "2024-05-01T10:00:00.000Z") [] true
                   (fun _ _ => mkdatetime 2024 5 1 13 0 0 0 0)
                   [("Open", [(mkMatch "A vs B" (mkdatetime 2024 5 1 14 0 0 0 0) "2" false false (fun c => c))])] [("Next", [])] ValueError
                   [] (mkdatetime 2024 5 1 13 0 0 0 0)
                   (fun _ => mkdatetime 2024 5 1 13 0 0 0 0) 200 _)).
  vm_compute. reflexivity.
Defined.

(** X17. When the stamps of the calendars it lists are read,
    [generate_calendar_urls] writes one page to the file and to the
    gist and returns the response. The page lists every calendar whose
    id contains neither [@gmail] nor [#] exactly once, in the order of
    the calendar list: under Archive when its last update is more than
    three days old, under Inactive when it is more than one day and at
    most three days old, under Active otherwise. *)
Theorem page_lists_by_age
  (CALENDAR_URLS_FILENAME : string) (ical embed iframe : string -> string)
  (latest_updated : string -> string) (calendars_list : list calendar)
  (utcnow : datetime) (clock : nat -> datetime) (status_code : Z) :
  (forall c, In c calendars_list -> listed c = true ->
             exists t, from_google_date_to_datetime_ms (latest_updated (cal_id c)) = Return t) ->
  let fresh :=
    entries_where ical embed iframe latest_updated
      (fun a => a <=? 1 * US_PER_DAY) clock 0 calendars_list in
  let idle :=
    entries_where ical embed iframe latest_updated
      (fun a => (1 * US_PER_DAY <? a) && (a <=? 3 * US_PER_DAY)) clock 0 calendars_list in
  let old :=
    entries_where ical embed iframe latest_updated
      (fun a => 3 * US_PER_DAY <? a) clock 0 calendars_list in
  generate_calendar_urls CALENDAR_URLS_FILENAME ical embed iframe latest_updated
    calendars_list utcnow clock status_code
  = ([WriteFile CALENDAR_URLS_FILENAME (page utcnow fresh idle old);
      OnEvents (Print ("Uploading calendar urls to GIST." ++ PyStr.nl));
      PatchGist "Tennis Calendars" "true" CALENDAR_URLS_FILENAME (page utcnow fresh idle old);
      OnEvents (Print (str_Response status_code ++ PyStr.nl))],
     Return status_code)
  /\ (List.length fresh + List.length idle + List.length old
      = List.length (filter listed calendars_list))%nat.
Proof.
  intros Hread fresh idle old. split.
  - destruct (for_calendar_in_returns ical embed iframe latest_updated clock calendars_list
                Hread 0%nat (mklists [] [] [])) as [l Hl].
    destruct (for_calendar_in_lists ical embed iframe latest_updated clock calendars_list
                0%nat (mklists [] [] []) l Hl) as (Ha & Hi & Har).
    cbn [active inactive archive app] in Ha, Hi, Har.
    unfold generate_calendar_urls. rewrite Hl. unfold io_lift. rewrite io_bind_Return.
    cbv zeta. unfold io_print. rewrite !io_bind_emit. cbn [fst snd io_ret app].
    rewrite Ha, Hi, Har. reflexivity.
  - now apply entries_where_partition.
Qed.

Lemma page_lists_by_age_witness :
  generate_calendar_urls "calendars.md" (fun i => "ical/" ++ i) (fun i => "embed/" ++ i)
    (fun i => "iframe/" ++ i) (fun _ => "2024-05-01T10:00:00.000Z")
    [mkcalendar "open@group.calendar.google.com" "Open";
     mkcalendar "me@gmail.com" "Me";
     mkcalendar "en.uk#holiday@group.v.calendar.google.com" "Holidays"]
    (mkdatetime 2024 5 3 10 0 0 0 0) (fun _ => mkdatetime 2024 5 3 10 0 0 0 0) 200
  = ([WriteFile "calendars.md"
        (page (mkdatetime 2024 5 3 10 0 0 0 0) []
           ["### Open" ++ PyStr.nl
            ++ "* ICAL: ical/open@group.calendar.google.com" ++ PyStr.nl
            ++ "* Embed: embed/open@group.calendar.google.com" ++ PyStr.nl
            ++ "* IFRAME: iframe/open@group.calendar.google.com" ++ PyStr.nl
            ++ "<hr/>" ++ PyStr.nl]
           []);
      OnEvents (Print ("Uploading calendar urls to GIST." ++ PyStr.nl));
      PatchGist "Tennis Calendars" "true" "calendars.md"
        (page (mkdatetime 2024 5 3 10 0 0 0 0) []
           ["### Open" ++ PyStr.nl
            ++ "* ICAL: ical/open@group.calendar.google.com" ++ PyStr.nl
            ++ "* Embed: embed/open@group.calendar.google.com" ++ PyStr.nl
            ++ "* IFRAME: iframe/open@group.calendar.google.com" ++ PyStr.nl
            ++ "<hr/>" ++ PyStr.nl]
           []);
      OnEvents (Print (str_Response 200 ++ PyStr.nl))],
     Return 200).
Proof.
  refine (proj1 (page_lists_by_age "calendars.md" (fun i => "ical/" ++ i) (fun i => "embed/" ++ i)
            (fun i => "iframe/" ++ i) (fun _ => "2024-05-01T10:00:00.000Z")
            [mkcalendar "open@group.calendar.google.com" "Open";
     mkcalendar "me@gmail.com" "Me";
     mkcalendar "en.uk#holiday@group.v.calendar.google.com" "Holidays"]
            (mkdatetime 2024 5 3 10 0 0 0 0) (fun _ => mkdatetime 2024 5 3 10 0 0 0 0) 200 _)).
  intros c _ _. exists (mkdatetime 2024 5 1 10 0 0 0 0). vm_compute. reflexivity.
Defined.

(** X18. One stamp that is not read is enough for no page at all: when
    the [updated] of a calendar that would be listed is refused by
    [from_google_date_to_datetime_ms], [generate_calendar_urls] raises
    ValueError before the file is written or the gist patched, whatever
    the other calendars are. *)
Theorem unreadable_stamp_no_page
  (CALENDAR_URLS_FILENAME : string) (ical embed iframe : string -> string)
  (latest_updated : string -> string) (calendars_list : list calendar)
  (utcnow : datetime) (clock : nat -> datetime) (status_code : Z)
  (c : calendar) (x : exn) :
  In c calendars_list -> listed c = true ->
  from_google_date_to_datetime_ms (latest_updated (cal_id c)) = Raise x ->
  generate_calendar_urls CALENDAR_URLS_FILENAME ical embed iframe latest_updated
    calendars_list utcnow clock status_code
  = ([], Raise ValueError).
Proof.
  intros Hin Hl Hx. unfold generate_calendar_urls.
  rewrite (for_calendar_in_raises ical embed iframe latest_updated clock calendars_list c x
             Hin Hl Hx).
  reflexivity.
Qed.

Lemma unreadable_stamp_no_page_witness :
  generate_calendar_urls "calendars.md" (fun i => i) (fun i => i) (fun i => i)
    (fun _ => "2024-05-01T10:00:00Z")
    [mkcalendar "open@group.calendar.google.com" "Open"]
    (mkdatetime 2024 5 3 10 0 0 0 0) (fun _ => mkdatetime 2024 5 3 10 0 0 0 0) 200
  = ([], Raise ValueError).
Proof.
  refine (unreadable_stamp_no_page "calendars.md" (fun i => i) (fun i => i) (fun i => i)
            (fun _ => "2024-05-01T10:00:00Z")
            [mkcalendar "open@group.calendar.google.com" "Open"]
            (mkdatetime 2024 5 3 10 0 0 0 0) (fun _ => mkdatetime 2024 5 3 10 0 0 0 0) 200
            (mkcalendar "open@group.calendar.google.com" "Open") ValueError
            (or_introl eq_refl) _ _); vm_compute; reflexivity.
Defined.

(** X19. The two readers on the spellings of the calendar. A stamp with
    three digits of milliseconds closed by [Z] is read by
    [from_google_date_to_datetime_ms] as that instant of UTC and refused
    by [from_google_date_to_datetime]; a time to the second closed by
    [Z] is read by [from_google_date_to_datetime] and refused by
    [from_google_date_to_datetime_ms]. *)
Theorem readers_divide_calendar_spellings (d : datetime) :
  valid d = true -> utcoffset d = 0 -> microsecond d mod 1000 = 0 ->
  from_google_date_to_datetime_ms (millis_zulu d) = Return d
  /\ from_google_date_to_datetime (millis_zulu d) = Raise ValueError
  /\ from_google_date_to_datetime (zulu d) = Return (whole_second d)
  /\ from_google_date_to_datetime_ms (zulu d) = Raise ValueError.
Proof.
  intros H Hoff Hms. repeat split.
  - now apply from_google_ms_millis.
  - unfold millis_zulu. now apply from_google_fraction.
  - now apply from_google_zulu.
  - now apply from_google_ms_zulu.
Qed.

Lemma readers_divide_calendar_spellings_witness :
  from_google_date_to_datetime_ms "2024-05-01T10:00:00.250Z"
  = Return (mkdatetime 2024 5 1 10 0 0 250000 0)
  /\ from_google_date_to_datetime "2024-05-01T10:00:00.250Z" = Raise ValueError
  /\ from_google_date_to_datetime "2024-05-01T10:00:00Z"
     = Return (mkdatetime 2024 5 1 10 0 0 0 0)
  /\ from_google_date_to_datetime_ms "2024-05-01T10:00:00Z" = Raise ValueError.
Proof.
  exact (readers_divide_calendar_spellings (mkdatetime 2024 5 1 10 0 0 250000 0)
           eq_refl eq_refl eq_refl).
Defined.

(* ================================================================== *)
(** * What a date text stands for *)

Section Readings.
Import Strptime.

(** A valid datetime is the only one that prints as its [isoformat]:
    one of the two readers gives it back. *)
Lemma isoformat_inj (a b : datetime) :
  valid a = true -> valid b = true -> isoformat a = isoformat b -> a = b.
Proof.
  intros Ha Hb H.
  destruct (Z.eq_dec (microsecond a) 0) as [Za|Za];
    destruct (Z.eq_dec (microsecond b) 0) as [Zb|Zb].
  - pose proof (from_google_isoformat a Ha Za) as Ra.
    rewrite H, (from_google_isoformat b Hb Zb) in Ra. congruence.
  - pose proof (from_google_isoformat a Ha Za) as Ra.
    rewrite H, (from_google_isoformat_microseconds b Hb Zb) in Ra. discriminate.
  - pose proof (from_google_isoformat b Hb Zb) as Rb.
    rewrite <- H, (from_google_isoformat_microseconds a Ha Za) in Rb. discriminate.
  - pose proof (from_google_ms_isoformat a Ha Za) as Ra.
    rewrite H, (from_google_ms_isoformat b Hb Zb) in Ra. congruence.
Qed.

(** The offset opens with its sign, and has no [+] after it. *)
Lemma format_offset_sign (off : Z) :
  - US_PER_DAY < off < US_PER_DAY ->
  exists b,
    format_offset off = String (if off <? 0 then "-"%char else "+"%char) b
    /\ PyStr.occurs "+" b = false.
Proof.
  intros H.
  exists (PyStr.pad2 (Z.abs off / US_PER_HOUR) ++ ":"
          ++ PyStr.pad2 (Z.abs off mod US_PER_HOUR / US_PER_MINUTE)
          ++ (if Z.abs off mod US_PER_MINUTE =? 0 then ""
              else ":" ++ PyStr.pad2 (Z.abs off mod US_PER_MINUTE / US_PER_SECOND)
                   ++ (if Z.abs off mod US_PER_MINUTE mod US_PER_SECOND =? 0 then ""
                       else "." ++ PyStr.pad6 (Z.abs off mod US_PER_MINUTE mod US_PER_SECOND)))).
  split.
  - unfold format_offset. cbv zeta. now destruct (off <? 0).
  - us_consts. set (a := Z.abs off).
    assert (Ha : 0 <= a < 86400000000) by (subst a; lia). clearbody a.
    rewrite !occurs_append. cbn [PyStr.occurs Ascii.eqb Bool.eqb orb].
    rewrite !occurs_pad2 by (reflexivity || div_lia). cbn [orb].
    destruct (_ =? 0); [reflexivity |].
    rewrite !occurs_append. cbn [PyStr.occurs Ascii.eqb Bool.eqb orb].
    rewrite occurs_pad2 by (reflexivity || div_lia). cbn [orb].
    destruct (_ =? 0); [reflexivity |].
    rewrite occurs_append. cbn [PyStr.occurs Ascii.eqb Bool.eqb orb].
    rewrite occurs_pad6 by (reflexivity || div_lia). reflexivity.
Qed.

Lemma occurs_take (c : ascii) (s : string) :
  PyStr.occurs c s = false -> forall n, PyStr.occurs c (PyStr.take n s) = false.
Proof.
  induction s as [|x s IH]; intros H n.
  - now destruct n.
  - destruct n as [|n]; [reflexivity |]. cbn [PyStr.take PyStr.occurs] in *.
    apply orb_false_iff in H as [Hx Hs]. rewrite Hx. cbn [orb]. now apply IH.
Qed.

Lemma occurs_slice_to (c : ascii) (s : string) (k : Z) :
  PyStr.occurs c s = false -> PyStr.occurs c (PyStr.slice_to s k) = false.
Proof.
  intros H. unfold PyStr.slice_to. destruct (k <? 0); now apply occurs_take.
Qed.

(** What the comparison keeps of a new date has no [+]: the date is cut
    at the sign of its offset, or has no [+] at all. *)
Lemma isoformat_cut_no_plus (n : datetime) :
  valid n = true ->
  PyStr.occurs "+" (PyStr.slice_to (isoformat n) (PyStr.rfind (isoformat n) "+")) = false.
Proof.
  intros H. destruct (valid_fields n H) as (_ & _ & _ & _ & _ & _ & _ & Ho).
  assert (Hl : PyStr.occurs "+" (format_local n) = false)
    by (apply occurs_format_local; [assumption | reflexivity | discriminate ..]).
  destruct (format_offset_sign (utcoffset n) Ho) as (b & Hb & Hnb).
  unfold isoformat. rewrite Hb. destruct (utcoffset n <? 0).
  - apply occurs_slice_to. rewrite occurs_append, Hl. cbn [PyStr.occurs Ascii.eqb Bool.eqb orb].
    exact Hnb.
  - now rewrite slice_to_rfind.
Qed.

(** A stored date spelled with [+00:00] keeps its [+] when it loses its
    last character. *)
Lemma plus_spelling_kept (d : datetime) :
  utcoffset d = 0 ->
  PyStr.slice_to (isoformat d) (-1) = format_local d ++ "+00:0".
Proof.
  intros Ho. rewrite (isoformat_utc d Ho).
  change (format_local d ++ "+00:00") with (format_local d ++ ("+00:0" ++ String "0" "")).
  rewrite <- append_assoc. apply slice_to_drop_last.
Qed.

Lemma plus_spelling_differs (d n : datetime) :
  utcoffset d = 0 -> valid n = true ->
  String.eqb (PyStr.slice_to (isoformat d) (-1))
             (PyStr.slice_to (isoformat n) (PyStr.rfind (isoformat n) "+")) = false.
Proof.
  intros Ho Hn. apply String.eqb_neq. intros Heq.
  pose proof (isoformat_cut_no_plus n Hn) as Hcut. rewrite <- Heq in Hcut.
  rewrite (plus_spelling_kept d Ho), occurs_append in Hcut.
  cbn [PyStr.occurs Ascii.eqb Bool.eqb orb] in Hcut.
  rewrite orb_true_r in Hcut. discriminate.
Qed.

(** A new date with microseconds is different from every stored text
    that [from_google_date_to_datetime] reads. *)
Lemma microseconds_differ_text (old : string) (e r : datetime) :
  from_google_date_to_datetime old = Return e ->
  valid r = true -> utcoffset r = 0 -> microsecond r <> 0 ->
  String.eqb (PyStr.slice_to old (-1))
             (PyStr.slice_to (isoformat r) (PyStr.rfind (isoformat r) "+")) = false.
Proof.
  intros He Hv Ho Hus.
  rewrite (isoformat_utc r Ho).
  change (format_local r ++ "+00:00") with (format_local r ++ String "+" "00:00").
  rewrite slice_to_rfind by reflexivity.
  apply String.eqb_neq. intros Heq.
  destruct (string_dec old "") as [Hempty|Hne].
  - rewrite Hempty in He. vm_compute in He. discriminate.
  - destruct (slice_to_last _ Hne) as [c Hc]. rewrite Heq in Hc.
    rewrite Hc, format_local_split in He.
    apply Z.eqb_neq in Hus. rewrite Hus in He.
    rewrite !append_assoc in He.
    rewrite from_google_fraction in He by assumption. discriminate.
Qed.

End Readings.

(** * The end that is sent, as a datetime *)

Section SentEnd.

Variables D E : Z.
Variable service : Service.
Variable calendar_id : string.

(** The end [create_event] inserts is the [isoformat] of a valid
    datetime: the sum the code computed. *)
Lemma create_event_sent_valid (m : Match) (now : datetime) (l : list effect)
      (o : outcome unit) (c : string) (body : new_event) :
  valid (time_start m) = true -> valid now = true ->
  create_event D E calendar_id m now = (l, o) -> In (Insert c body) l ->
  exists e,
    valid e = true
    /\ new_start_dateTime body = isoformat (time_start m)
    /\ new_end_dateTime body = isoformat e
    /\ utc_micros e
       = computeEndTime (minutes D) (minutes E) (utc_micros (time_start m))
           (is_still_going m) None (utc_micros now).
Proof.
  intros Hvs Hvn. unfold create_event.
  destruct (timedelta_minutes D) as [td|x] eqn:Htd;
    [rewrite bind_lift_Return | rewrite bind_lift_Raise; intros [= <- _] []].
  destruct (add (time_start m) td) as [baseline|x] eqn:Hb;
    [rewrite bind_lift_Return | rewrite bind_lift_Raise; intros [= <- _] []].
  pose proof (add_valid _ _ _ Hvs Hb) as Hvb.
  apply timedelta_minutes_spec in Htd. apply add_utc in Hb.
  assert (Hbase : utc_micros baseline = utc_micros (time_start m) + minutes D).
  { unfold minutes. change US_PER_MINUTE with 60000000. lia. }
  unfold computeEndTime. rewrite <- Hbase, <- lt_utc.
  unfold print, print_end.
  destruct (is_still_going m && lt baseline now).
  - destruct (timedelta_minutes E) as [td'|x] eqn:Htd';
      [rewrite bind_lift_Return | rewrite bind_lift_Raise; intros [= <- _] []].
    destruct (add now td') as [ext|x] eqn:He;
      [rewrite bind_lift_Return | rewrite bind_lift_Raise; intros [= <- _] []].
    pose proof (add_valid _ _ _ Hvn He) as Hve.
    rewrite !bind_emit. cbn [fst snd]. intros [= <- _] [Hin|[Hin|[]]]; [| discriminate].
    injection Hin as _ <-. exists ext. cbn [new_start_dateTime new_end_dateTime].
    repeat split; [assumption |].
    apply timedelta_minutes_spec in Htd'. apply add_utc in He.
    unfold minutes. change US_PER_MINUTE with 60000000. lia.
  - rewrite bind_ret, !bind_emit. cbn [fst snd].
    intros [= <- _] [Hin|[Hin|[]]]; [| discriminate].
    injection Hin as _ <-. exists baseline. repeat split. assumption.
Qed.

(** The end [update_event] computes is a valid datetime: the end read,
    or one of the two sums. *)
Lemma update_event_end_valid (m : Match) (e now r : datetime) (l : list effect) :
  valid (time_start m) = true -> valid now = true -> valid e = true ->
  update_event_end D E m e now = (l, Return r) -> valid r = true.
Proof.
  intros Hvs Hvn Hve Hend.
  destruct (update_event_end_cases D E m e now r l Hend)
    as (td & baseline & _ & Hb & _ & Hc).
  pose proof (add_valid _ _ _ Hvs Hb) as Hvb.
  cbv zeta in Hc. destruct Hc as [[_ (td' & _ & Hr)]|[_ ->]].
  - exact (add_valid _ _ _ Hvn Hr).
  - now destruct (lt e baseline).
Qed.

(** The update [update_event] sends carries the end it computed. *)
Lemma update_event_sent_valid (m : Match) (ev : event) (now : datetime) (l : list effect)
      (o : outcome event) (c i : string) (body : event) :
  valid (time_start m) = true -> valid now = true ->
  update_event D E service calendar_id m ev now = (l, o) -> In (Update c i body) l ->
  exists e0 e l1,
    from_google_date_to_datetime (end_dateTime ev) = Return e0
    /\ update_event_end D E m e0 now = (l1, Return e)
    /\ valid e = true
    /\ body = updated m ev e.
Proof.
  intros Hvs Hvn.
  destruct (from_google_date_to_datetime (end_dateTime ev)) as [e0|x] eqn:He0.
  2:{ unfold update_event. rewrite He0, bind_lift_Raise. intros [= <- _] []. }
  destruct (update_event_end D E m e0 now) as [l1 [r|x]] eqn:Hend.
  2:{ unfold update_event. rewrite He0, bind_lift_Return, Hend.
      cbn [bind]. intros [= <- _] Hin. exfalso. revert Hin. apply not_in_prints; [| reflexivity].
      pose proof (update_event_end_prints D E m e0 now) as Hp. now rewrite Hend in Hp. }
  destruct (update_event_run D E service calendar_id m ev now e0 r l1 He0 Hend)
    as (tail & res & -> & Htail & _).
  pose proof (update_event_end_prints D E m e0 now) as Hl1. rewrite Hend in Hl1.
  cbn [fst] in Hl1.
  destruct (from_google_whole _ _ He0) as [_ Hve0].
  pose proof (update_event_end_valid m e0 now r l1 Hvs Hvn Hve0 Hend) as Hvr.
  destruct (changed m ev r).
  - intros [= <- _] Hin. apply in_app_or in Hin as [Hin|[Hin|Hin]].
    + exfalso. revert Hin. now apply not_in_prints.
    + injection Hin as _ _ <-. now exists e0, r, l1.
    + exfalso. revert Hin. now apply not_in_prints.
  - intros [= <- _] Hin. apply in_app_or in Hin as [Hin|[Hin|[]]].
    + exfalso. revert Hin. now apply not_in_prints.
    + discriminate.
Qed.

End SentEnd.

(** ** Creation *)

(** C2. Without an existing event, the event inserted starts at the
    scheduled start of the match, has the colour of the match, and ends
    at start + default duration, or at now + extension when the match is
    still going and that baseline is before now: the text of the end is
    the [isoformat] of the sum the code computed, nothing else. A match
    of 14:00 that is not going, with a default duration of 90 minutes,
    ends at 15:30. *)
Theorem create_event_fields
  (D E : Z) (cal : string) (m : Match) (now baseline extended : datetime) (td td' : Z) :
  timedelta_minutes D = Return td -> add (time_start m) td = Return baseline ->
  timedelta_minutes E = Return td' -> add now td' = Return extended ->
  let end_ := if is_still_going m && lt baseline now then extended else baseline in
  create_event D E cal m now
  = ([Insert cal {| new_summary := name m;
                    new_start_dateTime := isoformat (time_start m);
                    new_end_dateTime := isoformat end_;
                    maxAttendees := "100";
                    guestsCanInviteOthers := "true";
                    guestsCanSeeOtherGuests := "true";
                    anyoneCanAddSelf := "true";
                    new_colorId := color m |};
      Print ("Created event." ++ PyStr.nl)], Return tt)
  /\ utc_micros baseline = utc_micros (time_start m) + minutes D
  /\ utc_micros extended = utc_micros now + minutes E
  /\ utc_micros end_
     = computeEndTime (minutes D) (minutes E) (utc_micros (time_start m))
         (is_still_going m) None (utc_micros now)
  /\ (valid (time_start m) = true -> valid now = true -> valid end_ = true)
  /\ (D = 90 -> time_start m = mkdatetime 2024 5 1 14 0 0 0 0 -> is_still_going m = false ->
      create_event D E cal m now
      = ([Insert cal {| new_summary := name m;
                        new_start_dateTime := "2024-05-01T14:00:00+00:00";
                        new_end_dateTime := "2024-05-01T15:30:00+00:00";
                        maxAttendees := "100";
                        guestsCanInviteOthers := "true";
                        guestsCanSeeOtherGuests := "true";
                        anyoneCanAddSelf := "true";
                        new_colorId := color m |};
          Print ("Created event." ++ PyStr.nl)], Return tt)).
Proof.
  intros Htd Hb Htd' He end_.
  pose proof (add_utc _ _ _ Hb) as Ub. pose proof (add_utc _ _ _ He) as Ue.
  pose proof (timedelta_minutes_spec _ _ Htd) as Etd.
  pose proof (timedelta_minutes_spec _ _ Htd') as Etd'.
  assert (Hbase : utc_micros baseline = utc_micros (time_start m) + minutes D)
    by (unfold minutes; change US_PER_MINUTE with 60000000; lia).
  assert (Hext : utc_micros extended = utc_micros now + minutes E)
    by (unfold minutes; change US_PER_MINUTE with 60000000; lia).
  split; [| split; [exact Hbase | split; [exact Hext | split; [| split]]]].
  - unfold create_event. rewrite Htd, bind_lift_Return, Hb, bind_lift_Return.
    subst end_. destruct (is_still_going m && lt baseline now).
    + rewrite Htd', bind_lift_Return, He, bind_lift_Return. reflexivity.
    + rewrite bind_ret. reflexivity.
  - subst end_. unfold computeEndTime. rewrite <- Hbase, <- lt_utc.
    destruct (is_still_going m && lt baseline now); [exact Hext | reflexivity].
  - intros Hvs Hvn. subst end_.
    destruct (is_still_going m && lt baseline now);
      [exact (add_valid _ _ _ Hvn He) | exact (add_valid _ _ _ Hvs Hb)].
  - intros -> Hs Hl. unfold create_event. rewrite Hs, Hl. reflexivity.
Qed.

Lemma create_event_fields_witness :
  create_event 90 20 "cal"
    (mkMatch "A vs B" (mkdatetime 2024 5 1 14 0 0 0 0) "2" true false (fun c => c))
    (mkdatetime 2024 5 1 15 40 0 0 0)
  = ([Insert "cal" {| new_summary := "A vs B";
                      new_start_dateTime := "2024-05-01T14:00:00+00:00";
                      new_end_dateTime := "2024-05-01T16:00:00+00:00";
                      maxAttendees := "100";
                      guestsCanInviteOthers := "true";
                      guestsCanSeeOtherGuests := "true";
                      anyoneCanAddSelf := "true";
                      new_colorId := "2" |};
      Print ("Created event." ++ PyStr.nl)], Return tt).
Proof.
  exact (proj1 (create_event_fields 90 20 "cal"
                  (mkMatch "A vs B" (mkdatetime 2024 5 1 14 0 0 0 0) "2" true false
                     (fun c => c))
                  (mkdatetime 2024 5 1 15 40 0 0 0)
                  (mkdatetime 2024 5 1 15 30 0 0 0) (mkdatetime 2024 5 1 16 0 0 0 0)
                  5400000000 1200000000 eq_refl eq_refl eq_refl eq_refl)).
Defined.

(** C8. With non-negative durations, whatever is sent to the calendar
    ends at or after its start. The event [create_event] inserts and the
    one [update_event] sends start at the start of the match, and their
    end is the [isoformat] of a valid datetime, the only one that prints
    so, which is at or after the start of the match. The event
    [update_finished_event] sends keeps the start of the existing event
    and either ends at now, after that start, or keeps the end of the
    existing event, which is then not before the start if it was not
    before. *)
Theorem end_not_before_start (D E : Z) (service : Service) (cal : string) :
  0 <= D -> 0 <= E ->
  (forall m now l o c body,
      valid (time_start m) = true -> valid now = true ->
      create_event D E cal m now = (l, o) -> In (Insert c body) l ->
      new_start_dateTime body = isoformat (time_start m)
      /\ (exists e, valid e = true /\ new_end_dateTime body = isoformat e)
      /\ (forall e, valid e = true -> new_end_dateTime body = isoformat e ->
                    utc_micros (time_start m) <= utc_micros e))
  /\ (forall m ev now l o c i body,
        valid (time_start m) = true -> valid now = true ->
        update_event D E service cal m ev now = (l, o) -> In (Update c i body) l ->
        start_dateTime body = isoformat (time_start m)
        /\ (exists e, valid e = true /\ end_dateTime body = isoformat e)
        /\ (forall e, valid e = true -> end_dateTime body = isoformat e ->
                      utc_micros (time_start m) <= utc_micros e))
  /\ (forall m ev now l o c i body s0 e0,
        from_google_date_to_datetime (start_dateTime ev) = Return s0 ->
        from_google_date_to_datetime (end_dateTime ev) = Return e0 ->
        utc_micros s0 <= utc_micros e0 ->
        update_finished_event service cal m ev now = (l, o) -> In (Update c i body) l ->
        from_google_date_to_datetime (start_dateTime body) = Return s0
        /\ (end_dateTime body = isoformat now /\ utc_micros s0 <= utc_micros now
            \/ from_google_date_to_datetime (end_dateTime body) = Return e0)).
Proof.
  intros HD HE. apply minutes_nonneg in HD, HE. split; [| split].
  - intros m now l o c body Hvs Hvn Hrun Hin.
    destruct (create_event_sent_valid D E cal m now l o c body Hvs Hvn Hrun Hin)
      as (e & Hve & Hs & He & Hu).
    split; [exact Hs |]. split; [now exists e |].
    intros e' Hve' He'. rewrite He in He'.
    rewrite <- (isoformat_inj e e' Hve Hve' He').
    rewrite Hu. now apply computeEndTime_ge_start.
  - intros m ev now l o c i body Hvs Hvn Hrun Hin.
    destruct (update_event_sent_valid D E service cal m ev now l o c i body Hvs Hvn Hrun Hin)
      as (e0 & e & l1 & _ & Hend & Hve & ->).
    split; [reflexivity |]. split; [now exists e |].
    cbn [updated end_dateTime]. intros e' Hve' He'.
    rewrite <- (isoformat_inj e e' Hve Hve' He').
    rewrite (update_event_end_instant D E m e0 now e l1 Hend).
    now apply computeEndTime_ge_start.
  - intros m ev now l o c i body s0 e0 Hs He Hle Hrun Hin.
    destruct (update_finished_event_sent service cal m ev now l o c i body Hrun Hin)
      as (s & e & Hs' & He' & Hsb & _ & Hend).
    rewrite Hs in Hs'. rewrite He in He'. injection Hs' as <-. injection He' as <-.
    rewrite Hsb. split; [assumption |].
    destruct Hend as [[Hn Hlt]|Hsame].
    + left. split; [assumption | lia].
    + right. now rewrite Hsame.
Qed.

Lemma end_not_before_start_witness :
  "2024-05-01T14:00:00+00:00" = isoformat (mkdatetime 2024 5 1 14 0 0 0 0)
  /\ (exists e, valid e = true /\ "2024-05-01T15:30:00+00:00" = isoformat e)
  /\ (forall e, valid e = true -> "2024-05-01T15:30:00+00:00" = isoformat e ->
                utc_micros (mkdatetime 2024 5 1 14 0 0 0 0) <= utc_micros e).
Proof.
  refine (proj1 (end_not_before_start 90 20 echo_service "cal" ltac:(lia) ltac:(lia))
            (mkMatch "A vs B" (mkdatetime 2024 5 1 14 0 0 0 0) "2" false false
               (fun c => c))
            (mkdatetime 2024 5 1 13 0 0 0 0)
            [Insert "cal"
               (mknew_event "A vs B" "2024-05-01T14:00:00+00:00"
                  "2024-05-01T15:30:00+00:00" "100" "true" "true" "true" "2");
             Print ("Created event." ++ PyStr.nl)]
            (Return tt) "cal"
            (mknew_event "A vs B" "2024-05-01T14:00:00+00:00" "2024-05-01T15:30:00+00:00"
               "100" "true" "true" "true" "2")
            eq_refl eq_refl _ (or_introl eq_refl)).
  vm_compute. reflexivity.
Defined.

(** X1. For a match that is still going and a non-negative extension,
    the end [create_event] inserts and the end [update_event] sends are
    not before now: the end is the [isoformat] of a valid datetime, the
    only one that prints so, which is at or after now. *)
Theorem live_end_not_before_now (D E : Z) (service : Service) (cal : string) (m : Match) :
  0 <= E -> is_still_going m = true -> valid (time_start m) = true ->
  (forall now l o c body,
      valid now = true ->
      create_event D E cal m now = (l, o) -> In (Insert c body) l ->
      (exists e, valid e = true /\ new_end_dateTime body = isoformat e)
      /\ (forall e, valid e = true -> new_end_dateTime body = isoformat e ->
                    utc_micros now <= utc_micros e))
  /\ (forall ev now l o c i body,
        valid now = true ->
        update_event D E service cal m ev now = (l, o) -> In (Update c i body) l ->
        (exists e, valid e = true /\ end_dateTime body = isoformat e)
        /\ (forall e, valid e = true -> end_dateTime body = isoformat e ->
                      utc_micros now <= utc_micros e)).
Proof.
  intros HE Hlive Hvs. apply minutes_nonneg in HE. split.
  - intros now l o c body Hvn Hrun Hin.
    destruct (create_event_sent_valid D E cal m now l o c body Hvs Hvn Hrun Hin)
      as (e & Hve & _ & He & Hu).
    split; [now exists e |].
    intros e' Hve' He'. rewrite He in He'.
    rewrite <- (isoformat_inj e e' Hve Hve' He').
    rewrite Hu, Hlive. now apply computeEndTime_live_ge_now.
  - intros ev now l o c i body Hvn Hrun Hin.
    destruct (update_event_sent_valid D E service cal m ev now l o c i body Hvs Hvn Hrun Hin)
      as (e0 & e & l1 & _ & Hend & Hve & ->).
    split; [now exists e |].
    cbn [updated end_dateTime]. intros e' Hve' He'.
    rewrite <- (isoformat_inj e e' Hve Hve' He').
    rewrite (update_event_end_instant D E m e0 now e l1 Hend), Hlive.
    now apply computeEndTime_live_ge_now.
Qed.

Lemma live_end_not_before_now_witness :
  (exists e, valid e = true /\ "2024-05-01T16:00:00+00:00" = isoformat e)
  /\ (forall e, valid e = true -> "2024-05-01T16:00:00+00:00" = isoformat e ->
                utc_micros (mkdatetime 2024 5 1 15 40 0 0 0) <= utc_micros e).
Proof.
  refine (proj1 (live_end_not_before_now 90 20 echo_service "cal"
                   (mkMatch "A vs B" (mkdatetime 2024 5 1 14 0 0 0 0) "2" true false
                      (fun c => c))
                   ltac:(lia) eq_refl eq_refl)
            (mkdatetime 2024 5 1 15 40 0 0 0)
            [Insert "cal"
               (mknew_event "A vs B" "2024-05-01T14:00:00+00:00"
                  "2024-05-01T16:00:00+00:00" "100" "true" "true" "true" "2");
             Print ("Created event." ++ PyStr.nl)]
            (Return tt) "cal"
            (mknew_event "A vs B" "2024-05-01T14:00:00+00:00" "2024-05-01T16:00:00+00:00"
               "100" "true" "true" "true" "2")
            eq_refl _ (or_introl eq_refl)).
  vm_compute. reflexivity.
Defined.

(** * The comparison of dates, in general *)

(** C4, as the code has it. The comparison is one of texts: the stored
    date loses its last character, the new one its last [+] and what
    follows. A stored date spelled with [Z] and a new UTC date that print
    the same date and time are judged equal (and the stored one reads
    back as the same instant); so are "2024-05-01T10:00:00Z" and
    "2024-05-01T10:00:00+00:00". A stored date spelled with [+00:00] is
    judged different from every date the code computes, the one of its
    own instant among them; and a new UTC date with microseconds is
    judged different from every stored date to the second spelled with
    [Z], the one of its own second among them. *)
Theorem zulu_not_different (d : datetime) (ev : event) :
  valid d = true -> utcoffset d = 0 ->
  from_google_date_to_datetime (zulu d) = Return (whole_second d)
  /\ (start_dateTime ev = zulu d ->
      different_start_times ev (isoformat (whole_second d)) = false)
  /\ (end_dateTime ev = zulu d ->
      different_end_times ev (isoformat (whole_second d)) = false)
  /\ (start_dateTime ev = "2024-05-01T10:00:00Z" ->
      different_start_times ev "2024-05-01T10:00:00+00:00" = false)
  /\ (end_dateTime ev = "2024-05-01T10:00:00Z" ->
      different_end_times ev "2024-05-01T10:00:00+00:00" = false)
  /\ (forall n, valid n = true ->
        (start_dateTime ev = isoformat d -> different_start_times ev (isoformat n) = true)
        /\ (end_dateTime ev = isoformat d -> different_end_times ev (isoformat n) = true))
  /\ (forall n, valid n = true -> utcoffset n = 0 -> microsecond n <> 0 ->
        (start_dateTime ev = zulu d -> different_start_times ev (isoformat n) = true)
        /\ (end_dateTime ev = zulu d -> different_end_times ev (isoformat n) = true))
  /\ (forall new,
        different_start_times ev new
        = negb (String.eqb (PyStr.slice_to (start_dateTime ev) (-1))
                           (PyStr.slice_to new (PyStr.rfind new "+")))
        /\ different_end_times ev new
           = negb (String.eqb (PyStr.slice_to (end_dateTime ev) (-1))
                              (PyStr.slice_to new (PyStr.rfind new "+")))).
Proof.
  intros Hv Hoff. split; [now apply from_google_zulu |].
  assert (Hiso : isoformat (whole_second d) = format_local (whole_second d) ++ "+00:00")
    by now apply isoformat_utc.
  split; [| split; [| split; [| split; [| split; [| split]]]]].
  - intros H. unfold different_start_times. rewrite H, Hiso. unfold zulu.
    now rewrite same_text_not_different.
  - intros H. unfold different_end_times. rewrite H, Hiso. unfold zulu.
    now rewrite same_text_not_different.
  - intros H. unfold different_start_times. rewrite H. reflexivity.
  - intros H. unfold different_end_times. rewrite H. reflexivity.
  - intros n Hn. split; intros H.
    + unfold different_start_times. rewrite H.
      now rewrite (plus_spelling_differs d n Hoff Hn).
    + unfold different_end_times. rewrite H.
      now rewrite (plus_spelling_differs d n Hoff Hn).
  - intros n Hn Hon Hus. pose proof (from_google_zulu d Hv Hoff) as Hread. split; intros H.
    + unfold different_start_times. rewrite H.
      now rewrite (microseconds_differ_text (zulu d) (whole_second d) n Hread Hn Hon Hus).
    + unfold different_end_times. rewrite H.
      now rewrite (microseconds_differ_text (zulu d) (whole_second d) n Hread Hn Hon Hus).
  - intros new. split; reflexivity.
Qed.

Lemma zulu_not_different_witness :
  different_end_times
    (mkevent "e1" "A vs B" "2024-05-01T14:00:00Z" "2024-05-01T15:30:00Z" "2")
    (isoformat (whole_second (mkdatetime 2024 5 1 15 30 0 0 0))) = false
  /\ different_end_times
       (mkevent "e1" "A vs B" "2024-05-01T14:00:00Z" "2024-05-01T15:30:00Z" "2")
       (isoformat (mkdatetime 2024 5 1 15 30 0 250000 0)) = true.
Proof.
  destruct (zulu_not_different (mkdatetime 2024 5 1 15 30 0 0 0)
              (mkevent "e1" "A vs B" "2024-05-01T14:00:00Z" "2024-05-01T15:30:00Z" "2")
              eq_refl eq_refl) as (_ & _ & H & _ & _ & _ & G & _).
  split; [exact (H eq_refl) |].
  refine (proj2 (G (mkdatetime 2024 5 1 15 30 0 250000 0) eq_refl eq_refl _) eq_refl).
  discriminate.
Defined.

(** * The event of an update, fed back as it was written *)

Section Verbatim.

Variables D E : Z.
Variable service : Service.
Variable calendar_id : string.

(** An event whose start is the start of the match as [update_event]
    writes it is judged changed, whatever its end. *)
Lemma written_start_changed (m : Match) (written : event) (r : datetime) :
  valid (time_start m) = true -> utcoffset (time_start m) = 0 ->
  start_dateTime written = isoformat (time_start m) ->
  changed m written r = true.
Proof.
  intros Hv Ho Hs. unfold changed, different_start_times. rewrite Hs.
  now rewrite (plus_spelling_differs (time_start m) (time_start m) Ho Hv).
Qed.

(** So [update_event] sends an update for it whenever it gets as far as
    the comparison. *)
Lemma written_updated_again (m : Match) (written : event) (now e r : datetime)
      (l : list effect) :
  valid (time_start m) = true -> utcoffset (time_start m) = 0 ->
  start_dateTime written = isoformat (time_start m) ->
  from_google_date_to_datetime (end_dateTime written) = Return e ->
  update_event_end D E m e now = (l, Return r) ->
  calls (fst (update_event D E service calendar_id m written now))
  = [Update calendar_id (id written) (updated m written r)].
Proof.
  intros Hv Ho Hs He Hend.
  destruct (update_event_run D E service calendar_id m written now e r l He Hend)
    as (tail & res & Hrun & Htail & _).
  rewrite (written_start_changed m written r Hv Ho Hs) in Hrun. rewrite Hrun.
  pose proof (update_event_end_prints D E m e now) as Hl. rewrite Hend in Hl. cbn [fst] in Hl.
  cbn [fst]. rewrite calls_app, Hl. cbn [calls filter is_call app]. fold (calls tail).
  now rewrite Htail.
Qed.

(** What [update_finished_event] returns, fed back as it is, needs no
    further update when its end is read. *)
Lemma finished_fed_back (m : Match) (ev ev' : event) (now s e e' : datetime) :
  valid now = true ->
  from_google_date_to_datetime (start_dateTime ev) = Return s ->
  from_google_date_to_datetime (end_dateTime ev) = Return e ->
  snd (update_finished_event service calendar_id m ev now) = Return ev' ->
  from_google_date_to_datetime (end_dateTime ev') = Return e' ->
  update_finished_event service calendar_id m ev' now
  = ([Print (PyStr.tab ++ "Finished. No changes." ++ PyStr.nl)], Return ev').
Proof.
  intros Hvn Hs He Hret He'.
  destruct (update_finished_event_run service calendar_id m ev now s e Hs He) as [text Hrun].
  rewrite Hrun in Hret. clear Hrun.
  assert (Hquiet : forall x s1 e1,
            from_google_date_to_datetime (start_dateTime x) = Return s1 ->
            from_google_date_to_datetime (end_dateTime x) = Return e1 ->
            (utc_micros now <? utc_micros e1) && (utc_micros s1 <? utc_micros now) = false ->
            colorId x = color m ->
            update_finished_event service calendar_id m x now
            = ([Print (PyStr.tab ++ "Finished. No changes." ++ PyStr.nl)], Return x)).
  { intros x s1 e1 H1 H2 Hc Hcol. unfold update_finished_event.
    rewrite H1, bind_lift_Return, H2, bind_lift_Return. unfold gt. rewrite !lt_utc, Hc.
    rewrite Hcol, String.eqb_refl. reflexivity. }
  destruct ((utc_micros now <? utc_micros e) && (utc_micros s <? utc_micros now)) eqn:Hc.
  - cbv zeta in Hret. cbn [snd] in Hret. injection Hret as <-.
    cbn [end_dateTime] in He'.
    assert (e' = now).
    { destruct (Z.eq_dec (microsecond now) 0) as [Z0|Z0].
      - rewrite (from_google_isoformat now Hvn Z0) in He'. congruence.
      - rewrite (from_google_isoformat_microseconds now Hvn Z0) in He'. discriminate. }
    subst e'. apply (Hquiet _ s now); try assumption; try reflexivity.
    rewrite Z.ltb_irrefl. reflexivity.
  - destruct (negb (String.eqb (colorId ev) (color m))) eqn:Hcol.
    + cbv zeta in Hret. cbn [snd] in Hret. injection Hret as <-.
      now apply (Hquiet _ s e).
    + cbn [snd] in Hret. injection Hret as <-.
      apply (Hquiet _ s e); try assumption.
      apply negb_false_iff in Hcol. now apply String.eqb_eq in Hcol.
Qed.

End Verbatim.

(** C5, as the code has it. When the event of the first update comes
    back as the calendar spells it (the start of the match and the
    computed end, in UTC, cut to the second and closed by [Z], with the
    colour of the match), the second reconciliation at the same time and
    for the same match sends nothing: [update_event] prints "No change."
    (for a start of the match in UTC to the second, an existing end in
    UTC, and an extension of a minute at least) and
    [update_finished_event] prints "Finished. No changes.". Fed back as
    the code wrote it, the event [update_finished_event] returns needs
    no further update either, when its end is read. The event
    [update_event] wrote does: for a start of the match in UTC its start,
    spelled with [+00:00], is judged different from the start of the
    match, so the second reconciliation sends an update again whenever
    the end written is read, and raises [ValueError] with nothing sent
    when it is not. *)
Theorem second_reconciliation_sends_nothing
  (D E : Z) (service : Service) (cal : string) (m : Match) (ev : event) (now : datetime) :
  valid now = true -> utcoffset now = 0 ->
  (forall e r l,
      1 <= E ->
      valid (time_start m) = true -> utcoffset (time_start m) = 0 ->
      microsecond (time_start m) = 0 ->
      from_google_date_to_datetime (end_dateTime ev) = Return e -> utcoffset e = 0 ->
      update_event_end D E m e now = (l, Return r) ->
      let stored := mkevent (id ev) (summary ev) (zulu (time_start m)) (zulu r) (color m) in
      update_event D E service cal m stored now
      = ([Print (PyStr.tab ++ "No change." ++ PyStr.nl)], Return stored))
  /\ (forall s,
        from_google_date_to_datetime (start_dateTime ev) = Return s ->
        let stored := mkevent (id ev) (summary ev) (start_dateTime ev) (zulu now) (color m) in
        update_finished_event service cal m stored now
        = ([Print (PyStr.tab ++ "Finished. No changes." ++ PyStr.nl)], Return stored))
  /\ (forall s e written e',
        from_google_date_to_datetime (start_dateTime ev) = Return s ->
        from_google_date_to_datetime (end_dateTime ev) = Return e ->
        snd (update_finished_event service cal m ev now) = Return written ->
        from_google_date_to_datetime (end_dateTime written) = Return e' ->
        update_finished_event service cal m written now
        = ([Print (PyStr.tab ++ "Finished. No changes." ++ PyStr.nl)], Return written))
  /\ (forall e r l,
        valid (time_start m) = true -> utcoffset (time_start m) = 0 ->
        from_google_date_to_datetime (end_dateTime ev) = Return e ->
        update_event_end D E m e now = (l, Return r) ->
        let written := updated m ev r in
        (forall e' r' l',
            from_google_date_to_datetime (end_dateTime written) = Return e' ->
            update_event_end D E m e' now = (l', Return r') ->
            calls (fst (update_event D E service cal m written now))
            = [Update cal (id written) (updated m written r')])
        /\ (from_google_date_to_datetime (end_dateTime written) = Raise ValueError ->
            update_event D E service cal m written now = ([], Raise ValueError))).
Proof.
  intros Hvn Hon. split; [| split; [| split]].
  - intros e r l HE Hvs Hos Hus He Hoe Hend.
    now apply (second_update_event D E service cal m ev now e r l).
  - intros s Hs. now apply (second_update_finished_event service cal m ev now s).
  - intros s e written e' Hs He Hret He'.
    now apply (finished_fed_back service cal m ev written now s e e').
  - intros e r l Hvs Hos He Hend written. split.
    + intros e' r' l' He' Hend'.
      now apply (written_updated_again D E service cal m written now e' r' l').
    + intros He'. now apply (unreadable_end_raises written He' D E service cal m now).
Qed.

Lemma second_reconciliation_sends_nothing_witness :
  update_event 90 20 echo_service "cal"
    (mkMatch "A vs B" (mkdatetime 2024 5 1 14 0 0 0 0) "2" true false (fun c => c))
    (mkevent "e1" "A vs B" (zulu (mkdatetime 2024 5 1 14 0 0 0 0))
       (zulu (mkdatetime 2024 5 1 16 0 0 250000 0)) "2")
    (mkdatetime 2024 5 1 15 40 0 250000 0)
  = ([Print (PyStr.tab ++ "No change." ++ PyStr.nl)],
     Return (mkevent "e1" "A vs B" (zulu (mkdatetime 2024 5 1 14 0 0 0 0))
               (zulu (mkdatetime 2024 5 1 16 0 0 250000 0)) "2")).
Proof.
  exact (proj1 (second_reconciliation_sends_nothing 90 20 echo_service "cal"
                  (mkMatch "A vs B" (mkdatetime 2024 5 1 14 0 0 0 0) "2" true false
                     (fun c => c))
                  (mkevent "e1" "A vs B" "2024-05-01T14:00:00Z" "2024-05-01T15:00:00Z" "1")
                  (mkdatetime 2024 5 1 15 40 0 250000 0) eq_refl eq_refl)
           (mkdatetime 2024 5 1 15 0 0 0 0) (mkdatetime 2024 5 1 16 0 0 250000 0)
           [adjusting; extending]
           ltac:(lia) eq_refl eq_refl eq_refl eq_refl eq_refl eq_refl).
Defined.

(** * Dates with microseconds, written and read back *)

(** C10. [from_google_date_to_datetime] reads whole seconds only: what it
    returns has no microseconds, and a point after the seconds, whatever
    follows, is a [ValueError]; so is every [isoformat] of a datetime
    with microseconds. Both update paths write such dates when now has
    microseconds. The finished path sends one update whose end is
    [now.isoformat()]. The other path, when it extends the end of a
    match still going, sends one update whose end is
    [(now + extension).isoformat()], with the microseconds of now. An
    event that comes back with such an end makes the next reconciliation
    raise before anything is sent. *)
Theorem microseconds_refused :
  (forall s d, from_google_date_to_datetime s = Return d -> microsecond d = 0)
  /\ (forall d rest,
        valid d = true ->
        from_google_date_to_datetime (format_local (whole_second d) ++ "." ++ rest)
        = Raise ValueError)
  /\ (forall d,
        valid d = true -> microsecond d <> 0 ->
        from_google_date_to_datetime (isoformat d) = Raise ValueError)
  /\ (forall service cal m ev now s e,
        valid now = true -> microsecond now <> 0 ->
        from_google_date_to_datetime (start_dateTime ev) = Return s ->
        from_google_date_to_datetime (end_dateTime ev) = Return e ->
        utc_micros e > utc_micros now /\ utc_micros now > utc_micros s ->
        exists ev',
          snd (update_finished_event service cal m ev now) = Return ev'
          /\ calls (fst (update_finished_event service cal m ev now))
             = [Update cal (id ev) ev']
          /\ end_dateTime ev' = isoformat now
          /\ forall D E service' cal' m' now',
               update_event D E service' cal' m' ev' now' = ([], Raise ValueError)
               /\ update_finished_event service' cal' m' ev' now' = ([], Raise ValueError))
  /\ (forall D E service cal m ev now e r l,
        valid now = true -> utcoffset now = 0 -> microsecond now <> 0 ->
        from_google_date_to_datetime (end_dateTime ev) = Return e ->
        update_event_end D E m e now = (l, Return r) -> In extending l ->
        (exists td', timedelta_minutes E = Return td' /\ add now td' = Return r)
        /\ utc_micros r = utc_micros now + minutes E
        /\ microsecond r = microsecond now
        /\ calls (fst (update_event D E service cal m ev now))
           = [Update cal (id ev) (updated m ev r)]
        /\ end_dateTime (updated m ev r) = isoformat r
        /\ from_google_date_to_datetime (isoformat r) = Raise ValueError
        /\ forall ev',
             end_dateTime ev' = isoformat r ->
             forall D' E' service' cal' m' now',
               update_event D' E' service' cal' m' ev' now' = ([], Raise ValueError)
               /\ update_finished_event service' cal' m' ev' now'
                  = ([], Raise ValueError)).
Proof.
  split; [| split; [| split; [| split]]].
  - intros s d H. now apply (from_google_whole s d).
  - intros d rest H. now apply from_google_fraction.
  - intros d Hv Hus. now apply from_google_isoformat_microseconds.
  - intros service cal m ev now s e Hv Hus Hs He [H1 H2].
    destruct (update_finished_event_run service cal m ev now s e Hs He) as [text Hrun].
    assert (Hc : (utc_micros now <? utc_micros e) && (utc_micros s <? utc_micros now) = true)
      by (apply andb_true_iff; split; apply Z.ltb_lt; lia).
    rewrite Hc in Hrun. cbv zeta in Hrun. rewrite Hrun.
    eexists. split; [reflexivity |]. split; [reflexivity |]. split; [reflexivity |].
    apply unreadable_end_raises. cbn [end_dateTime].
    now apply from_google_isoformat_microseconds.
  - intros D E service cal m ev now e r l Hv Ho Hus He Hend Hext.
    destruct (update_event_end_extended D E m e now r l Hend Hext) as (td' & Htd' & Hadd).
    pose proof (add_minutes_microsecond now r E td' Hv Htd' Hadd) as Hr.
    pose proof (add_valid now r td' Hv Hadd) as Hvr.
    destruct (add_spec _ _ _ Hadd) as (_ & Hor & _). rewrite Ho in Hor.
    assert (Hread : from_google_date_to_datetime (isoformat r) = Raise ValueError)
      by (apply from_google_isoformat_microseconds; [exact Hvr | now rewrite Hr]).
    split; [now exists td' |]. split.
    { pose proof (add_utc _ _ _ Hadd) as Hu. apply timedelta_minutes_spec in Htd'.
      unfold minutes. change US_PER_MINUTE with 60000000. lia. }
    split; [exact Hr |]. split.
    + destruct (update_event_run D E service cal m ev now e r l He Hend)
        as (tail & res & Hrun & Htail & _).
      assert (Hch : changed m ev r = true).
      { unfold changed. rewrite (microseconds_differ ev e r He Hvr Hor) by congruence.
        now rewrite orb_true_r. }
      rewrite Hch in Hrun. rewrite Hrun. cbn [fst].
      pose proof (update_event_end_prints D E m e now) as Hl. rewrite Hend in Hl.
      cbn [fst] in Hl. rewrite calls_app, Hl. cbn [calls filter is_call app].
      fold (calls tail). now rewrite Htail.
    + split; [reflexivity |]. split; [exact Hread |].
      intros ev' Hev'. apply unreadable_end_raises. now rewrite Hev'.
Qed.

Lemma microseconds_refused_witness :
  calls (fst (update_event 90 20 echo_service "cal"
                (mkMatch "A vs B" (mkdatetime 2024 5 1 14 0 0 0 0) "2" true false
                   (fun c => c))
                (mkevent "e1" "A vs B" "2024-05-01T14:00:00Z" "2024-05-01T15:30:00Z" "2")
                (mkdatetime 2024 5 1 15 40 0 250000 0)))
  = [Update "cal" "e1"
       (updated
          (mkMatch "A vs B" (mkdatetime 2024 5 1 14 0 0 0 0) "2" true false (fun c => c))
          (mkevent "e1" "A vs B" "2024-05-01T14:00:00Z" "2024-05-01T15:30:00Z" "2")
          (mkdatetime 2024 5 1 16 0 0 250000 0))]
  /\ from_google_date_to_datetime (isoformat (mkdatetime 2024 5 1 16 0 0 250000 0))
     = Raise ValueError.
Proof.
  destruct microseconds_refused as (_ & _ & _ & _ & H).
  refine ((fun P => conj (proj1 (proj2 (proj2 (proj2 P))))
                         (proj1 (proj2 (proj2 (proj2 (proj2 (proj2 P)))))))
            (H 90 20 echo_service "cal"
               (mkMatch "A vs B" (mkdatetime 2024 5 1 14 0 0 0 0) "2" true false
                  (fun c => c))
               (mkevent "e1" "A vs B" "2024-05-01T14:00:00Z" "2024-05-01T15:30:00Z" "2")
               (mkdatetime 2024 5 1 15 40 0 250000 0)
               (mkdatetime 2024 5 1 15 30 0 0 0) (mkdatetime 2024 5 1 16 0 0 250000 0)
               [extending] eq_refl eq_refl _ _ _ (or_introl eq_refl)));
    [discriminate | vm_compute; reflexivity | vm_compute; reflexivity].
Defined.

(** * What a failure leaves behind *)

(** X5. What the failures of the code's own date handling leave behind,
    in runs where the calendar answers every request. When
    [create_event] raises [OverflowError] (a date out of range) it has
    inserted and printed nothing. When [update_finished_event] raises
    [ValueError] it is on a stored start or end it cannot read, with
    nothing sent or printed. When [update_event] raises [OverflowError]
    nothing was sent; when it raises [ValueError] it is either on a
    stored end it cannot read, with nothing sent or printed, or in its
    report, with the update already sent. *)
Theorem failures_and_what_was_sent
  (D E : Z) (service : Service) (cal : string) (m : Match) (now : datetime)
  (l : list effect) :
  (create_event D E cal m now = (l, Raise OverflowError) -> l = [])
  /\ (forall ev,
        update_finished_event service cal m ev now = (l, Raise ValueError) ->
        l = []
        /\ (from_google_date_to_datetime (start_dateTime ev) = Raise ValueError
            \/ from_google_date_to_datetime (end_dateTime ev) = Raise ValueError))
  /\ (forall ev,
        update_event D E service cal m ev now = (l, Raise OverflowError) -> calls l = [])
  /\ (forall ev,
        update_event D E service cal m ev now = (l, Raise ValueError) ->
        l = [] /\ from_google_date_to_datetime (end_dateTime ev) = Raise ValueError
        \/ exists body, calls l = [Update cal (id ev) body]).
Proof.
  split; [| split; [| split]].
  - intros H. now apply create_event_raises in H.
  - intros ev H. apply update_finished_event_raises in H as (Hl & _ & y & Hy).
    split; [exact Hl |].
    destruct Hy as [Hy|Hy]; pose proof (from_google_raises _ _ Hy) as ->; auto.
  - intros ev H. apply update_event_raises in H as [[_ Hc]|[Hx _]];
      [exact Hc | discriminate].
  - intros ev H. apply update_event_raises in H as [[Hx _]|[_ Hc]];
      [discriminate | exact Hc].
Qed.

Lemma failures_and_what_was_sent_witness :
  [] = ([] : list effect).
Proof.
  refine (proj1 (failures_and_what_was_sent 90 20 echo_service "cal"
                   (mkMatch "A vs B" (mkdatetime 9999 12 31 23 0 0 0 0) "2" false false
                      (fun c => c))
                   (mkdatetime 2024 5 1 15 40 0 0 0) []) _).
  vm_compute. reflexivity.
Defined.
